(** * CCTNS copilot engine: query translation and secure execution gateway

    A shallow embedding of
      - [models/sql_executor.py]   (class [SQLExecutor]),
      - [models/nl2sql_processor.py] (class [NL2SQLProcessor]),
      - [agents/query_agent.py]    (class [QueryAgent]),
      - [api/main.py]              (the endpoint [process_query]),
      - [models/stt_processor.py]  (class [IndianSTTProcessor]),
      - [agents/voice_agent.py]    (class [VoiceAgent]),
    followed by the properties of the specification that concern them
    and by further properties of the code.

    Conventions of the embedding.
      - A Python [str] is a [string]; the text is ASCII, so that
        [str.upper], [str.lower], [str.strip] and the [re.IGNORECASE]
        comparison act on the letters a-z / A-Z and on the ASCII
        white space only.
      - Python [int] counters are [Z]; [float] durations and averages
        are exact rationals [Q] (rounding is not modelled).
      - A call that may raise returns a [PyOutcome]; [try/except] is a
        [match] on it.
      - [sqlparse], the database driver and the wall clock are not part
        of the repository: they are arguments of the functions that use
        them. *)

From Stdlib Require Import String Ascii List Bool Arith ZArith QArith Lia.
From Stdlib Require Import Qfield DecimalString.
Import ListNotations.

Open Scope string_scope.

(* ------------------------------------------------------------------ *)
(** ** Python string primitives *)

Module PyStr.

Definition code (c : ascii) : nat := nat_of_ascii c.

Definition is_lower (c : ascii) : bool := (97 <=? code c)%nat && (code c <=? 122)%nat.
Definition is_upper (c : ascii) : bool := (65 <=? code c)%nat && (code c <=? 90)%nat.
Definition is_alpha (c : ascii) : bool := is_lower c || is_upper c.
Definition is_digit (c : ascii) : bool := (48 <=? code c)%nat && (code c <=? 57)%nat.

  (** [str.isspace] on ASCII: TAB, LF, VT, FF, CR, FS, GS, RS, US, SPACE. *)
Definition is_space (c : ascii) : bool :=
    ((9 <=? code c)%nat && (code c <=? 13)%nat)
    || ((28 <=? code c)%nat && (code c <=? 32)%nat).

Definition upper_char (c : ascii) : ascii :=
    if is_lower c then ascii_of_nat (code c - 32) else c.
Definition lower_char (c : ascii) : ascii :=
    if is_upper c then ascii_of_nat (code c + 32) else c.

Fixpoint map_chars (f : ascii -> ascii) (s : string) : string :=
    match s with
    | EmptyString => EmptyString
    | String c s' => String (f c) (map_chars f s')
    end.

  (** [s.upper()], [s.lower()], on a text of ASCII characters *)
Definition upper : string -> string := map_chars upper_char.
Definition lower : string -> string := map_chars lower_char.

  (** [s.lstrip()], [s.rstrip()], [s.strip()] *)
Fixpoint lstrip (s : string) : string :=
    match s with
    | EmptyString => EmptyString
    | String c s' => if is_space c then lstrip s' else s
    end.

Fixpoint rstrip (s : string) : string :=
    match s with
    | EmptyString => EmptyString
    | String c s' =>
        match rstrip s' with
        | EmptyString => if is_space c then EmptyString else String c EmptyString
        | r => String c r
        end
    end.

Definition strip (s : string) : string := rstrip (lstrip s).

  (** [s.startswith(p)] *)
Fixpoint startswith (s p : string) : bool :=
    match p, s with
    | EmptyString, _ => true
    | String _ _, EmptyString => false
    | String a p', String b s' => Ascii.eqb a b && startswith s' p'
    end.

  (** [sub in s] *)
Fixpoint contains (sub s : string) : bool :=
    startswith s sub
    || match s with
       | EmptyString => false
       | String _ s' => contains sub s'
       end.

  (** [s.count(sub)] for a non-empty [sub]: occurrences are counted from
      the left and do not overlap; [skip] is the number of characters of
      the occurrence just counted that are still to be passed. *)
Fixpoint count_from (sub s : string) (skip : nat) : nat :=
    match s with
    | EmptyString => 0
    | String _ s' =>
        match skip with
        | S k => count_from sub s' k
        | O => if startswith s sub
               then S (count_from sub s' (String.length sub - 1))
               else count_from sub s' 0
        end
    end.

Definition count (s sub : string) : nat := count_from sub s 0.

  (** [s.title()]: a letter that follows a letter is lowered, any other
      letter is raised. *)
Fixpoint title_from (prev_cased : bool) (s : string) : string :=
    match s with
    | EmptyString => EmptyString
    | String c s' =>
        String (if prev_cased then lower_char c else upper_char c)
               (title_from (is_alpha c) s')
    end.

Definition title : string -> string := title_from false.

  (** [s.split()[0]] for a string that holds a word: the first maximal
      run of characters that are not white space. *)
Fixpoint take_word (s : string) : string :=
    match s with
    | EmptyString => EmptyString
    | String c s' => if is_space c then EmptyString else String c (take_word s')
    end.

Definition first_word (s : string) : string := take_word (lstrip s).

  (** Truthiness of a string: [bool(s)]. *)
Definition truthy (s : string) : bool := negb (String.eqb s "").

Definition nl : string := String (ascii_of_nat 10) "".

End PyStr.

(* ------------------------------------------------------------------ *)
(** ** The fragment of [re] the sources use

    The six injection patterns are concatenations of literals and [.*];
    [re.search] asks whether some position starts a match, so greediness
    plays no role.  [.] matches every character but the line feed, and
    under [re.IGNORECASE] two letters match when they agree up to case. *)

Module PyRe.

Inductive item : Type :=
  | Lit (s : string)
  | DotStar.

Definition regex : Type := list item.

  (** Two characters that [re.IGNORECASE] takes for one another, on a
      text and a pattern of ASCII characters. *)
Definition char_eq_ci (a b : ascii) : bool :=
    Ascii.eqb (PyStr.upper_char a) (PyStr.upper_char b).

  (** The rest of [s] after the literal [l], compared without case. *)
Fixpoint strip_lit_ci (l s : string) : option string :=
    match l, s with
    | EmptyString, _ => Some s
    | String _ _, EmptyString => None
    | String a l', String b s' =>
        if char_eq_ci a b then strip_lit_ci l' s' else None
    end.

Definition is_newline (c : ascii) : bool := (PyStr.code c =? 10)%nat.

  (** [match_here p s]: [p] matches a prefix of [s]. *)
Fixpoint match_here (p : regex) : string -> bool :=
    match p with
    | [] => fun _ => true
    | Lit l :: p' =>
        fun s => match strip_lit_ci l s with
                 | Some rest => match_here p' rest
                 | None => false
                 end
    | DotStar :: p' =>
        fix star (s : string) : bool :=
          match_here p' s
          || match s with
             | EmptyString => false
             | String c s' => negb (is_newline c) && star s'
             end
    end.

  (** [re.search(p, s, re.IGNORECASE) is not None] *)
Fixpoint search (p : regex) (s : string) : bool :=
    match_here p s
    || match s with
       | EmptyString => false
       | String _ s' => search p s'
       end.

End PyRe.

(* ------------------------------------------------------------------ *)
(** ** Outcome of a Python call *)

Inductive PyOutcome (A : Type) : Type :=
| Return (a : A)
| Raise (message : string).

Arguments Return {A} a.
Arguments Raise {A} message.

(* ------------------------------------------------------------------ *)
(** ** The interface of [sqlparse] that the sources rely on

    A token type of [sqlparse.tokens] is a path below the root [Token]:
    [Keyword] is [["Keyword"]], [Keyword.DML] is [["Keyword"; "DML"]].
    Only grouping nodes carry the type [None].  A statement is used
    through [statement.flatten()] alone, so it is the list of the tokens
    that [flatten] yields. *)

Module SqlParse.

Definition TokenType : Type := list string.

Record Token : Type := mkToken {
    ttype : option TokenType;
    value : string
  }.

Definition Statement : Type := list Token.

Definition Keyword : TokenType := ["Keyword"].

Fixpoint is_prefix (p l : list string) : bool :=
    match p, l with
    | [], _ => true
    | _ :: _, [] => false
    | a :: p', b :: l' => String.eqb a b && is_prefix p' l'
    end.

  (** [t in parent]: [t] is [parent] or one of its sub-types. *)
Definition ttype_in (t : option TokenType) (parent : TokenType) : bool :=
    match t with
    | None => false
    | Some p => is_prefix parent p
    end.

  (** [t is parent] *)
Definition ttype_is (t : option TokenType) (parent : TokenType) : bool :=
    match t with
    | None => false
    | Some p => if list_eq_dec string_dec p parent then true else false
    end.

Definition ttype_is_None (t : option TokenType) : bool :=
    match t with
    | None => true
    | Some _ => false
    end.

  (** [sqlparse.parse]: the statements of a text, or an exception. *)
Definition Parser : Type := string -> PyOutcome (list Statement).

End SqlParse.

(* ------------------------------------------------------------------ *)
(** ** The database boundary (SQLAlchemy engine and connection) *)

Module Db.

Inductive Value : Type :=
  | VNull
  | VInt (z : Z)
  | VNum (q : Q)
  | VStr (s : string).

Definition Params : Type := list (string * Value).

  (** What a cursor holds: all the rows of the answer, and its keys. *)
Record ResultSet : Type := mkResultSet {
    rs_rows : list (list Value);
    rs_keys : list string
  }.

  (** [result.fetchmany(size)] on a fresh cursor: the first [size] rows
      for a positive [size]; a size that is not positive sets no limit,
      as the DB-API cursors behind the engine read it, and all the rows
      are fetched. *)
Definition fetchmany {A : Type} (size : Z) (rows : list A) : list A :=
    if (0 <? size)%Z then firstn (Z.to_nat size) rows else rows.

  (** [conn.execute(text(stmt), params)] *)
Definition Connection : Type := string -> Params -> PyOutcome ResultSet.

  (** [engine.connect()] *)
Definition Database : Type := PyOutcome Connection.

  (** A Python [dict] built by insertion: a key set again keeps its place
      and takes the new value. *)
Fixpoint dict_set {V : Type} (k : string) (v : V) (d : list (string * V))
    : list (string * V) :=
    match d with
    | [] => [(k, v)]
    | (k', v') :: d' =>
        if String.eqb k k' then (k, v) :: d' else (k', v') :: dict_set k v d'
    end.

  (** [dict(pairs)] *)
Definition dict_of_pairs {V : Type} (pairs : list (string * V))
    : list (string * V) :=
    fold_left (fun d kv => dict_set (fst kv) (snd kv) d) pairs [].

Definition RowDict : Type := list (string * Value).

End Db.

(** [str(n)] for a Python [int]. *)
Definition str_of_Z (z : Z) : string :=
  DecimalString.NilZero.string_of_int (Z.to_int z).

(* ------------------------------------------------------------------ *)
(** ** [models/sql_executor.py]: class [SQLExecutor] *)

Module SQLExecutor.

Import PyStr.

(** *** Security validation *)

(** The dictionary [{"valid": ..., "reason": ...}]. *)
Record SecurityCheck : Type := mkSecurityCheck {
  valid : bool;
  reason : string
}.

Definition dangerous_keywords : list string :=
  [ "DROP"; "DELETE"; "UPDATE"; "INSERT"; "ALTER"; "CREATE";
    "TRUNCATE"; "REPLACE"; "MERGE"; "GRANT"; "REVOKE";
    "EXECUTE"; "EXEC"; "CALL"; "DECLARE"; "BEGIN"; "END" ].

(** [f' {keyword} ' in f' {sql_upper} ' or sql_upper.startswith(keyword)] *)
Definition keyword_hit (sql_upper keyword : string) : bool :=
  contains (" " ++ keyword ++ " ") (" " ++ sql_upper ++ " ")
  || startswith sql_upper keyword.

(** The injection patterns: the text of each one, as the reason quotes
    it, and its reading as a regular expression. *)
Definition injection_patterns : list (string * PyRe.regex) :=
  [ ("'.*OR.*'.*='.*'",
     [PyRe.Lit "'"; PyRe.DotStar; PyRe.Lit "OR"; PyRe.DotStar; PyRe.Lit "'";
      PyRe.DotStar; PyRe.Lit "='"; PyRe.DotStar; PyRe.Lit "'"]);
    ("'.*UNION.*SELECT",
     [PyRe.Lit "'"; PyRe.DotStar; PyRe.Lit "UNION"; PyRe.DotStar;
      PyRe.Lit "SELECT"]);
    ("--", [PyRe.Lit "--"]);
    ("/\*.*\*/", [PyRe.Lit "/*"; PyRe.DotStar; PyRe.Lit "*/"]);
    ("xp_cmdshell", [PyRe.Lit "xp_cmdshell"]);
    ("sp_.*", [PyRe.Lit "sp_"; PyRe.DotStar]) ].

Definition _validate_sql_security (sql : string) : SecurityCheck :=
  let sql_upper := strip (upper sql) in
  match find (keyword_hit sql_upper) dangerous_keywords with
  | Some keyword =>
      {| valid := false;
         reason := "Dangerous keyword '" ++ keyword ++ "' not allowed" |}
  | None =>
      if negb (startswith sql_upper "SELECT") then
        {| valid := false; reason := "Only SELECT statements are allowed" |}
      else
        match find (fun p => PyRe.search (snd p) sql) injection_patterns with
        | Some pattern =>
            {| valid := false;
               reason := "Potential SQL injection detected: " ++ fst pattern |}
        | None =>
            if (10 <? count sql "JOIN")%nat then
              {| valid := false; reason := "Too many JOINs (max 10 allowed)" |}
            else if (5 <? count sql "SELECT")%nat then
              {| valid := false;
                 reason := "Too many subqueries (max 5 allowed)" |}
            else
              {| valid := true; reason := "Security validation passed" |}
        end
  end.

(** *** Parsing and the table allow-list *)

(** The two shapes of the dictionary [_parse_and_validate_sql] returns. *)
Inductive ParsingResult : Type :=
| ParseRejected (reason : string)
| ParseAccepted (query_type : string) (tables : list string)
                (columns : list string).

Definition parsing_valid (r : ParsingResult) : bool :=
  match r with
  | ParseRejected _ => false
  | ParseAccepted _ _ _ => true
  end.

Definition _get_query_type (statement : SqlParse.Statement) : string :=
  match find (fun token => SqlParse.ttype_in (SqlParse.ttype token)
                                             SqlParse.Keyword) statement with
  | Some token => upper (SqlParse.value token)
  | None => "UNKNOWN"
  end.

Definition not_a_table : list string :=
  [ "WHERE"; "JOIN"; "LEFT"; "RIGHT"; "INNER"; "OUTER" ].

Definition mem_string (s : string) (l : list string) : bool :=
  existsb (String.eqb s) l.

(** The loop of [_extract_tables], from the state [from_seen]. *)
Fixpoint extract_tables_from (from_seen : bool) (tokens : list SqlParse.Token)
  : list string :=
  match tokens with
  | [] => []
  | token :: rest =>
      if SqlParse.ttype_is (SqlParse.ttype token) SqlParse.Keyword
         && String.eqb (upper (SqlParse.value token)) "FROM"
      then extract_tables_from true rest
      else if from_seen
              && SqlParse.ttype_is_None (SqlParse.ttype token)
              && truthy (strip (SqlParse.value token))
      then
        let table_name := first_word (strip (SqlParse.value token)) in
        if negb (mem_string (upper table_name) not_a_table)
        then table_name :: extract_tables_from from_seen rest
        else extract_tables_from from_seen rest
      else extract_tables_from from_seen rest
  end.

Definition _extract_tables (statement : SqlParse.Statement) : list string :=
  extract_tables_from false statement.

(** The loop of [_extract_columns], from the state [select_seen]; it
    stops at the first [FROM] that follows a [SELECT]. *)
Fixpoint extract_columns_from (select_seen : bool)
  (tokens : list SqlParse.Token) : list string :=
  match tokens with
  | [] => []
  | token :: rest =>
      let is_kw := SqlParse.ttype_is (SqlParse.ttype token) SqlParse.Keyword in
      if is_kw && String.eqb (upper (SqlParse.value token)) "SELECT"
      then extract_columns_from true rest
      else if select_seen && is_kw
              && String.eqb (upper (SqlParse.value token)) "FROM"
      then []
      else if select_seen
              && SqlParse.ttype_is_None (SqlParse.ttype token)
              && truthy (strip (SqlParse.value token))
      then
        let col_name := strip (SqlParse.value token) in
        if negb (String.eqb col_name ",") && negb (String.eqb col_name "*")
        then col_name :: extract_columns_from select_seen rest
        else extract_columns_from select_seen rest
      else extract_columns_from select_seen rest
  end.

Definition _extract_columns (statement : SqlParse.Statement) : list string :=
  extract_columns_from false statement.

Definition allowed_tables : list string :=
  [ "DISTRICT_MASTER"; "STATION_MASTER"; "OFFICER_MASTER";
    "CRIME_TYPE_MASTER"; "FIR"; "ARREST" ].

Definition table_allowed (table : string) : bool :=
  mem_string (upper table) allowed_tables.

Definition _parse_and_validate_sql (parse : SqlParse.Parser) (sql : string)
  : ParsingResult :=
  match parse sql with
  | Raise e => ParseRejected ("SQL parsing error: " ++ e)
  | Return [] => ParseRejected "Failed to parse SQL"
  | Return (statement :: _) =>
      let query_type := _get_query_type statement in
      let tables := _extract_tables statement in
      let columns := _extract_columns statement in
      match find (fun table => negb (table_allowed table)) tables with
      | Some table =>
          ParseRejected ("Access to table '" ++ table ++ "' not allowed")
      | None => ParseAccepted query_type tables columns
      end
  end.

(** *** Execution statistics *)

(** [self.execution_stats] *)
Record ExecutionStats : Type := mkStats {
  total_queries : Z;
  successful_queries : Z;
  failed_queries : Z;
  avg_execution_time : Q
}.

Definition initial_stats : ExecutionStats :=
  {| total_queries := 0; successful_queries := 0; failed_queries := 0;
     avg_execution_time := 0 |}.

(** The object: [engine] is [Some] connection string when
    [_initialize_connection] established the engine and [None]
    otherwise ([__init__] sets the statistics to [initial_stats]). *)
Record SQLExecutor : Type := mkExecutor {
  engine : option string;
  max_results : Z;
  timeout : Z;
  execution_stats : ExecutionStats
}.

Definition __init__ (engine : option string) (max_results : Z) (timeout : Z)
  : SQLExecutor :=
  {| engine := engine; max_results := max_results; timeout := timeout;
     execution_stats := initial_stats |}.

Definition with_stats (self : SQLExecutor) (st : ExecutionStats) : SQLExecutor :=
  {| engine := engine self; max_results := max_results self;
     timeout := timeout self; execution_stats := st |}.

(** [_update_execution_stats]: the counter is written before the average
    is computed, and the division raises when [total_queries] is zero. *)
Definition _update_execution_stats (st : ExecutionStats) (execution_time : Q)
  (success : bool) : PyOutcome unit * ExecutionStats :=
  let st1 :=
    if success
    then {| total_queries := total_queries st;
            successful_queries := successful_queries st + 1;
            failed_queries := failed_queries st;
            avg_execution_time := avg_execution_time st |}
    else {| total_queries := total_queries st;
            successful_queries := successful_queries st;
            failed_queries := failed_queries st + 1;
            avg_execution_time := avg_execution_time st |} in
  let total := total_queries st1 in
  let current_avg := avg_execution_time st1 in
  if (total =? 0)%Z then (Raise "float division by zero", st1)
  else
    (Return tt,
     {| total_queries := total_queries st1;
        successful_queries := successful_queries st1;
        failed_queries := failed_queries st1;
        avg_execution_time :=
          (current_avg * inject_Z (total - 1) + execution_time)
          / inject_Z total |}).

(** *** Responses *)

Record Metadata : Type := mkMetadata {
  query_type : option string;
  tables_accessed : option (list string);
  timestamp : Q
}.

(** The dictionary [execute_sql] returns; a key that a shape does not
    have is [None]. *)
Record Response : Type := mkResponse {
  success : bool;
  error : option string;
  results : list Db.RowDict;
  columns : list string;
  row_count : Z;
  execution_time : Q;
  sql_executed : option string;
  metadata : Metadata
}.

Definition _error_response (now : Q) (error_message : string) : Response :=
  {| success := false;
     error := Some error_message;
     results := [];
     columns := [];
     row_count := 0;
     execution_time := 0;
     sql_executed := None;
     metadata := {| query_type := None; tables_accessed := None;
                    timestamp := now |} |}.

(** *** Execution *)

(** What one call observes of the world: the database behind the
    engine, and the readings of [time.time()] at entry, after the
    execution attempt and when the response is stamped. *)
Record World : Type := mkWorld {
  database : Db.Database;
  t_start : Q;
  t_end : Q;
  t_stamp : Q
}.

(** What a call does that can be observed from outside. *)
Inductive Event : Type :=
| EvExecuteWithTimeout (sql : string)
| EvDbStatement (text : string).

(** The result of [_execute_with_timeout]: [{"data", "columns"}]. *)
Record QueryData : Type := mkQueryData {
  data : list Db.RowDict;
  data_columns : list string
}.

Definition params_or_empty (params : option Db.Params) : Db.Params :=
  match params with
  | Some p => p
  | None => []
  end.

Definition sqlalchemy_error (e : string) : string :=
  "Query execution failed: " ++ e.

Definition _execute_with_timeout (self : SQLExecutor) (w : World)
  (sql : string) (params : option Db.Params)
  : PyOutcome QueryData * list Event :=
  let entered := [EvExecuteWithTimeout sql] in
  match database w with
  | Raise e => (Raise (sqlalchemy_error e), entered)
  | Return conn =>
      let set_timeout :=
        "ALTER SESSION SET query_timeout = " ++ str_of_Z (timeout self) in
      match conn set_timeout [] with
      | Raise e => (Raise (sqlalchemy_error e),
                    (entered ++ [EvDbStatement set_timeout])%list)
      | Return _ =>
          let sent :=
            (entered ++ [EvDbStatement set_timeout; EvDbStatement sql])%list in
          match conn sql (params_or_empty params) with
          | Raise e => (Raise (sqlalchemy_error e), sent)
          | Return result =>
              let rows := Db.fetchmany (max_results self) (Db.rs_rows result) in
              let columns := Db.rs_keys result in
              (Return {| data := map (fun row => Db.dict_of_pairs
                                                   (combine columns row)) rows;
                         data_columns := columns |},
               sent)
          end
      end
  end.

(** The body of the [try] block of [execute_sql]. *)
Definition execute_sql_body (parse : SqlParse.Parser) (self : SQLExecutor)
  (w : World) (sql : string) (params : option Db.Params)
  : PyOutcome Response * SQLExecutor * list Event :=
  let security_check := _validate_sql_security sql in
  if negb (valid security_check) then
    (Return (_error_response (t_stamp w)
               ("Security validation failed: " ++ reason security_check)),
     self, [])
  else
    match _parse_and_validate_sql parse sql with
    | ParseRejected parse_reason =>
        (Return (_error_response (t_stamp w)
                   ("SQL validation failed: " ++ parse_reason)),
         self, [])
    | ParseAccepted qtype tables _ =>
        match _execute_with_timeout self w sql params with
        | (Raise e, trace) => (Raise e, self, trace)
        | (Return result, trace) =>
            let execution_time := t_end w - t_start w in
            match _update_execution_stats (execution_stats self)
                                          execution_time true with
            | (Raise e, st) => (Raise e, with_stats self st, trace)
            | (Return _, st) =>
                (Return {| success := true;
                           error := None;
                           results := data result;
                           columns := data_columns result;
                           row_count := Z.of_nat (List.length (data result));
                           execution_time := execution_time;
                           sql_executed := Some sql;
                           metadata :=
                             {| query_type := Some qtype;
                                tables_accessed := Some tables;
                                timestamp := t_stamp w |} |},
                 with_stats self st, trace)
            end
        end
    end.

Definition bump_total (st : ExecutionStats) : ExecutionStats :=
  {| total_queries := total_queries st + 1;
     successful_queries := successful_queries st;
     failed_queries := failed_queries st;
     avg_execution_time := avg_execution_time st |}.

(** [execute_sql]: the outcome of the call, the object after it, and the
    events of the call. *)
Definition execute_sql (parse : SqlParse.Parser) (self : SQLExecutor)
  (w : World) (sql : string) (params : option Db.Params)
  : PyOutcome Response * SQLExecutor * list Event :=
  match engine self with
  | None =>
      (Return (_error_response (t_stamp w) "No database connection available"),
       self, [])
  | Some _ =>
      let self1 := with_stats self (bump_total (execution_stats self)) in
      match execute_sql_body parse self1 w sql params with
      | (Return r, self2, trace) => (Return r, self2, trace)
      | (Raise e, self2, trace) =>
          let execution_time := t_end w - t_start w in
          match _update_execution_stats (execution_stats self2)
                                        execution_time false with
          | (Raise e', st) => (Raise e', with_stats self2 st, trace)
          | (Return _, st) =>
              (Return (_error_response (t_stamp w) e),
               with_stats self2 st, trace)
          end
      end
  end.

(** A call of [execute_sql], and a run of calls on the same object. *)
Record Call : Type := mkCall {
  call_world : World;
  call_sql : string;
  call_params : option Db.Params
}.

Definition step (parse : SqlParse.Parser) (self : SQLExecutor) (c : Call)
  : SQLExecutor :=
  snd (fst (execute_sql parse self (call_world c) (call_sql c) (call_params c))).

Definition run (parse : SqlParse.Parser) (self : SQLExecutor)
  (calls : list Call) : SQLExecutor :=
  fold_left (step parse) calls self.

(** *** [test_connection] *)

Definition probe_sql : string :=
  "SELECT 'Connection OK' as status, SYSDATE as current_time FROM DUAL".

(** The two shapes of the dictionary [test_connection] returns: the one
    of its [try] block, with the keys [connected], [details] and
    [error], and the one of its handler, with [connected = False] and
    the message of the exception. *)
Inductive ConnectionTest : Type :=
| Probed (connected : bool) (details : option Db.RowDict)
         (probe_error : option string)
| ProbeRaised (message : string).

Definition connected_of (t : ConnectionTest) : bool :=
  match t with
  | Probed connected _ _ => connected
  | ProbeRaised _ => false
  end.

Definition test_connection (parse : SqlParse.Parser) (self : SQLExecutor)
  (w : World) : ConnectionTest * SQLExecutor * list Event :=
  match execute_sql parse self w probe_sql None with
  | (Raise e, self', trace) => (ProbeRaised e, self', trace)
  | (Return result, self', trace) =>
      if success result then
        match results result with
        | [] => (ProbeRaised "list index out of range", self', trace)
        | row :: _ => (Probed true (Some row) None, self', trace)
        end
      else (Probed false None (error result), self', trace)
  end.

(** *** [__init__] and [_initialize_connection]

    The fields of [config/settings.py] that the executor reads, with
    their defaults. *)
Record Settings : Type := mkSettings {
  ORACLE_CONNECTION_STRING : option string;
  SQL_TIMEOUT : Z;
  SQL_MAX_RESULTS : Z
}.

Definition default_settings : Settings :=
  {| ORACLE_CONNECTION_STRING := None; SQL_TIMEOUT := 30;
     SQL_MAX_RESULTS := 1000 |}.

(** What the start of the process meets: whether [create_engine]
    raises, the database behind the engine, and whether
    [MetaData.reflect] raises.  The statements that the engine and the
    reflection send of their own are not modelled. *)
Record Startup : Type := mkStartup {
  create_engine : string -> PyOutcome unit;
  startup_database : Db.Database;
  reflect : PyOutcome unit
}.

Definition connection_probe : string := "SELECT 1 FROM DUAL".

(** [_initialize_connection]: the engine it leaves in [self.engine]. *)
Definition _initialize_connection (env : Startup) (connection_string : string)
  : option string :=
  match create_engine env connection_string with
  | Raise _ => None
  | Return _ =>
      match startup_database env with
      | Raise _ => None
      | Return conn =>
          match conn connection_probe [] with
          | Raise _ => None
          | Return _ =>
              match reflect env with
              | Raise _ => None
              | Return _ => Some connection_string
              end
          end
      end
  end.

(** [connection_string or settings.ORACLE_CONNECTION_STRING] *)
Definition connection_string_or (settings : Settings)
  (connection_string : option string) : option string :=
  match connection_string with
  | Some s => if truthy s then Some s else ORACLE_CONNECTION_STRING settings
  | None => ORACLE_CONNECTION_STRING settings
  end.

(** [SQLExecutor(connection_string)] *)
Definition construct (settings : Settings) (env : Startup)
  (connection_string : option string) : SQLExecutor :=
  match connection_string_or settings connection_string with
  | Some s =>
      if truthy s then
        __init__ (_initialize_connection env s)
                 (SQL_MAX_RESULTS settings) (SQL_TIMEOUT settings)
      else __init__ None (SQL_MAX_RESULTS settings) (SQL_TIMEOUT settings)
  | None => __init__ None (SQL_MAX_RESULTS settings) (SQL_TIMEOUT settings)
  end.

End SQLExecutor.

(* ------------------------------------------------------------------ *)
(** ** [models/nl2sql_processor.py]: class [NL2SQLProcessor] *)

Module NL2SQLProcessor.

Import PyStr.

(** The dictionary [generate_sql] returns; a key that a shape does not
    have is [None]. *)
Record SqlResult : Type := mkSqlResult {
  sql : string;
  confidence : Q;
  method : option string;
  valid : option bool;
  error : option string
}.

Definition districts : list string :=
  [ "guntur"; "vijayawada"; "visakhapatnam"; "tirupati"; "kurnool" ].

Definition _extract_district (query : string) : option string :=
  match find (fun district => contains district query) districts with
  | Some district => Some (title district)
  | None => None
  end.

Definition indent16 : string := "                ".
Definition indent12 : string := "            ".

Definition district_summary_sql (district : string) : string :=
  nl ++ indent16 ++ "SELECT ct.description as crime_type, COUNT(*) as count"
  ++ nl ++ indent16 ++ "FROM FIR f"
  ++ nl ++ indent16 ++ "JOIN DISTRICT_MASTER d ON f.district_id = d.district_id"
  ++ nl ++ indent16
  ++ "JOIN CRIME_TYPE_MASTER ct ON f.crime_type_id = ct.crime_type_id"
  ++ nl ++ indent16 ++ "WHERE d.district_name = '" ++ district ++ "'"
  ++ nl ++ indent16 ++ "GROUP BY ct.description"
  ++ nl ++ indent16 ++ "ORDER BY count DESC"
  ++ nl ++ indent16.

Definition officer_performance_sql : string :=
  nl ++ indent12 ++ "SELECT o.officer_name, o.rank, COUNT(a.arrest_id) as arrests"
  ++ nl ++ indent12 ++ "FROM OFFICER_MASTER o"
  ++ nl ++ indent12 ++ "LEFT JOIN ARREST a ON o.officer_id = a.officer_id"
  ++ nl ++ indent12 ++ "WHERE a.arrest_date >= TRUNC(SYSDATE, 'MM')"
  ++ nl ++ indent12 ++ "GROUP BY o.officer_name, o.rank"
  ++ nl ++ indent12 ++ "ORDER BY arrests DESC"
  ++ nl ++ indent12.

Definition fir_today_sql : string :=
  "SELECT COUNT(*) as fir_count FROM FIR WHERE DATE(incident_date) = DATE(SYSDATE)".

Definition fir_month_sql : string :=
  "SELECT COUNT(*) as fir_count FROM FIR WHERE incident_date >= TRUNC(SYSDATE, 'MM')".

(** Pattern 3 and the final [return None]. *)
Definition fir_counts (query_lower : string) : option string :=
  if contains "fir" query_lower && contains "count" query_lower then
    if contains "today" query_lower then Some fir_today_sql
    else if contains "month" query_lower then Some fir_month_sql
    else None
  else None.

(** Pattern 2, then pattern 3. *)
Definition officer_performance (query_lower : string) : option string :=
  if contains "officer" query_lower
     && (contains "arrest" query_lower || contains "performance" query_lower)
  then Some officer_performance_sql
  else fir_counts query_lower.

Definition _rule_based_generation (query : string) : option string :=
  let query_lower := lower query in
  if contains "crimes" query_lower && contains "district" query_lower then
    match _extract_district query_lower with
    | Some district =>
        if truthy district then Some (district_summary_sql district)
        else officer_performance query_lower
    | None => officer_performance query_lower
    end
  else officer_performance query_lower.

Definition _validate_sql (parse : SqlParse.Parser) (sql : string) : bool :=
  match parse sql with
  | Return parsed => (0 <? List.length parsed)%nat
  | Raise _ => false
  end.

Definition no_match : SqlResult :=
  {| sql := ""; confidence := 0; method := None; valid := None;
     error := Some "No matching pattern" |}.

(** [generate_sql]; nothing in its [try] block raises on a string. *)
Definition generate_sql (parse : SqlParse.Parser) (query : string) : SqlResult :=
  match _rule_based_generation query with
  | Some sql =>
      if truthy sql then
        {| sql := sql; confidence := 9 # 10; method := Some "rule_based";
           valid := Some (_validate_sql parse sql); error := None |}
      else no_match
  | None => no_match
  end.

End NL2SQLProcessor.

(* ------------------------------------------------------------------ *)
(** ** [agents/query_agent.py]: class [QueryAgent] *)

(** A Python value whose structure the sources do not fix. *)
Inductive PyValue : Type :=
| PyNone
| PyBool (b : bool)
| PyInt (z : Z)
| PyStr (s : string)
| PyList (l : list string)
| PyDict (d : list (string * string)).

Module QueryAgent.

Import PyStr.

(** An entry of [suggest_joins_for_query]: [join["condition"]] and the
    other keys of the dictionary. *)
Record JoinSuggestion : Type := mkJoin {
  condition : string;
  join_details : list (string * string)
}.

(** What [QueryAgent] calls and the repository does not hold: the
    methods of [SchemaManager], the helpers that [QueryAgent] expects
    from its base class, and the order in which a [set] is listed. *)
Record Collaborators : Type := mkCollaborators {
  get_table_info : string -> option PyValue;
  suggest_joins_for_query : list string -> list JoinSuggestion;
  _add_join_to_sql : string -> JoinSuggestion -> string;
  _add_table_aliases : string -> list string -> string;
  _parse_complex_query : string -> PyValue;
  _add_complex_features : string -> PyValue -> string;
  _identify_analytical_patterns : string -> PyValue;
  _add_analytical_features : string -> PyValue -> string;
  _suggest_visualizations : PyValue -> PyValue;
  list_of_set : list string -> list string
}.

(** *** [_extract_table_names]

    [re.findall] with [re.IGNORECASE] of the pattern: FROM or JOIN, one
    or more white-space characters, then the group, an identifier (a
    letter or underscore followed by letters, digits and underscores). *)

Definition is_ident_start (c : ascii) : bool :=
  is_alpha c || Ascii.eqb c "_"%char.
Definition is_ident_char (c : ascii) : bool :=
  is_ident_start c || is_digit c.

Fixpoint take_ident (s : string) : string :=
  match s with
  | EmptyString => EmptyString
  | String c s' => if is_ident_char c then String c (take_ident s') else EmptyString
  end.

Definition after_from_or_join (s : string) : option string :=
  match PyRe.strip_lit_ci "FROM" s with
  | Some rest => Some rest
  | None => PyRe.strip_lit_ci "JOIN" s
  end.

(** A match that starts at the head of [s]: its group, and its length. *)
Definition table_match_at (s : string) : option (string * nat) :=
  match after_from_or_join s with
  | None => None
  | Some rest =>
      let rest' := lstrip rest in
      let spaces := (String.length rest - String.length rest')%nat in
      match rest' with
      | EmptyString => None
      | String c _ =>
          if (0 <? spaces)%nat && is_ident_start c then
            let name := take_ident rest' in
            Some (name, (4 + spaces + String.length name)%nat)
          else None
      end
  end.

(** The matches from the left, without overlap; [skip] characters of the
    match just found are still to be passed. *)
Fixpoint findall_tables (s : string) (skip : nat) : list string :=
  match s with
  | EmptyString => []
  | String _ s' =>
      match skip with
      | S k => findall_tables s' k
      | O => match table_match_at s with
             | Some (name, len) => name :: findall_tables s' (len - 1)%nat
             | None => findall_tables s' 0
             end
      end
  end.

Definition _extract_table_names (env : Collaborators) (sql : string)
  : list string :=
  list_of_set env (findall_tables sql 0).

(** *** [_enhance_with_schema] *)

Definition apply_joins (env : Collaborators) (joins : list JoinSuggestion)
  (sql : string) : string :=
  fold_left
    (fun sql join =>
       if negb (contains (condition join) sql)
       then _add_join_to_sql env sql join
       else sql)
    joins sql.

Definition _enhance_with_schema (env : Collaborators) (sql : string)
  (context : PyValue) : string :=
  let mentioned_tables := _extract_table_names env sql in
  let sql :=
    if (1 <? List.length mentioned_tables)%nat
    then apply_joins env (suggest_joins_for_query env mentioned_tables) sql
    else sql in
  _add_table_aliases env sql mentioned_tables.

(** *** [_validate_query] and its checks *)

Record SecurityReport : Type := mkSecurityReport {
  safe : bool;
  warnings : list string
}.

Definition dangerous_ops : list string :=
  [ "DROP"; "DELETE"; "UPDATE"; "INSERT"; "ALTER"; "CREATE" ].

Definition _check_query_security (sql : string) : SecurityReport :=
  let sql_upper := upper sql in
  let warnings :=
    map (fun op => "Dangerous operation detected: " ++ op)
        (filter (fun op => contains op sql_upper) dangerous_ops) in
  let warnings :=
    if contains "--" sql || contains "/*" sql
    then (warnings ++ ["Potential SQL injection: comments detected"])%list
    else warnings in
  {| safe := (List.length warnings =? 0)%nat; warnings := warnings |}.

Definition _check_query_performance (sql : string) : list string :=
  let w1 :=
    if (1 <? count (upper sql) "FROM")%nat && negb (contains "WHERE" (upper sql))
    then ["Potential Cartesian product: multiple tables without WHERE clause"]
    else [] in
  let w2 :=
    if existsb (fun func => contains func (upper sql))
               ["UPPER("; "LOWER("; "SUBSTR("]
    then ["Functions in WHERE clause may prevent index usage"]
    else [] in
  (w1 ++ w2)%list.

(** The dictionary [_validate_query] returns; [security_warnings] is set
    only when the security check fails. *)
Record ValidationResult : Type := mkValidation {
  syntax_valid : bool;
  security_valid : bool;
  performance_warnings : list string;
  semantic_warnings : list string;
  security_warnings : option (list string)
}.

Definition _validate_query (parse : SqlParse.Parser) (sql : string)
  : ValidationResult :=
  let syntax :=
    match parse sql with
    | Return parsed => (0 <? List.length parsed)%nat
    | Raise _ => false
    end in
  let security_check := _check_query_security sql in
  {| syntax_valid := syntax;
     security_valid := safe security_check;
     performance_warnings := _check_query_performance sql;
     semantic_warnings := [];
     security_warnings :=
       if safe security_check then None else Some (warnings security_check) |}.

Definition _estimate_result_size (sql : string) : list (string * string) :=
  [ ("estimated_rows", "unknown"); ("confidence", "low"); ("method", "heuristic") ].

Record ExecutionPlan : Type := mkPlan {
  plan_available : bool;
  plan_reason : string
}.

Definition _get_execution_plan (sql : string) : ExecutionPlan :=
  {| plan_available := false;
     plan_reason := "Execution plan analysis not implemented" |}.

Definition _get_optimization_suggestions (sql : string) : list string :=
  ((if contains "WHERE" (upper sql) && negb (contains "INDEX" (upper sql))
    then ["Consider adding indexes on WHERE clause columns"] else [])
   ++ (if contains "SELECT *" (upper sql)
       then ["Consider selecting specific columns instead of *"] else [])
   ++ (if contains "ORDER BY" (upper sql) && negb (contains "LIMIT" (upper sql))
       then ["ORDER BY without LIMIT may impact performance"] else []))%list.

Definition _get_query_suggestions (failed_query : string) : list string :=
  let query_lower := lower failed_query in
  ([ "Try using simpler language";
     "Specify the exact table or data you're looking for";
     "Include specific date ranges or filters";
     "Use police-specific terms (FIR, SHO, district, etc.)" ]
   ++ (if contains "show" query_lower || contains "display" query_lower
       then ["Try: 'List all crimes in [district name]'"] else [])
   ++ (if contains "count" query_lower || contains "how many" query_lower
       then ["Try: 'Count FIRs registered this month'"] else [])
   ++ (if contains "officer" query_lower
       then ["Try: 'Show arrests made by officer [name]'"] else []))%list.

(** *** The query modes *)

(** The dictionary a query mode returns; a key that a shape does not
    have is [None]. *)
Record QueryResult : Type := mkQueryResult {
  sql : string;
  confidence : Q;
  error : option string;
  suggestions : option (list string);
  original_sql : option string;
  method : option string;
  validation : option ValidationResult;
  estimated_rows : option (list (string * string));
  execution_plan : option ExecutionPlan;
  suggested_optimizations : option (list string);
  complexity_level : option string;
  query_components : option PyValue;
  analytical_patterns : option PyValue;
  visualization_suggestions : option PyValue
}.

(** What the agent hands to its validator, in order. *)
Inductive AgentEvent : Type :=
| EvValidateQuery (sql : string).

Definition option_default {A : Type} (o : option A) (d : A) : A :=
  match o with
  | Some a => a
  | None => d
  end.

Definition _generate_standard_query (env : Collaborators)
  (parse : SqlParse.Parser) (query_text : string) (context : PyValue)
  : QueryResult * list AgentEvent :=
  let sql_result := NL2SQLProcessor.generate_sql parse query_text in
  if negb (option_default (NL2SQLProcessor.valid sql_result) false) then
    ({| sql := "";
        confidence := 0;
        error := Some (option_default (NL2SQLProcessor.error sql_result)
                                      "SQL generation failed");
        suggestions := Some (_get_query_suggestions query_text);
        original_sql := None; method := None; validation := None;
        estimated_rows := None; execution_plan := None;
        suggested_optimizations := None; complexity_level := None;
        query_components := None; analytical_patterns := None;
        visualization_suggestions := None |},
     [])
  else
    let enhanced_sql :=
      _enhance_with_schema env (NL2SQLProcessor.sql sql_result) context in
    let validation_result := _validate_query parse enhanced_sql in
    ({| sql := enhanced_sql;
        confidence := NL2SQLProcessor.confidence sql_result;
        error := None;
        suggestions := None;
        original_sql := Some (NL2SQLProcessor.sql sql_result);
        method := NL2SQLProcessor.method sql_result;
        validation := Some validation_result;
        estimated_rows := Some (_estimate_result_size enhanced_sql);
        execution_plan := Some (_get_execution_plan enhanced_sql);
        suggested_optimizations :=
          Some (_get_optimization_suggestions enhanced_sql);
        complexity_level := None; query_components := None;
        analytical_patterns := None; visualization_suggestions := None |},
     [EvValidateQuery enhanced_sql]).

(** [{**base_result, "sql": ..., "complexity_level": "high",
      "query_components": ...}] *)
Definition with_complex (base : QueryResult) (enhanced_sql : string)
  (components : PyValue) : QueryResult :=
  {| sql := enhanced_sql;
     confidence := confidence base;
     error := error base;
     suggestions := suggestions base;
     original_sql := original_sql base;
     method := method base;
     validation := validation base;
     estimated_rows := estimated_rows base;
     execution_plan := execution_plan base;
     suggested_optimizations := suggested_optimizations base;
     complexity_level := Some "high";
     query_components := Some components;
     analytical_patterns := analytical_patterns base;
     visualization_suggestions := visualization_suggestions base |}.

(** [{**base_result, "sql": ..., "analytical_patterns": ...,
      "visualization_suggestions": ...}] *)
Definition with_analytical (base : QueryResult) (analytical_sql : string)
  (patterns visualizations : PyValue) : QueryResult :=
  {| sql := analytical_sql;
     confidence := confidence base;
     error := error base;
     suggestions := suggestions base;
     original_sql := original_sql base;
     method := method base;
     validation := validation base;
     estimated_rows := estimated_rows base;
     execution_plan := execution_plan base;
     suggested_optimizations := suggested_optimizations base;
     complexity_level := complexity_level base;
     query_components := query_components base;
     analytical_patterns := Some patterns;
     visualization_suggestions := Some visualizations |}.

Definition _generate_complex_query (env : Collaborators)
  (parse : SqlParse.Parser) (query_text : string) (context : PyValue)
  : QueryResult * list AgentEvent :=
  let query_components := _parse_complex_query env query_text in
  let '(base_result, log) :=
    _generate_standard_query env parse query_text context in
  if negb (truthy (sql base_result)) then (base_result, log)
  else
    let enhanced_sql :=
      _add_complex_features env (sql base_result) query_components in
    (with_complex base_result enhanced_sql query_components, log).

Definition _generate_analytical_query (env : Collaborators)
  (parse : SqlParse.Parser) (query_text : string) (context : PyValue)
  : QueryResult * list AgentEvent :=
  let analytical_patterns := _identify_analytical_patterns env query_text in
  let '(base_result, log) :=
    _generate_standard_query env parse query_text context in
  if negb (truthy (sql base_result)) then (base_result, log)
  else
    let analytical_sql :=
      _add_analytical_features env (sql base_result) analytical_patterns in
    (with_analytical base_result analytical_sql analytical_patterns
       (_suggest_visualizations env analytical_patterns),
     log).

(** [process], on the keys [text], [context] and [query_type] of its
    input. *)
Definition process (env : Collaborators) (parse : SqlParse.Parser)
  (query_text : string) (context : PyValue) (query_type : string)
  : PyOutcome (QueryResult * list AgentEvent) :=
  if String.eqb query_type "standard" then
    Return (_generate_standard_query env parse query_text context)
  else if String.eqb query_type "complex" then
    Return (_generate_complex_query env parse query_text context)
  else if String.eqb query_type "analytical" then
    Return (_generate_analytical_query env parse query_text context)
  else Raise ("Unsupported query type: " ++ query_type).

End QueryAgent.

(* ------------------------------------------------------------------ *)
(** ** [api/main.py]: the endpoint [process_query] *)

(** [d.get(k)] on a dictionary. *)
Fixpoint dict_get {V : Type} (k : string) (d : list (string * V)) : option V :=
  match d with
  | [] => None
  | (k', v) :: d' => if String.eqb k k' then Some v else dict_get k d'
  end.

Module Api.

(** The keys that [process_query] reads in the dictionary of
    [ReportGenerator.generate_report]. *)
Record Report : Type := mkReport {
  summary : option string;
  chart_path : option string
}.

(** What the endpoint relies on and the repository does not hold:
    [generate_report] of [models/report_generator.py], called with the
    text of the query, the statement and the rows, and [str] of an
    [HTTPException] with a status code and a detail. *)
Record Host : Type := mkHost {
  generate_report : string -> string -> list Db.RowDict -> PyOutcome Report;
  str_of_http_exception : Z -> string -> string
}.

(** The three dictionaries the endpoint returns. *)
Inductive Body : Type :=
| GenerationFailed (details : NL2SQLProcessor.SqlResult)
| ExecutionFailed (details : SQLExecutor.Response)
| Answer (query sql : string) (results : list Db.RowDict) (total_rows : Z)
         (summary : option string) (chart_available : bool).

(** The endpoint returns a body or raises an [HTTPException]. *)
Inductive HttpOutcome : Type :=
| Responded (body : Body)
| HTTPException (status_code : Z) (detail : string).

Definition option_truthy (o : option string) : bool :=
  match o with
  | Some s => PyStr.truthy s
  | None => false
  end.

(** [process_query(query)], for a request object with string values:
    the whole body is one [try] block whose handler turns every
    exception, the one raised for an empty text included, into an
    [HTTPException] with status 500. *)
Definition process_query (host : Host) (parse : SqlParse.Parser)
  (sql_executor : SQLExecutor.SQLExecutor) (w : SQLExecutor.World)
  (query : list (string * string))
  : HttpOutcome * SQLExecutor.SQLExecutor * list SQLExecutor.Event :=
  let text :=
    match dict_get "text" query with
    | Some t => t
    | None => ""
    end in
  if negb (PyStr.truthy text) then
    (HTTPException 500 (str_of_http_exception host 400 "No query text provided"),
     sql_executor, [])
  else
    let sql_result := NL2SQLProcessor.generate_sql parse text in
    match NL2SQLProcessor.valid sql_result with
    | Some true =>
        match SQLExecutor.execute_sql parse sql_executor w
                (NL2SQLProcessor.sql sql_result) None with
        | (Raise e, sql_executor', trace) =>
            (HTTPException 500 e, sql_executor', trace)
        | (Return db_result, sql_executor', trace) =>
            if negb (SQLExecutor.success db_result) then
              (Responded (ExecutionFailed db_result), sql_executor', trace)
            else
              match generate_report host text (NL2SQLProcessor.sql sql_result)
                      (SQLExecutor.results db_result) with
              | Raise e => (HTTPException 500 e, sql_executor', trace)
              | Return report_result =>
                  (Responded
                     (Answer text (NL2SQLProcessor.sql sql_result)
                        (firstn 50 (SQLExecutor.results db_result))
                        (SQLExecutor.row_count db_result)
                        (summary report_result)
                        (option_truthy (chart_path report_result))),
                   sql_executor', trace)
              end
        end
    | _ => (Responded (GenerationFailed sql_result), sql_executor, [])
    end.

End Api.

(* ------------------------------------------------------------------ *)
(** ** [models/stt_processor.py]: class [IndianSTTProcessor] *)

Module IndianSTTProcessor.

(** [re.sub(old, new, s, flags=re.IGNORECASE)] for a literal [old] that
    is not empty: the occurrences are replaced from the left and do not
    overlap; [skip] characters of the occurrence just replaced are
    still to be passed. *)
Fixpoint sub_from (old new s : string) (skip : nat) : string :=
  match s with
  | EmptyString => EmptyString
  | String c s' =>
      match skip with
      | S k => sub_from old new s' k
      | O =>
          match PyRe.strip_lit_ci old s with
          | Some _ => new ++ sub_from old new s' (String.length old - 1)
          | None => String c (sub_from old new s' 0)
          end
      end
  end.

Definition re_sub (old new s : string) : string := sub_from old new s 0.

Definition corrections : list (string * string) :=
  [ ("fir", "FIR"); ("sho", "SHO"); ("guntur", "Guntur");
    ("vijayawada", "Vijayawada"); ("visakhapatnam", "Visakhapatnam") ].

Definition _enhance_police_terminology (text : string) : string :=
  PyStr.strip
    (fold_left (fun enhanced c => re_sub (fst c) (snd c) enhanced)
               corrections text).

(** The dictionary a transcription returns; a key that a shape does
    not have is [None]. *)
Record Transcript : Type := mkTranscript {
  text : string;
  confidence : Q;
  language : option string;
  model : option string;
  error : option string
}.

(** What [whisper_model.transcribe] returns: [result["text"]] and
    [result.get("language")]. *)
Record WhisperResult : Type := mkWhisperResult {
  whisper_text : string;
  whisper_language : option string
}.

(** [whisper_model.transcribe(audio_path, language=...)] *)
Definition Whisper : Type := string -> string -> PyOutcome WhisperResult.

(** The attributes [_load_models] leaves on the object:
    [whisper_model] and [whisper_available] are missing when
    [whisper.load_model] raised. *)
Record STT : Type := mkSTT {
  indic_available : bool;
  whisper_model : option Whisper;
  whisper_available : option bool
}.

Definition _load_models (load_model : PyOutcome Whisper) : STT :=
  match load_model with
  | Return m =>
      {| indic_available := false; whisper_model := Some m;
         whisper_available := Some true |}
  | Raise _ =>
      {| indic_available := false; whisper_model := None;
         whisper_available := None |}
  end.

Definition failed (message : string) : Transcript :=
  {| text := ""; confidence := 0; language := None; model := None;
     error := Some message |}.

Definition missing_attribute (name : string) : string :=
  "'IndianSTTProcessor' object has no attribute '" ++ name ++ "'".

Definition _transcribe_whisper (self : STT) (audio_path language : string)
  : Transcript :=
  match whisper_model self with
  | None => failed (missing_attribute "whisper_model")
  | Some transcribe =>
      match transcribe audio_path
              (if String.eqb language "te" then "te" else "en") with
      | Raise e => failed e
      | Return result =>
          {| text := _enhance_police_terminology (whisper_text result);
             confidence := 8 # 10;
             language :=
               Some (match whisper_language result with
                     | Some l => l
                     | None => language
                     end);
             model := Some "whisper";
             error := None |}
      end
  end.

(** [transcribe_audio]; the class defines no [_transcribe_indic], so
    the first branch, were it taken, would fall into the handler. *)
Definition transcribe_audio (self : STT) (audio_path language : string)
  : Transcript :=
  if indic_available self
     && SQLExecutor.mem_string language ["te"; "hi"; "en-IN"]
  then failed (missing_attribute "_transcribe_indic")
  else
    match whisper_available self with
    | None => failed (missing_attribute "whisper_available")
    | Some true => _transcribe_whisper self audio_path language
    | Some false => failed "No STT available"
    end.

End IndianSTTProcessor.

(* ------------------------------------------------------------------ *)
(** ** [agents/voice_agent.py]: class [VoiceAgent] *)

Module VoiceAgent.

(** The keys that [VoiceAgent] reads in the dictionary of
    [TextProcessor.process_text]. *)
Record TextResult : Type := mkTextResult {
  final : option string;
  corrections_applied : option (list string);
  text_confidence : option Q
}.

(** What [VoiceAgent] calls and the repository does not hold:
    [process_text] of [models/text_processor.py], and the formatting of
    a float with two decimals. *)
Record Collaborators : Type := mkCollaborators {
  process_text : string -> string -> PyOutcome TextResult;
  format_2f : Q -> string
}.

Record VoiceAgent : Type := mkVoiceAgent {
  stt_processor : IndianSTTProcessor.STT;
  supported_languages : list string;
  confidence_threshold : Q
}.

(** The attributes that [__init__] sets, for a processor already
    built: [config.get("confidence_threshold", 0.7)]. *)
Definition __init__ (stt : IndianSTTProcessor.STT) (threshold : option Q)
  : VoiceAgent :=
  {| stt_processor := stt;
     supported_languages := ["te"; "hi"; "en"; "auto"];
     confidence_threshold :=
       match threshold with
       | Some t => t
       | None => 7 # 10
       end |}.

(** The calls on the two processors, in the order they are made. *)
Inductive Event : Type :=
| EvTranscribe (audio_path language : string)
| EvProcessText (text language : string).

(** The dictionaries [_process_audio_file] returns; a key that a shape
    does not have is [None]. *)
Record VoiceResult : Type := mkVoiceResult {
  transcription : string;
  enhanced_text : string;
  confidence : Q;
  error : option string;
  language : option string;
  model_used : option string;
  applied : option (list string);
  processing_steps : option (IndianSTTProcessor.Transcript * TextResult);
  warning : option string
}.

(** The dictionary [_process_text_enhancement] returns. *)
Record Enhancement : Type := mkEnhancement {
  original_text : string;
  enhancement : string;
  enhancement_confidence : Q;
  enhancement_corrections : list string;
  processing_details : TextResult
}.

Inductive Processed : Type :=
| Voice (r : VoiceResult)
| Enhanced (r : Enhancement).

Definition get_or (d : list (string * string)) (k default : string) : string :=
  match dict_get k d with
  | Some v => v
  | None => default
  end.

Definition _process_audio_file (env : Collaborators) (self : VoiceAgent)
  (input_data : list (string * string))
  : PyOutcome VoiceResult * list Event :=
  let language := get_or input_data "language" "auto" in
  match dict_get "audio_path" input_data with
  | None => (Raise "Audio path is required", [])
  | Some audio_path =>
      if negb (PyStr.truthy audio_path)
      then (Raise "Audio path is required", [])
      else if negb (SQLExecutor.mem_string language (supported_languages self))
      then (Raise ("Unsupported language: " ++ language), [])
      else
        let stt_result :=
          IndianSTTProcessor.transcribe_audio (stt_processor self)
            audio_path language in
        let transcribed := EvTranscribe audio_path language in
        if negb (PyStr.truthy (IndianSTTProcessor.text stt_result)) then
          (Return {| transcription := ""; enhanced_text := ""; confidence := 0;
                     error :=
                       Some (match IndianSTTProcessor.error stt_result with
                             | Some e => e
                             | None => "Transcription failed"
                             end);
                     language := None; model_used := None; applied := None;
                     processing_steps := None; warning := None |},
           [transcribed])
        else if Qle_bool (confidence_threshold self)
                         (IndianSTTProcessor.confidence stt_result)
        then
          let text_language :=
            match IndianSTTProcessor.language stt_result with
            | Some l => l
            | None => "en"
            end in
          let trace :=
            [transcribed;
             EvProcessText (IndianSTTProcessor.text stt_result) text_language] in
          match process_text env (IndianSTTProcessor.text stt_result)
                  text_language with
          | Raise e => (Raise e, trace)
          | Return text_result =>
              match final text_result with
              | None => (Raise "'final'", trace)
              | Some final_text =>
                  (Return
                     {| transcription := IndianSTTProcessor.text stt_result;
                        enhanced_text := final_text;
                        confidence := IndianSTTProcessor.confidence stt_result;
                        error := None;
                        language := IndianSTTProcessor.language stt_result;
                        model_used := IndianSTTProcessor.model stt_result;
                        applied :=
                          Some (match corrections_applied text_result with
                                | Some l => l
                                | None => []
                                end);
                        processing_steps := Some (stt_result, text_result);
                        warning := None |},
                   trace)
              end
          end
        else
          (Return {| transcription := IndianSTTProcessor.text stt_result;
                     enhanced_text := IndianSTTProcessor.text stt_result;
                     confidence := IndianSTTProcessor.confidence stt_result;
                     error := None; language := None; model_used := None;
                     applied := None; processing_steps := None;
                     warning :=
                       Some ("Low confidence ("
                             ++ format_2f env
                                  (IndianSTTProcessor.confidence stt_result)
                             ++ "), minimal processing applied") |},
           [transcribed])
  end.

Definition _process_audio_stream : PyOutcome Processed * list Event :=
  (Raise "Audio streaming not yet implemented", []).

Definition _process_text_enhancement (env : Collaborators)
  (input_data : list (string * string))
  : PyOutcome Enhancement * list Event :=
  let language := get_or input_data "language" "en" in
  match dict_get "text" input_data with
  | None => (Raise "Text is required for enhancement", [])
  | Some text =>
      if negb (PyStr.truthy text)
      then (Raise "Text is required for enhancement", [])
      else
        let trace := [EvProcessText text language] in
        match process_text env text language with
        | Raise e => (Raise e, trace)
        | Return text_result =>
            match final text_result with
            | None => (Raise "'final'", trace)
            | Some final_text =>
                (Return {| original_text := text;
                           enhancement := final_text;
                           enhancement_confidence :=
                             match text_confidence text_result with
                             | Some c => c
                             | None => 8 # 10
                             end;
                           enhancement_corrections :=
                             match corrections_applied text_result with
                             | Some l => l
                             | None => []
                             end;
                           processing_details := text_result |},
                 trace)
            end
        end
  end.

Definition lift {A : Type} (inject : A -> Processed)
  (r : PyOutcome A * list Event) : PyOutcome Processed * list Event :=
  (match fst r with
   | Return a => Return (inject a)
   | Raise e => Raise e
   end, snd r).

Definition process (env : Collaborators) (self : VoiceAgent)
  (input_data : list (string * string))
  : PyOutcome Processed * list Event :=
  let processing_type := get_or input_data "type" "audio_file" in
  if String.eqb processing_type "audio_file"
  then lift Voice (_process_audio_file env self input_data)
  else if String.eqb processing_type "audio_stream"
  then _process_audio_stream
  else if String.eqb processing_type "text_enhancement"
  then lift Enhanced (_process_text_enhancement env input_data)
  else (Raise ("Unsupported processing type: " ++ processing_type), []).

(** The dictionary [_validate_input] returns. *)
Inductive InputCheck : Type :=
| InputValid
| InputInvalid (reason : string).

Definition has_key (k : string) (d : list (string * string)) : bool :=
  match dict_get k d with
  | Some _ => true
  | None => false
  end.

Definition _validate_input (self : VoiceAgent)
  (input_data : list (string * string)) : InputCheck :=
  let processing_type := get_or input_data "type" "audio_file" in
  let check_language :=
    let language := get_or input_data "language" "auto" in
    if negb (SQLExecutor.mem_string language (supported_languages self))
    then InputInvalid ("Unsupported language: " ++ language)
    else InputValid in
  if String.eqb processing_type "audio_file" then
    if negb (has_key "audio_path" input_data)
    then InputInvalid "audio_path is required for audio_file type"
    else check_language
  else if String.eqb processing_type "text_enhancement" then
    if negb (has_key "text" input_data)
    then InputInvalid "text is required for text_enhancement type"
    else check_language
  else check_language.

End VoiceAgent.

(* ================================================================== *)
(** * Notions used by the properties *)

Module Notions.

Import SQLExecutor.

(** The components of what [execute_sql] yields. *)
Definition outcome {A B C : Type} (x : A * B * C) : A := fst (fst x).
Definition after {A B C : Type} (x : A * B * C) : B := snd (fst x).
Definition events {A B C : Type} (x : A * B * C) : C := snd x.

Definition security_ok (sql : string) : bool :=
  valid (_validate_sql_security sql).

Definition parsing_ok (parse : SqlParse.Parser) (sql : string) : bool :=
  parsing_valid (_parse_and_validate_sql parse sql).

(** The statement passes both validations of [execute_sql]. *)
Definition validated (parse : SqlParse.Parser) (sql : string) : bool :=
  security_ok sql && parsing_ok parse sql.

(** The first two stages of [_validate_sql_security]: no denylisted
    keyword is hit, and the statement starts with SELECT. *)
Definition passes_command_stage (sql : string) : bool :=
  match find (keyword_hit (PyStr.strip (PyStr.upper sql))) dangerous_keywords with
  | Some _ => false
  | None => PyStr.startswith (PyStr.strip (PyStr.upper sql)) "SELECT"
  end.

(** Its third stage: no injection pattern is found. *)
Definition passes_injection_stage (sql : string) : bool :=
  match find (fun p => PyRe.search (snd p) sql) injection_patterns with
  | Some _ => false
  | None => true
  end.

(** The counters of an object that started from [initial_stats]. *)
Definition counters_consistent (st : ExecutionStats) : Prop :=
  (0 <= total_queries st)%Z
  /\ (successful_queries st + failed_queries st <= total_queries st)%Z.

(** The duration a call records, and the mean of a list of durations. *)
Definition duration (c : Call) : Q :=
  t_end (call_world c) - t_start (call_world c).

Definition Qsum (l : list Q) : Q := fold_right Qplus 0 l.

Definition mean (l : list Q) : Q :=
  Qsum l / inject_Z (Z.of_nat (List.length l)).

(** A keyword as a whole token, in the words of the specification: an
    occurrence, in any letter case, that is not part of an identifier,
    that is, with no letter, digit or underscore right before or right
    after it. *)
Definition is_word_char (c : ascii) : bool :=
  PyStr.is_alpha c || PyStr.is_digit c || Ascii.eqb c "_"%char.

Definition token_here (keyword s : string) : bool :=
  match PyRe.strip_lit_ci keyword s with
  | Some EmptyString => true
  | Some (String c _) => negb (is_word_char c)
  | None => false
  end.

Fixpoint standalone_from (prev_word : bool) (keyword s : string) : bool :=
  (negb prev_word && token_here keyword s)
  || match s with
     | EmptyString => false
     | String c s' => standalone_from (is_word_char c) keyword s'
     end.

Definition standalone_token (keyword s : string) : bool :=
  standalone_from false keyword s.

(** Every token carries a token type, as the tokens that [flatten]
    yields do: [flatten] descends into each grouping node, and the
    lexer gives every leaf a type. *)
Definition typed_leaves (statement : SqlParse.Statement) : Prop :=
  Forall (fun token => SqlParse.ttype token <> None) statement.

(** The statistics after a call that reaches the execution: what the
    increment at entry followed by [_update_execution_stats] leaves. *)
Definition recorded (st : ExecutionStats) (d : Q) (ok : bool) : ExecutionStats :=
  {| total_queries := total_queries st + 1;
     successful_queries :=
       if ok then successful_queries st + 1 else successful_queries st;
     failed_queries :=
       if ok then failed_queries st else failed_queries st + 1;
     avg_execution_time :=
       (avg_execution_time st * inject_Z (total_queries st + 1 - 1) + d)
       / inject_Z (total_queries st + 1) |}.

End Notions.

(* ================================================================== *)
(** * Concrete inputs *)

Module Examples.

Import SQLExecutor.

Definition tok (t : SqlParse.TokenType) (v : string) : SqlParse.Token :=
  SqlParse.mkToken (Some t) v.

Definition ws : SqlParse.Token := tok ["Text"; "Whitespace"] " ".

(** The leaves of [SELECT * FROM FIR]. *)
Definition fir_statement : SqlParse.Statement :=
  [ tok ["Keyword"; "DML"] "SELECT"; ws; tok ["Wildcard"] "*"; ws;
    tok ["Keyword"] "FROM"; ws; tok ["Name"] "FIR" ].

(** The leaves of [SELECT * FROM PAYROLL]. *)
Definition payroll_statement : SqlParse.Statement :=
  [ tok ["Keyword"; "DML"] "SELECT"; ws; tok ["Wildcard"] "*"; ws;
    tok ["Keyword"] "FROM"; ws; tok ["Name"] "PAYROLL" ].

(** A token stream in which the table name is a node without a type. *)
Definition grouped_payroll_statement : SqlParse.Statement :=
  [ tok ["Keyword"; "DML"] "SELECT"; ws; tok ["Wildcard"] "*"; ws;
    tok ["Keyword"] "FROM"; ws; SqlParse.mkToken None "PAYROLL" ].

(** A parser that answers with the given statements. *)
Definition parser_giving (statements : list SqlParse.Statement)
  : SqlParse.Parser :=
  fun _ => Return statements.

Definition answering : Db.Connection :=
  fun _ _ =>
    Return {| Db.rs_rows := [[Db.VStr "THEFT"; Db.VInt 12]];
              Db.rs_keys := ["crime_type"; "count"] |}.

Definition timing_out : Db.Connection :=
  fun stmt _ =>
    if PyStr.startswith stmt "ALTER SESSION"
    then Return {| Db.rs_rows := []; Db.rs_keys := [] |}
    else Raise "ORA-01013: user requested cancel of current operation".

Definition world_ok (t0 t1 : Q) : World :=
  {| database := Return answering; t_start := t0; t_end := t1; t_stamp := t1 |}.

Definition world_timeout (t0 t1 : Q) : World :=
  {| database := Return timing_out; t_start := t0; t_end := t1; t_stamp := t1 |}.

Definition world_unreachable (t0 t1 : Q) : World :=
  {| database := Raise "ORA-12170: TNS:Connect timeout occurred";
     t_start := t0; t_end := t1; t_stamp := t1 |}.

Definition executor : SQLExecutor := __init__ (Some "oracle://cctns") 1000 30.

Definition offline_executor : SQLExecutor := __init__ None 1000 30.

Definition select_fir : string := "SELECT * FROM FIR".

Definition eleven_joins : string :=
  "SELECT * FROM FIR f JOIN FIR a JOIN FIR b JOIN FIR c JOIN FIR d JOIN FIR e JOIN FIR g JOIN FIR h JOIN FIR i JOIN FIR j JOIN FIR k JOIN FIR l".

Definition eleven_joins_with_case : string :=
  "SELECT CASE WHEN 1=1 THEN 1 END FROM FIR f JOIN FIR a JOIN FIR b JOIN FIR c JOIN FIR d JOIN FIR e JOIN FIR g JOIN FIR h JOIN FIR i JOIN FIR j JOIN FIR k JOIN FIR l".

(** The eleven joins of [eleven_joins], the statement written in lower
    case but for the name of the table. *)
Definition eleven_lower_case_joins : string :=
  "select * from FIR f join FIR a join FIR b join FIR c join FIR d join FIR e join FIR g join FIR h join FIR i join FIR j join FIR k join FIR l".

Definition stacked_drop : string := "SELECT * FROM FIR;DROP TABLE FIR".

(** Collaborators that leave the text alone, apart from the given
    augmentations of the complex and analytical modes. *)
Definition inert (augment : string -> string) : QueryAgent.Collaborators :=
  {| QueryAgent.get_table_info := fun _ => None;
     QueryAgent.suggest_joins_for_query := fun _ => [];
     QueryAgent._add_join_to_sql := fun sql _ => sql;
     QueryAgent._add_table_aliases := fun sql _ => sql;
     QueryAgent._parse_complex_query := fun _ => PyNone;
     QueryAgent._add_complex_features := fun sql _ => augment sql;
     QueryAgent._identify_analytical_patterns := fun _ => PyNone;
     QueryAgent._add_analytical_features := fun sql _ => augment sql;
     QueryAgent._suggest_visualizations := fun _ => PyNone;
     QueryAgent.list_of_set := nodup string_dec |}.

(** Collaborators whose alias step marks the text each time it runs. *)
Definition marking : QueryAgent.Collaborators :=
  {| QueryAgent.get_table_info := fun _ => None;
     QueryAgent.suggest_joins_for_query := fun _ => [];
     QueryAgent._add_join_to_sql := fun sql _ => sql;
     QueryAgent._add_table_aliases := fun sql _ => sql ++ " t";
     QueryAgent._parse_complex_query := fun _ => PyNone;
     QueryAgent._add_complex_features := fun sql _ => sql;
     QueryAgent._identify_analytical_patterns := fun _ => PyNone;
     QueryAgent._add_analytical_features := fun sql _ => sql;
     QueryAgent._suggest_visualizations := fun _ => PyNone;
     QueryAgent.list_of_set := nodup string_dec |}.

End Examples.

(* ================================================================== *)
(** * Notions used by the further properties *)

Module MoreNotions.

Import SQLExecutor.

(** The statement by which [_execute_with_timeout] sets the timeout of
    the session. *)
Definition set_timeout_of (self : SQLExecutor) : Event :=
  EvDbStatement ("ALTER SESSION SET query_timeout = " ++ str_of_Z (timeout self)).

(** The statements that [_rule_based_generation] can return: the
    district summary for each district of the gazetteer, the officer
    performance, and the two counts of FIRs. *)
Definition templates : list string :=
  (map (fun d => NL2SQLProcessor.district_summary_sql (PyStr.title d))
       NL2SQLProcessor.districts
   ++ [ NL2SQLProcessor.officer_performance_sql;
        NL2SQLProcessor.fir_today_sql;
        NL2SQLProcessor.fir_month_sql ])%list.

(** All the characters of a string satisfy a test. *)
Fixpoint all_chars (f : ascii -> bool) (s : string) : bool :=
  match s with
  | EmptyString => true
  | String c s' => f c && all_chars f s'
  end.

Definition no_space (s : string) : bool :=
  all_chars (fun c => negb (Ascii.eqb c " "%char)) s.

(** The text is ASCII: every character is below 128.  On such a text
    [str.upper], [str.lower] and the matching of a literal under
    [re.IGNORECASE] are what [PyStr] and [PyRe] define; beyond ASCII
    Python folds the case of further letters. *)
Definition is_ascii (s : string) : bool :=
  all_chars (fun c => (PyStr.code c <? 128)%nat) s.

(** The first four suggestions of [_get_query_suggestions]. *)
Definition general_suggestions : list string :=
  [ "Try using simpler language";
    "Specify the exact table or data you're looking for";
    "Include specific date ranges or filters";
    "Use police-specific terms (FIR, SHO, district, etc.)" ].

(** The text that [process_query] reads in its request:
    [query.get("text", "")]. *)
Definition text_of (query : list (string * string)) : string :=
  match dict_get "text" query with
  | Some t => t
  | None => ""
  end.

(** [s[n:]] *)
Fixpoint drop (n : nat) (s : string) : string :=
  match n, s with
  | O, _ => s
  | S _, EmptyString => EmptyString
  | S k, String _ s' => drop k s'
  end.

End MoreNotions.

(* ================================================================== *)
(** * Properties of the executor *)

Module Properties.

Import SQLExecutor Notions.

Lemma execute_sql_no_engine parse self w sql params :
  engine self = None ->
  execute_sql parse self w sql params
  = (Return (_error_response (t_stamp w) "No database connection available"),
     self, []).
Proof. intros He. unfold execute_sql. now rewrite He. Qed.

Lemma execute_sql_rejected parse self w sql params c :
  engine self = Some c ->
  validated parse sql = false ->
  exists msg,
    execute_sql parse self w sql params
    = (Return (_error_response (t_stamp w) msg),
       with_stats self (bump_total (execution_stats self)), []).
Proof.
  intros He Hv. unfold execute_sql, execute_sql_body. rewrite He.
  unfold validated, security_ok, parsing_ok in Hv.
  destruct (valid (_validate_sql_security sql)); cbn [negb].
  - cbn in Hv. destruct (_parse_and_validate_sql parse sql); [|discriminate].
    eexists. reflexivity.
  - eexists. reflexivity.
Qed.

Lemma execute_with_timeout_events self w sql params :
  exists rest,
    snd (_execute_with_timeout self w sql params)
    = EvExecuteWithTimeout sql :: rest.
Proof.
  unfold _execute_with_timeout.
  destruct (database w) as [conn|e]; [|eexists; reflexivity].
  destruct (conn _ []) as [r0|e]; [|eexists; reflexivity].
  destruct (conn sql _) as [r|e]; eexists; reflexivity.
Qed.

Lemma execute_with_timeout_message self w sql params e :
  fst (_execute_with_timeout self w sql params) = Raise e ->
  exists cause, e = sqlalchemy_error cause.
Proof.
  unfold _execute_with_timeout.
  destruct (database w) as [conn|e0]; cbn.
  - destruct (conn _ []) as [r0|e0]; cbn.
    + destruct (conn sql _) as [r|e0]; cbn; [discriminate|].
      intros [= <-]. now exists e0.
    + intros [= <-]. now exists e0.
  - intros [= <-]. now exists e0.
Qed.

Lemma execute_sql_recorded parse self w sql params c :
  engine self = Some c ->
  validated parse sql = true ->
  (0 <= total_queries (execution_stats self))%Z ->
  exists ok r rest,
    execute_sql parse self w sql params
    = (Return r,
       with_stats self (recorded (execution_stats self) (t_end w - t_start w) ok),
       EvExecuteWithTimeout sql :: rest)
    /\ success r = ok
    /\ (ok = false ->
        exists cause, r = _error_response (t_stamp w) (sqlalchemy_error cause)).
Proof.
  intros He Hv Ht. unfold execute_sql, execute_sql_body. rewrite He.
  unfold validated, security_ok, parsing_ok in Hv.
  apply andb_prop in Hv. destruct Hv as [Hs Hp]. rewrite Hs. cbn [negb].
  destruct (_parse_and_validate_sql parse sql) as [|qt tables cols];
    [discriminate|].
  destruct (execute_with_timeout_events
              (with_stats self (bump_total (execution_stats self))) w sql params)
    as [rest Hrest].
  pose proof (execute_with_timeout_message
              (with_stats self (bump_total (execution_stats self))) w sql params)
    as Hmsg.
  destruct (_execute_with_timeout _ w sql params) as [[result|e] trace];
    cbn in Hrest; subst trace.
  - unfold _update_execution_stats. cbn.
    destruct (total_queries (execution_stats self) + 1 =? 0)%Z eqn:E;
      [apply Z.eqb_eq in E; lia|].
    exists true. eexists. eexists. split; [reflexivity|]. split; [reflexivity|].
    intros H; discriminate H.
  - unfold _update_execution_stats. cbn.
    destruct (total_queries (execution_stats self) + 1 =? 0)%Z eqn:E;
      [apply Z.eqb_eq in E; lia|].
    exists false. destruct (Hmsg e eq_refl) as [cause ->].
    eexists. eexists. split; [reflexivity|]. split; [reflexivity|]. intros _.
    now exists cause.
Qed.


Lemma execute_sql_unreached parse self w sql params :
  events (execute_sql parse self w sql params) = [] ->
  (engine self = None /\ after (execute_sql parse self w sql params) = self)
  \/ (validated parse sql = false
      /\ after (execute_sql parse self w sql params)
         = with_stats self (bump_total (execution_stats self))).
Proof.
  intros Hev. destruct (engine self) as [c|] eqn:He.
  - right. destruct (validated parse sql) eqn:Hv.
    + exfalso. revert Hev. unfold execute_sql, execute_sql_body. rewrite He.
      unfold validated, security_ok, parsing_ok in Hv.
      apply andb_prop in Hv. destruct Hv as [Hs Hp]. rewrite Hs. cbn [negb].
      destruct (_parse_and_validate_sql parse sql); [discriminate|].
      destruct (execute_with_timeout_events
                  (with_stats self (bump_total (execution_stats self)))
                  w sql params) as [rest Hrest].
      destruct (_execute_with_timeout _ w sql params) as [[result|e] trace];
        cbn in Hrest; subst trace.
      all: repeat match goal with
             | |- context [_update_execution_stats ?a ?b ?c] =>
                 destruct (_update_execution_stats a b c) as [[?|?] ?]
             end;
        unfold events; cbn; intros H; discriminate H.
    + destruct (execute_sql_rejected parse self w sql params c He Hv) as [msg E].
      rewrite E. now split.
  - left. rewrite (execute_sql_no_engine parse self w sql params He). now split.
Qed.

(** A statement that fails a validation reaches nothing and gets no
    success. *)
Lemma execute_sql_unvalidated parse self w sql params :
  validated parse sql = false ->
  events (execute_sql parse self w sql params) = []
  /\ (forall r, outcome (execute_sql parse self w sql params) = Return r ->
                success r = false).
Proof.
  intros Hv. destruct (engine self) as [c|] eqn:He.
  - destruct (execute_sql_rejected parse self w sql params c He Hv) as [msg E].
    rewrite E. split; [reflexivity|]. cbn. now intros r [= <-].
  - rewrite (execute_sql_no_engine parse self w sql params He).
    split; [reflexivity|]. cbn. now intros r [= <-].
Qed.

(** C1.  A call of [execute_sql] answers with [success = true], or
    reaches [_execute_with_timeout] (and so sends anything to the
    database), only if its statement passed the security validation
    and the parse and allow-list validation. *)
Theorem execute_sql_only_after_validation parse self w sql params :
  (exists r, outcome (execute_sql parse self w sql params) = Return r
             /\ success r = true)
  \/ events (execute_sql parse self w sql params) <> [] ->
  security_ok sql = true /\ parsing_ok parse sql = true.
Proof.
  intros H.
  destruct (validated parse sql) eqn:Hv.
  - unfold validated in Hv. now apply andb_prop in Hv.
  - exfalso.
    destruct (execute_sql_unvalidated parse self w sql params Hv) as [Hev Hr].
    destruct H as [[r [Hout Hs]]|Hne]; [|now apply Hne].
    rewrite (Hr r Hout) in Hs. discriminate Hs.
Qed.

Lemma execute_sql_only_after_validation_witness :
  let parse := Examples.parser_giving [Examples.fir_statement] in
  let res := execute_sql parse Examples.executor
               (Examples.world_ok 100 (401 # 4)) Examples.select_fir None in
  (exists r, outcome res = Return r /\ success r = true)
  /\ security_ok Examples.select_fir = true
  /\ parsing_ok parse Examples.select_fir = true.
Proof.
  cbv zeta.
  assert (H : exists r,
             outcome (execute_sql
                        (Examples.parser_giving [Examples.fir_statement])
                        Examples.executor (Examples.world_ok 100 (401 # 4))
                        Examples.select_fir None) = Return r
             /\ success r = true)
    by (eexists; split; [vm_compute; reflexivity|reflexivity]).
  split; [exact H|].
  apply (execute_sql_only_after_validation
           (Examples.parser_giving [Examples.fir_statement])
           Examples.executor (Examples.world_ok 100 (401 # 4))
           Examples.select_fir None).
  left. exact H.
Defined.

(** C5.  On an object whose counter [total_queries] is not negative,
    [execute_sql] always returns a response and never raises; when an
    exception is raised inside its [try] block, the response has
    [success = false], the non-empty message of the exception as
    [error], no rows and [row_count = 0]; and an exception of the
    execution of a validated statement (a connection failure, a
    timeout, a driver error) is such an exception. *)
Theorem execute_sql_contains_exceptions parse self w sql params :
  (0 <= total_queries (execution_stats self))%Z ->
  (exists r, outcome (execute_sql parse self w sql params) = Return r)
  /\ (forall e,
        engine self <> None ->
        outcome (execute_sql_body parse
                   (with_stats self (bump_total (execution_stats self)))
                   w sql params) = Raise e ->
        exists r,
          outcome (execute_sql parse self w sql params) = Return r
          /\ success r = false
          /\ error r = Some e /\ e <> ""
          /\ results r = [] /\ row_count r = 0%Z)
  /\ (forall e,
        engine self <> None ->
        validated parse sql = true ->
        fst (_execute_with_timeout self w sql params) = Raise e ->
        outcome (execute_sql_body parse
                   (with_stats self (bump_total (execution_stats self)))
                   w sql params) = Raise e).
Proof.
  intros Ht. split; [|split].
  - destruct (engine self) as [c|] eqn:He.
    + destruct (validated parse sql) eqn:Hv.
      * destruct (execute_sql_recorded parse self w sql params c He Hv Ht)
          as (ok & r & rest & E & _). rewrite E. now exists r.
      * destruct (execute_sql_rejected parse self w sql params c He Hv)
          as [msg E]. rewrite E. eexists. reflexivity.
    + rewrite (execute_sql_no_engine parse self w sql params He).
      eexists. reflexivity.
  - intros e He Hbody. destruct (engine self) as [c|] eqn:Hc; [|now elim He].
    unfold execute_sql. rewrite Hc. revert Hbody.
    unfold execute_sql_body.
    destruct (valid (_validate_sql_security sql)); cbn [negb];
      [|discriminate].
    destruct (_parse_and_validate_sql parse sql); [discriminate|].
    pose proof (execute_with_timeout_message
                  (with_stats self (bump_total (execution_stats self)))
                  w sql params) as Hmsg.
    destruct (_execute_with_timeout _ w sql params) as [[result|e0] trace].
    + unfold _update_execution_stats. cbn.
      destruct (total_queries (execution_stats self) + 1 =? 0)%Z eqn:E;
        [apply Z.eqb_eq in E; lia|]. discriminate.
    + cbn. intros [= ->]. unfold _update_execution_stats. cbn.
      destruct (total_queries (execution_stats self) + 1 =? 0)%Z eqn:E;
        [apply Z.eqb_eq in E; lia|].
      eexists. split; [reflexivity|]. cbn.
      destruct (Hmsg e eq_refl) as [cause ->].
      repeat split; try reflexivity. discriminate.
  - intros e _ Hv Hdb. unfold validated, security_ok, parsing_ok in Hv.
    apply andb_prop in Hv. destruct Hv as [Hs Hp].
    unfold execute_sql_body. rewrite Hs. cbn [negb].
    destruct (_parse_and_validate_sql parse sql); [discriminate|].
    change (_execute_with_timeout
              (with_stats self (bump_total (execution_stats self)))
              w sql params)
      with (_execute_with_timeout self w sql params).
    destruct (_execute_with_timeout self w sql params) as [[result|e0] trace];
      cbn in Hdb; [discriminate|].
    now injection Hdb as ->.
Qed.

Lemma execute_sql_contains_exceptions_witness :
  (0 <= total_queries (execution_stats Examples.executor))%Z
  /\ exists r,
       outcome (execute_sql (Examples.parser_giving [Examples.fir_statement])
                  Examples.executor (Examples.world_timeout 100 (130 # 1))
                  Examples.select_fir None) = Return r
       /\ success r = false
       /\ error r = Some "Query execution failed: ORA-01013: user requested cancel of current operation"
       /\ results r = [] /\ row_count r = 0%Z.
Proof.
  assert (H0 : (0 <= total_queries (execution_stats Examples.executor))%Z)
    by (cbn; lia).
  split; [exact H0|].
  destruct (proj1 (proj2 (execute_sql_contains_exceptions
              (Examples.parser_giving [Examples.fir_statement])
              Examples.executor (Examples.world_timeout 100 (130 # 1))
              Examples.select_fir None H0))
              "Query execution failed: ORA-01013: user requested cancel of current operation")
    as (r & Hr & Hs & He & _ & Hres & Hrow).
  - discriminate.
  - vm_compute. reflexivity.
  - exists r. repeat split; assumption.
Defined.


(** The three ways a call can go, as far as the object is concerned. *)
Lemma execute_sql_cases parse self w sql params :
  (0 <= total_queries (execution_stats self))%Z ->
  let res := execute_sql parse self w sql params in
  (engine self = None /\ after res = self /\ events res = [])
  \/ (engine self <> None /\ validated parse sql = false
      /\ after res = with_stats self (bump_total (execution_stats self))
      /\ events res = [])
  \/ (engine self <> None /\ validated parse sql = true
      /\ (exists ok,
            after res
            = with_stats self (recorded (execution_stats self)
                                        (t_end w - t_start w) ok))
      /\ events res <> []).
Proof.
  intros Ht res. subst res. destruct (engine self) as [c|] eqn:He.
  - right. destruct (validated parse sql) eqn:Hv.
    + right. split; [discriminate|]. split; [reflexivity|].
      destruct (execute_sql_recorded parse self w sql params c He Hv Ht)
        as (ok & r & rest & E & _). rewrite E. split; [now exists ok|].
      discriminate.
    + left. split; [discriminate|]. split; [reflexivity|].
      destruct (execute_sql_rejected parse self w sql params c He Hv) as [msg E].
      rewrite E. now split.
  - left. rewrite (execute_sql_no_engine parse self w sql params He).
    repeat split; reflexivity.
Qed.

Lemma step_consistent parse self c :
  counters_consistent (execution_stats self) ->
  counters_consistent (execution_stats (step parse self c)).
Proof.
  intros [Ht Hle]. unfold step.
  destruct (execute_sql_cases parse self (call_world c) (call_sql c)
              (call_params c) Ht)
    as [(_ & E & _)|[(_ & _ & E & _)|(_ & _ & [ok E] & _)]];
    unfold after in E; rewrite E; unfold counters_consistent; cbn.
  - now split.
  - lia.
  - destruct ok; lia.
Qed.

Lemma run_consistent parse calls : forall self,
  counters_consistent (execution_stats self) ->
  counters_consistent (execution_stats (run parse self calls)).
Proof.
  unfold run. induction calls as [|c calls IH]; intros self H; cbn.
  - exact H.
  - apply IH. now apply step_consistent.
Qed.

(** C10.  The counters of every object reached from a fresh one satisfy
    [successful + failed <= total]; and on such an object a call with
    an engine adds exactly one to [total_queries], a call that does not
    reach the execution leaves [successful_queries], [failed_queries]
    and the average as they were, a call that reaches it adds one to
    exactly one of the two counters, a call rejected by a validation
    leaves [successful + failed < total], and a call without an engine
    leaves the object unchanged. *)
Theorem counters_follow_calls :
  (forall parse e m t calls,
     counters_consistent (execution_stats (run parse (__init__ e m t) calls)))
  /\ (forall parse self w sql params,
        counters_consistent (execution_stats self) ->
        let res := execute_sql parse self w sql params in
        let st := execution_stats self in
        let st' := execution_stats (after res) in
        (engine self <> None -> total_queries st' = (total_queries st + 1)%Z)
        /\ (events res = [] ->
            successful_queries st' = successful_queries st
            /\ failed_queries st' = failed_queries st
            /\ avg_execution_time st' = avg_execution_time st)
        /\ (events res <> [] ->
            (successful_queries st' + failed_queries st'
             = successful_queries st + failed_queries st + 1)%Z)
        /\ counters_consistent st'
        /\ (engine self <> None -> validated parse sql = false ->
            events res = []
            /\ (successful_queries st' + failed_queries st'
                < total_queries st')%Z)
        /\ (engine self = None -> after res = self)).
Proof.
  split.
  - intros parse e m t calls. apply run_consistent.
    unfold counters_consistent. cbn. lia.
  - intros parse self w sql params [Ht Hle] res st st'.
    subst res st st'.
    destruct (execute_sql_cases parse self w sql params Ht)
      as [(He & E & Hev)|[(He & Hv & E & Hev)|(He & Hv & [ok E] & Hev)]];
      rewrite E, ?Hev; unfold counters_consistent; cbn.
    + repeat split; try reflexivity; try lia; try congruence.
    + repeat split; try reflexivity; try lia; try congruence.
    + rewrite Hv. destruct ok; cbn;
        repeat split; try reflexivity; try lia; try congruence;
        intros; try congruence; try lia.
Qed.


Lemma counters_follow_calls_witness :
  counters_consistent (execution_stats Examples.executor)
  /\ (let st' :=
        execution_stats
          (after (execute_sql (Examples.parser_giving [Examples.fir_statement])
                    Examples.executor (Examples.world_ok 100 (401 # 4))
                    "DROP TABLE FIR" None)) in
      (successful_queries st' + failed_queries st' < total_queries st')%Z).
Proof.
  assert (H0 : counters_consistent (execution_stats Examples.executor))
    by (unfold counters_consistent; cbn; lia).
  split; [exact H0|].
  pose proof (proj2 counters_follow_calls
                (Examples.parser_giving [Examples.fir_statement])
                Examples.executor (Examples.world_ok 100 (401 # 4))
                "DROP TABLE FIR" None H0) as H.
  cbv zeta in H. destruct H as (_ & _ & _ & _ & H & _).
  apply H; [discriminate|vm_compute; reflexivity].
Defined.

(** ** The running average *)

Lemma inject_Z_pos_nonzero z : (0 < z)%Z -> ~ inject_Z z == 0.
Proof.
  intros Hz H. unfold Qeq in H. cbn in H. lia.
Qed.

Lemma recorded_sum st d ok :
  (0 <= total_queries st)%Z ->
  avg_execution_time (recorded st d ok) * inject_Z (total_queries (recorded st d ok))
  == avg_execution_time st * inject_Z (total_queries st) + d.
Proof.
  intros Ht. cbn.
  replace (total_queries st + 1 - 1)%Z with (total_queries st) by lia.
  field. apply inject_Z_pos_nonzero. lia.
Qed.

(** A run of calls that all reach the execution adds its durations to
    [avg * total] and its length to [total]. *)
Lemma run_recorded parse c calls : forall self,
  engine self = Some c ->
  (0 <= total_queries (execution_stats self))%Z ->
  Forall (fun call => validated parse (call_sql call) = true) calls ->
  let self' := run parse self calls in
  engine self' = Some c
  /\ total_queries (execution_stats self')
     = (total_queries (execution_stats self) + Z.of_nat (List.length calls))%Z
  /\ avg_execution_time (execution_stats self')
       * inject_Z (total_queries (execution_stats self'))
     == avg_execution_time (execution_stats self)
          * inject_Z (total_queries (execution_stats self))
        + Qsum (map duration calls).
Proof.
  unfold run. induction calls as [|call calls IH]; intros self He Ht Hall; cbn.
  - split; [exact He|]. split; [lia|]. ring.
  - inversion Hall as [|x l Hv Hrest]; subst.
    destruct (execute_sql_recorded parse self (call_world call) (call_sql call)
                (call_params call) c He Hv Ht) as (ok & r & rest & E & _).
    assert (Hstep : step parse self call
                    = with_stats self (recorded (execution_stats self)
                                                (duration call) ok)).
    { unfold step. rewrite E. reflexivity. }
    rewrite Hstep.
    destruct (IH (with_stats self (recorded (execution_stats self)
                                            (duration call) ok)))
      as (He' & Ht' & Havg'); [exact He|cbn; lia|exact Hrest|].
    split; [exact He'|]. split.
    + rewrite Ht'. cbn. lia.
    + rewrite Havg'.
      change (execution_stats (with_stats self ?s)) with s.
      rewrite recorded_sum by exact Ht. unfold Qsum. ring.
Qed.

(** C6.  After N >= 1 calls on a fresh object that each reach the
    execution, and so each record a duration, the stored average equals
    the arithmetic mean of the N durations (in exact arithmetic); each
    such call computes it as [(old_avg * (n - 1) + duration) / n], where
    [n] is the total after the increment of the call. *)
Theorem running_average_is_mean parse c m t calls :
  calls <> [] ->
  Forall (fun call => validated parse (call_sql call) = true) calls ->
  avg_execution_time
    (execution_stats (run parse (__init__ (Some c) m t) calls))
  == mean (map duration calls)
  /\ (forall self call,
        engine self = Some c ->
        (0 <= total_queries (execution_stats self))%Z ->
        validated parse (call_sql call) = true ->
        let n := (total_queries (execution_stats self) + 1)%Z in
        total_queries (execution_stats (step parse self call)) = n
        /\ avg_execution_time (execution_stats (step parse self call))
           = (avg_execution_time (execution_stats self) * inject_Z (n - 1)
              + duration call) / inject_Z n).
Proof.
  intros Hne Hall. split.
  - destruct (run_recorded parse c calls (__init__ (Some c) m t))
      as (_ & Ht & Havg); [reflexivity|cbn; lia|exact Hall|].
    cbn in Ht. cbn [__init__ execution_stats initial_stats avg_execution_time
                    total_queries] in Havg.
    unfold mean. rewrite length_map.
    rewrite Ht in Havg.
    assert (Hn : ~ inject_Z (Z.of_nat (List.length calls)) == 0).
    { apply inject_Z_pos_nonzero. destruct calls; [now elim Hne|cbn; lia]. }
    apply (Qmult_inj_r _ _ (inject_Z (Z.of_nat (List.length calls)))); [exact Hn|].
    rewrite Havg. field. exact Hn.
  - intros self call He Ht Hv n. subst n.
    destruct (execute_sql_recorded parse self (call_world call) (call_sql call)
                (call_params call) c He Hv Ht) as (ok & r & rest & E & _).
    unfold step. rewrite E. cbn. split; reflexivity.
Qed.


Lemma running_average_is_mean_witness :
  let calls :=
    [ mkCall (Examples.world_ok 100 (401 # 4)) Examples.select_fir None;
      mkCall (Examples.world_timeout 200 230) Examples.select_fir None ] in
  let parse := Examples.parser_giving [Examples.fir_statement] in
  calls <> []
  /\ Forall (fun call => validated parse (call_sql call) = true) calls
  /\ avg_execution_time
       (execution_stats (run parse Examples.executor calls))
     == ((1 # 4) + 30) / 2.
Proof.
  intros calls parse.
  assert (Hne : calls <> []) by discriminate.
  assert (Hall : Forall (fun call => validated parse (call_sql call) = true)
                        calls)
    by (repeat constructor).
  split; [exact Hne|]. split; [exact Hall|].
  rewrite (proj1 (running_average_is_mean parse "oracle://cctns" 1000%Z 30%Z
                    calls Hne Hall)).
  vm_compute. reflexivity.
Defined.

(** A call rejected by a validation counts in [total_queries] and
    records no duration: the average that a later call stores is
    divided by a total that includes it. *)
Lemma rejected_call_dilutes_average :
  let parse := Examples.parser_giving [Examples.fir_statement] in
  let calls :=
    [ mkCall (Examples.world_ok 0 0) "DROP TABLE FIR" None;
      mkCall (Examples.world_ok 100 130) Examples.select_fir None ] in
  let st := execution_stats (run parse Examples.executor calls) in
  total_queries st = 2%Z
  /\ successful_queries st = 1%Z
  /\ failed_queries st = 0%Z
  /\ avg_execution_time st == 15.
Proof. vm_compute. repeat split. Qed.

(* ------------------------------------------------------------------ *)
(** ** The stages of [_validate_sql_security] *)

(** Past the command and injection stages only the two counts decide. *)
Lemma complexity_stage sql :
  passes_command_stage sql = true ->
  passes_injection_stage sql = true ->
  _validate_sql_security sql
  = if (10 <? PyStr.count sql "JOIN")%nat then
      {| valid := false; reason := "Too many JOINs (max 10 allowed)" |}
    else if (5 <? PyStr.count sql "SELECT")%nat then
      {| valid := false; reason := "Too many subqueries (max 5 allowed)" |}
    else {| valid := true; reason := "Security validation passed" |}.
Proof.
  unfold passes_command_stage, passes_injection_stage, _validate_sql_security.
  destruct (find _ dangerous_keywords); [discriminate|].
  intros ->. cbn [negb].
  destruct (find _ injection_patterns); [discriminate|]. reflexivity.
Qed.

(** Whatever the stage that answers, too many JOIN or SELECT texts make
    the validation fail. *)
Lemma over_the_limits_invalid sql :
  (10 < PyStr.count sql "JOIN")%nat \/ (5 < PyStr.count sql "SELECT")%nat ->
  valid (_validate_sql_security sql) = false.
Proof.
  intros H. unfold _validate_sql_security.
  destruct (find _ dangerous_keywords); [reflexivity|].
  destruct (negb _); [reflexivity|].
  destruct (find _ injection_patterns); [reflexivity|].
  destruct (10 <? PyStr.count sql "JOIN")%nat eqn:Hj; [reflexivity|].
  destruct (5 <? PyStr.count sql "SELECT")%nat eqn:Hs; [reflexivity|].
  apply Nat.ltb_ge in Hj, Hs. lia.
Qed.

(** The complexity stage on the words as they are written.  A
    statement that holds the text JOIN, in capitals, more than 10
    times, or the text SELECT more than 5 times, fails the security
    validation; when it passes the command and injection stages it is
    the complexity stage that rejects it, with the reason that names
    the limit of 10 JOINs, or else the limit of 5 subqueries. *)
Theorem complexity_limits_enforced sql :
  ((10 < PyStr.count sql "JOIN")%nat \/ (5 < PyStr.count sql "SELECT")%nat ->
   valid (_validate_sql_security sql) = false)
  /\ (passes_command_stage sql = true ->
      passes_injection_stage sql = true ->
      ((10 < PyStr.count sql "JOIN")%nat ->
       _validate_sql_security sql
       = {| valid := false; reason := "Too many JOINs (max 10 allowed)" |})
      /\ ((PyStr.count sql "JOIN" <= 10)%nat ->
          (5 < PyStr.count sql "SELECT")%nat ->
          _validate_sql_security sql
          = {| valid := false;
               reason := "Too many subqueries (max 5 allowed)" |})).
Proof.
  split; [apply over_the_limits_invalid|].
  intros Hc Hi. rewrite (complexity_stage sql Hc Hi). split.
  - intros Hj. apply Nat.ltb_lt in Hj. now rewrite Hj.
  - intros Hj Hs. apply Nat.ltb_ge in Hj. apply Nat.ltb_lt in Hs.
    now rewrite Hj, Hs.
Qed.

Lemma complexity_limits_enforced_witness :
  passes_command_stage Examples.eleven_joins = true
  /\ passes_injection_stage Examples.eleven_joins = true
  /\ (10 < PyStr.count Examples.eleven_joins "JOIN")%nat
  /\ _validate_sql_security Examples.eleven_joins
     = {| valid := false; reason := "Too many JOINs (max 10 allowed)" |}.
Proof.
  assert (Hc : passes_command_stage Examples.eleven_joins = true)
    by (vm_compute; reflexivity).
  assert (Hi : passes_injection_stage Examples.eleven_joins = true)
    by (vm_compute; reflexivity).
  assert (Hj : (10 < PyStr.count Examples.eleven_joins "JOIN")%nat)
    by (vm_compute; lia).
  split; [exact Hc|]. split; [exact Hi|]. split; [exact Hj|].
  exact (proj1 (proj2 (complexity_limits_enforced Examples.eleven_joins) Hc Hi)
               Hj).
Defined.

(** The stages answer in order: a statement with 11 JOINs that also
    holds the keyword END is rejected by the command stage, with the
    reason of that stage. *)
Lemma complexity_stage_preempted :
  (10 < PyStr.count Examples.eleven_joins_with_case "JOIN")%nat
  /\ _validate_sql_security Examples.eleven_joins_with_case
     = {| valid := false; reason := "Dangerous keyword 'END' not allowed" |}
  /\ PyStr.contains "JOIN"
       (reason (_validate_sql_security Examples.eleven_joins_with_case))
     = false.
Proof.
  split; [vm_compute; lia|]. split; vm_compute; reflexivity.
Qed.

(** C7.  The complexity stage misses joins that are not written in
    capitals.  The statement [eleven_lower_case_joins] has 11 joins,
    as the count on its upper-case form shows, and that upper-case
    form is rejected with the reason that names the limit of 10 JOINs;
    written in lower case, the statement passes the command and
    injection stages, its joins are counted as none, and the security
    validation accepts it, while the other stages of the same function
    read the statement without regard to the case of its letters. *)
Theorem lower_case_joins_not_counted :
  let sql := Examples.eleven_lower_case_joins in
  PyStr.count (PyStr.upper sql) "JOIN" = 11%nat
  /\ _validate_sql_security (PyStr.upper sql)
     = {| valid := false; reason := "Too many JOINs (max 10 allowed)" |}
  /\ passes_command_stage sql = true
  /\ passes_injection_stage sql = true
  /\ PyStr.count sql "JOIN" = 0%nat
  /\ _validate_sql_security sql
     = {| valid := true; reason := "Security validation passed" |}.
Proof. vm_compute. repeat split. Qed.

(** A denylisted keyword set off by spaces, or at the head of the
    statement, is rejected, and the reason names the first keyword of
    the list that is so found. *)
Lemma space_delimited_keyword_rejected sql keyword :
  In keyword dangerous_keywords ->
  keyword_hit (PyStr.strip (PyStr.upper sql)) keyword = true ->
  exists named,
    In named dangerous_keywords
    /\ keyword_hit (PyStr.strip (PyStr.upper sql)) named = true
    /\ _validate_sql_security sql
       = {| valid := false;
            reason := "Dangerous keyword '" ++ named ++ "' not allowed" |}.
Proof.
  intros Hin Hhit. unfold _validate_sql_security.
  destruct (find (keyword_hit (PyStr.strip (PyStr.upper sql)))
                 dangerous_keywords) as [named|] eqn:Hf.
  - apply find_some in Hf. destruct Hf as [Hn Hh]. now exists named.
  - pose proof (find_none _ _ Hf keyword Hin) as Hno. congruence.
Qed.

(** A keyword on a line of its own is a whole token too, and is not
    found either. *)
Lemma newline_delimited_keyword_passes :
  let sql := "SELECT * FROM FIR" ++ PyStr.nl ++ "DELETE FROM FIR" in
  standalone_token "DELETE" sql = true
  /\ valid (_validate_sql_security sql) = true.
Proof. vm_compute. split; reflexivity. Qed.

(** C2.  The statement [SELECT * FROM FIR;DROP TABLE FIR] holds the
    denylisted keyword DROP as a whole token, and the security
    validation accepts it. *)
Theorem stacked_drop_passes_security :
  In "DROP" dangerous_keywords
  /\ standalone_token "DROP" Examples.stacked_drop = true
  /\ _validate_sql_security Examples.stacked_drop
     = {| valid := true; reason := "Security validation passed" |}.
Proof.
  split; [now left|]. split; vm_compute; reflexivity.
Qed.

(* ------------------------------------------------------------------ *)
(** ** The table allow-list *)

(** When [_extract_tables] yields a table outside the allow-list, the
    statement is rejected and the reason names the first such table. *)
Lemma disallowed_table_rejected parse sql statement rest table :
  parse sql = Return (statement :: rest) ->
  In table (_extract_tables statement) ->
  table_allowed table = false ->
  exists named,
    In named (_extract_tables statement)
    /\ table_allowed named = false
    /\ _parse_and_validate_sql parse sql
       = ParseRejected ("Access to table '" ++ named ++ "' not allowed").
Proof.
  intros Hp Hin Hna. unfold _parse_and_validate_sql. rewrite Hp.
  destruct (find (fun t => negb (table_allowed t)) (_extract_tables statement))
    as [named|] eqn:Hf.
  - apply find_some in Hf. destruct Hf as [Hn Hd].
    exists named. repeat split; try assumption.
    now apply negb_true_iff in Hd.
  - pose proof (find_none _ _ Hf table Hin) as Hno.
    change (negb (table_allowed table) = false) in Hno.
    rewrite Hna in Hno. discriminate.
Qed.

(** On tokens that all carry a type, the test [token.ttype is None]
    never succeeds, and no table is extracted. *)
Lemma typed_leaves_extract_nothing statement : forall from_seen,
  typed_leaves statement ->
  extract_tables_from from_seen statement = [].
Proof.
  induction statement as [|token rest IH]; intros from_seen Hty; cbn.
  - reflexivity.
  - inversion Hty as [|x l Hx Hrest]; subst.
    destruct (SqlParse.ttype token) as [t|] eqn:Et; [|now elim Hx].
    cbn [SqlParse.ttype_is_None]. rewrite andb_false_r. cbn [andb].
    destruct (SqlParse.ttype_is (Some t) SqlParse.Keyword
              && String.eqb (PyStr.upper (SqlParse.value token)) "FROM");
      now apply IH.
Qed.

(** Then the allow-list rejects nothing. *)
Lemma typed_leaves_pass_allow_list parse sql statement rest :
  parse sql = Return (statement :: rest) ->
  typed_leaves statement ->
  exists qtype columns,
    _parse_and_validate_sql parse sql = ParseAccepted qtype [] columns.
Proof.
  intros Hp Hty. unfold _parse_and_validate_sql. rewrite Hp.
  unfold _extract_tables. rewrite (typed_leaves_extract_nothing _ _ Hty).
  cbn. eexists. eexists. reflexivity.
Qed.

(** C3.  On the leaves of [SELECT * FROM PAYROLL], which all carry a
    token type, no table is extracted: the statement, whose table is
    not in the allow-list, passes both validations and is sent to the
    database. *)
Theorem payroll_is_executed :
  let parse := Examples.parser_giving [Examples.payroll_statement] in
  let sql := "SELECT * FROM PAYROLL" in
  let res := execute_sql parse Examples.executor
               (Examples.world_ok 100 (401 # 4)) sql None in
  typed_leaves Examples.payroll_statement
  /\ table_allowed "PAYROLL" = false
  /\ security_ok sql = true
  /\ _parse_and_validate_sql parse sql = ParseAccepted "SELECT" [] []
  /\ In (EvDbStatement sql) (events res)
  /\ exists r, outcome res = Return r /\ success r = true.
Proof.
  cbv zeta. split.
  { unfold typed_leaves, Examples.payroll_statement. repeat constructor;
      discriminate. }
  split; [vm_compute; reflexivity|].
  split; [vm_compute; reflexivity|].
  split; [vm_compute; reflexivity|].
  split.
  - vm_compute. right. right. now left.
  - eexists. split; [vm_compute; reflexivity|reflexivity].
Qed.

(* ------------------------------------------------------------------ *)
(** * Properties of the translator *)

Import NL2SQLProcessor.

Lemma district_summary_sql_truthy district :
  PyStr.truthy (district_summary_sql district) = true.
Proof. reflexivity. Qed.

Lemma fir_counts_truthy q s :
  fir_counts q = Some s -> PyStr.truthy s = true.
Proof.
  unfold fir_counts.
  destruct (_ && _); [|discriminate].
  destruct (PyStr.contains "today" q); [now intros [= <-]|].
  destruct (PyStr.contains "month" q); [now intros [= <-]|discriminate].
Qed.

Lemma officer_performance_truthy q s :
  officer_performance q = Some s -> PyStr.truthy s = true.
Proof.
  unfold officer_performance.
  destruct (_ && _); [now intros [= <-]|apply fir_counts_truthy].
Qed.

(** Every pattern yields a non-empty statement. *)
Lemma rule_based_generation_truthy query s :
  _rule_based_generation query = Some s -> PyStr.truthy s = true.
Proof.
  unfold _rule_based_generation.
  destruct (_ && _); [|apply officer_performance_truthy].
  destruct (_extract_district _) as [d|]; [|apply officer_performance_truthy].
  destruct (PyStr.truthy d); [|apply officer_performance_truthy].
  intros [= <-]. apply district_summary_sql_truthy.
Qed.

(** C8, as the code has it.  The answer of the translator is a function
    of the text: when no pattern yields a statement it is [sql = ""],
    [confidence = 0] and the error [No matching pattern], with no
    method; when a pattern yields a statement it is that statement with
    [confidence] exactly 0.9 and the method [rule_based]; of the parser
    only the key [valid] depends. *)
Theorem translator_answers parse query :
  (_rule_based_generation query = None ->
   generate_sql parse query
   = {| sql := ""; confidence := 0; method := None; valid := None;
        error := Some "No matching pattern" |})
  /\ (forall s,
        _rule_based_generation query = Some s ->
        generate_sql parse query
        = {| sql := s; confidence := 9 # 10; method := Some "rule_based";
             valid := Some (_validate_sql parse s); error := None |})
  /\ (forall parse',
        sql (generate_sql parse' query) = sql (generate_sql parse query)
        /\ confidence (generate_sql parse' query)
           = confidence (generate_sql parse query)
        /\ method (generate_sql parse' query)
           = method (generate_sql parse query)
        /\ error (generate_sql parse' query)
           = error (generate_sql parse query)).
Proof.
  unfold generate_sql. split; [|split].
  - now intros ->.
  - intros s Hs. rewrite Hs. now rewrite (rule_based_generation_truthy _ _ Hs).
  - intros parse'. destruct (_rule_based_generation query) as [s|].
    + destruct (PyStr.truthy s); repeat split.
    + repeat split.
Qed.

Lemma translator_answers_witness :
  _rule_based_generation "hello" = None
  /\ _rule_based_generation "count FIR registered today" = Some fir_today_sql
  /\ error (generate_sql (Examples.parser_giving [Examples.fir_statement])
              "hello") = Some "No matching pattern"
  /\ confidence (generate_sql (Examples.parser_giving [Examples.fir_statement])
                   "count FIR registered today") = 9 # 10.
Proof.
  assert (H1 : _rule_based_generation "hello" = None) by reflexivity.
  assert (H2 : _rule_based_generation "count FIR registered today"
               = Some fir_today_sql) by reflexivity.
  split; [exact H1|]. split; [exact H2|]. split.
  - rewrite (proj1 (translator_answers
                      (Examples.parser_giving [Examples.fir_statement])
                      "hello") H1).
    reflexivity.
  - rewrite (proj1 (proj2 (translator_answers
                      (Examples.parser_giving [Examples.fir_statement])
                      "count FIR registered today")) _ H2).
    reflexivity.
Defined.

(** C8, as the specification words it, fails: the error of a text
    that matches no pattern is not the string [no matching pattern]. *)
Lemma no_match_error_is_capitalised :
  ~ (forall parse query,
       _rule_based_generation query = None ->
       error (generate_sql parse query) = Some "no matching pattern").
Proof.
  intros H.
  specialize (H (Examples.parser_giving [Examples.fir_statement]) "hello"
                eq_refl).
  discriminate H.
Qed.

(* ------------------------------------------------------------------ *)
(** * Properties of the query agent *)

Import QueryAgent.

(** The standard mode hands one statement to the validator, the one it
    returns, or none when the translator gives no valid statement. *)
Lemma standard_query_log env parse text context :
  let std := _generate_standard_query env parse text context in
  (QueryAgent.sql (fst std) = "" /\ snd std = [])
  \/ (snd std = [EvValidateQuery (QueryAgent.sql (fst std))]
      /\ validation (fst std)
         = Some (_validate_query parse (QueryAgent.sql (fst std)))).
Proof.
  unfold _generate_standard_query.
  destruct (negb _); cbn; [left|right]; now split.
Qed.

(** C4, as the code has it.  The complex and the analytical mode run
    the standard mode; when its statement is empty they return its
    result unchanged, and otherwise they return it with the augmented
    statement in place of the standard one and the keys of the mode
    added.  The validator is called by the standard mode only, at most
    once and on the standard statement, and the validation report of
    the result is the one of the standard statement.  The agent
    executes nothing; when the augmented statement is handed to
    [execute_sql], it reaches the database only if it passes the
    validations of the executor. *)
Theorem augmented_modes_keep_standard_validation env parse text context :
  let std := _generate_standard_query env parse text context in
  let base := fst std in
  let components := _parse_complex_query env text in
  let patterns := _identify_analytical_patterns env text in
  _generate_complex_query env parse text context
  = (if String.eqb (QueryAgent.sql base) "" then base
     else with_complex base
            (_add_complex_features env (QueryAgent.sql base) components)
            components,
     snd std)
  /\ _generate_analytical_query env parse text context
     = (if String.eqb (QueryAgent.sql base) "" then base
        else with_analytical base
               (_add_analytical_features env (QueryAgent.sql base) patterns)
               patterns (_suggest_visualizations env patterns),
        snd std)
  /\ validation (fst (_generate_complex_query env parse text context))
     = validation base
  /\ validation (fst (_generate_analytical_query env parse text context))
     = validation base
  /\ (snd std = [] \/ snd std = [EvValidateQuery (QueryAgent.sql base)])
  /\ (forall self w params augmented,
        augmented
        = QueryAgent.sql (fst (_generate_complex_query env parse text context))
        \/ augmented
           = QueryAgent.sql
               (fst (_generate_analytical_query env parse text context)) ->
        events (execute_sql parse self w augmented params) <> [] ->
        validated parse augmented = true).
Proof.
  cbv zeta.
  unfold _generate_complex_query, _generate_analytical_query, PyStr.truthy.
  destruct (_generate_standard_query env parse text context) as [base log] eqn:E.
  cbn [fst snd]. rewrite negb_involutive.
  split; [now destruct (String.eqb (QueryAgent.sql base) "")|].
  split; [now destruct (String.eqb (QueryAgent.sql base) "")|].
  split; [now destruct (String.eqb (QueryAgent.sql base) "")|].
  split; [now destruct (String.eqb (QueryAgent.sql base) "")|].
  split.
  - pose proof (standard_query_log env parse text context) as H.
    rewrite E in H. cbn in H. destruct H as [[_ H]|[H _]]; [now left|now right].
  - intros self w params augmented _ Hev.
    destruct (validated parse augmented) eqn:Hv; [reflexivity|].
    now destruct (execute_sql_unvalidated parse self w augmented params Hv).
Qed.

Lemma augmented_modes_keep_standard_validation_witness :
  let env := Examples.inert (fun s => s ++ " GROUP BY 1") in
  let parse := Examples.parser_giving [Examples.fir_statement] in
  let augmented :=
    QueryAgent.sql
      (fst (_generate_complex_query env parse "count FIR registered today"
              PyNone)) in
  events (execute_sql parse Examples.executor (Examples.world_ok 100 130)
            augmented None) <> []
  /\ validated parse augmented = true.
Proof.
  cbv zeta.
  assert (Hev : events (execute_sql
                          (Examples.parser_giving [Examples.fir_statement])
                          Examples.executor (Examples.world_ok 100 130)
                          (QueryAgent.sql
                             (fst (_generate_complex_query
                                     (Examples.inert (fun s => s ++ " GROUP BY 1"))
                                     (Examples.parser_giving
                                        [Examples.fir_statement])
                                     "count FIR registered today" PyNone)))
                          None) <> [])
    by (vm_compute; discriminate).
  split; [exact Hev|].
  destruct (augmented_modes_keep_standard_validation
              (Examples.inert (fun s => s ++ " GROUP BY 1"))
              (Examples.parser_giving [Examples.fir_statement])
              "count FIR registered today" PyNone)
    as (_ & _ & _ & _ & _ & H).
  apply (H Examples.executor (Examples.world_ok 100 130) None).
  - now left.
  - exact Hev.
Defined.

(** C4, as the specification words it, fails: with an augmentation
    that adds a grouping clause, the statement that the complex mode
    and the analytical mode return was never handed to the validator. *)
Lemma augmented_sql_not_revalidated :
  let env := Examples.inert (fun s => s ++ " GROUP BY 1") in
  let parse := Examples.parser_giving [Examples.fir_statement] in
  let complex :=
    _generate_complex_query env parse "count FIR registered today" PyNone in
  let analytical :=
    _generate_analytical_query env parse "count FIR registered today" PyNone in
  QueryAgent.sql (fst complex) = fir_today_sql ++ " GROUP BY 1"
  /\ snd complex = [EvValidateQuery fir_today_sql]
  /\ ~ In (EvValidateQuery (QueryAgent.sql (fst complex))) (snd complex)
  /\ QueryAgent.sql (fst analytical) = fir_today_sql ++ " GROUP BY 1"
  /\ ~ In (EvValidateQuery (QueryAgent.sql (fst analytical))) (snd analytical).
Proof.
  cbv zeta. split; [vm_compute; reflexivity|]. split; [vm_compute; reflexivity|].
  split; [|split]; [|vm_compute; reflexivity|].
  - vm_compute. intros [H|[]]. discriminate H.
  - vm_compute. intros [H|[]]. discriminate H.
Qed.

(** The short cut is taken on an empty statement only: a standard
    statement that its validation report marks as unsafe is augmented
    all the same. *)
Lemma unsafe_standard_sql_is_augmented :
  let env :=
    {| get_table_info := fun _ => None;
       suggest_joins_for_query := fun _ => [];
       _add_join_to_sql := fun sql _ => sql;
       _add_table_aliases := fun sql _ => sql ++ " -- aliased";
       _parse_complex_query := fun _ => PyNone;
       _add_complex_features := fun sql _ => sql ++ " GROUP BY 1";
       _identify_analytical_patterns := fun _ => PyNone;
       _add_analytical_features := fun sql _ => sql;
       _suggest_visualizations := fun _ => PyNone;
       list_of_set := nodup string_dec |} in
  let parse := Examples.parser_giving [Examples.fir_statement] in
  let std :=
    _generate_standard_query env parse "count FIR registered today" PyNone in
  let complex :=
    _generate_complex_query env parse "count FIR registered today" PyNone in
  option_map security_valid (validation (fst std)) = Some false
  /\ QueryAgent.sql (fst complex)
     = QueryAgent.sql (fst std) ++ " GROUP BY 1".
Proof. cbv zeta. split; vm_compute; reflexivity. Qed.

(** ** [_enhance_with_schema] and its absent helpers

    Whether enhancing twice equals enhancing once is decided by
    [_add_join_to_sql], [_add_table_aliases] and
    [suggest_joins_for_query]: it holds for helpers that leave the text
    alone and fails for an alias step that marks the text. *)

Lemma enhance_idempotent_when_inert sql context :
  let env := Examples.inert (fun s => s) in
  _enhance_with_schema env (_enhance_with_schema env sql context) context
  = _enhance_with_schema env sql context.
Proof.
  cbv zeta.
  assert (H : forall s, _enhance_with_schema (Examples.inert (fun s => s)) s context = s).
  { intros s. unfold _enhance_with_schema.
    destruct (1 <? _)%nat; reflexivity. }
  now rewrite !H.
Qed.

Lemma enhance_not_idempotent_when_marking :
  let once := _enhance_with_schema Examples.marking Examples.select_fir PyNone in
  _enhance_with_schema Examples.marking once PyNone <> once.
Proof. vm_compute. discriminate. Qed.

End Properties.

(* ================================================================== *)
(** * Further properties of the code *)

Module Behaviour.

Import PyStr.

(** ** Strings *)

Lemma map_chars_app f a b :
  map_chars f (a ++ b) = map_chars f a ++ map_chars f b.
Proof. induction a as [|c a IH]; cbn; [reflexivity|now rewrite IH]. Qed.

Lemma append_assoc (a b c : string) : (a ++ b) ++ c = a ++ (b ++ c).
Proof. induction a as [|x a IH]; cbn; [reflexivity|now rewrite IH]. Qed.

Lemma append_empty_r (a : string) : a ++ "" = a.
Proof. induction a as [|x a IH]; cbn; [reflexivity|now rewrite IH]. Qed.

Lemma startswith_app p b : startswith (p ++ b) p = true.
Proof.
  induction p as [|c p IH]; cbn; [now destruct b|].
  now rewrite Ascii.eqb_refl, IH.
Qed.

Lemma startswith_app_l s p r :
  startswith s p = true -> startswith (s ++ r) p = true.
Proof.
  revert s. induction p as [|c p IH]; intros s H.
  - now destruct (s ++ r).
  - destruct s as [|d s]; [discriminate|]. cbn in *.
    apply andb_prop in H. destruct H as [-> H]. now rewrite IH.
Qed.

Lemma contains_here sub s : startswith s sub = true -> contains sub s = true.
Proof. intros H. destruct s; cbn in *; now rewrite H. Qed.

Lemma contains_tail sub c s : contains sub s = true -> contains sub (String c s) = true.
Proof. intros H. cbn. rewrite H. apply orb_true_r. Qed.

Lemma contains_app_l sub s r :
  contains sub s = true -> contains sub (s ++ r) = true.
Proof.
  induction s as [|c s IH]; intros H.
  - cbn in H. rewrite orb_false_r in H. destruct sub; [|discriminate].
    destruct r; reflexivity.
  - cbn in H. apply orb_prop in H. destruct H as [H|H].
    + apply contains_here. now apply (startswith_app_l (String c s)).
    + cbn [append]. apply contains_tail. now apply IH.
Qed.

Lemma contains_app_r sub l s :
  contains sub s = true -> contains sub (l ++ s) = true.
Proof.
  intros H. induction l as [|c l IH]; [exact H|].
  cbn [append]. now apply contains_tail.
Qed.

Lemma contains_middle sub a b : contains sub (a ++ sub ++ b) = true.
Proof. apply contains_app_r, contains_here, startswith_app. Qed.

Lemma lstrip_app_stable x z : lstrip z = z -> lstrip (x ++ z) = lstrip x ++ z.
Proof.
  intros Hz. induction x as [|c x IH]; cbn; [exact Hz|].
  destruct (is_space c); [exact IH|reflexivity].
Qed.

Lemma rstrip_app z y :
  rstrip (z ++ y)
  = match rstrip y with
    | EmptyString => rstrip z
    | String _ _ => z ++ rstrip y
    end.
Proof.
  induction z as [|c z IH]; cbn.
  - now destruct (rstrip y).
  - rewrite IH. destruct (rstrip y); [reflexivity|].
    now destruct z.
Qed.

Lemma lstrip_before_space p :
  lstrip (p ++ " ") = "" \/ exists p', lstrip (p ++ " ") = p' ++ " ".
Proof.
  induction p as [|c p IH]; cbn; [now left|].
  destruct (is_space c); [exact IH|]. right. now exists (String c p).
Qed.

Lemma rstrip_after_space q :
  rstrip (" " ++ q) = "" \/ exists q', rstrip (" " ++ q) = " " ++ q'.
Proof.
  cbn. destruct (rstrip q) as [|c r]; cbn; [now left|].
  right. now exists (String c r).
Qed.

Ltac app_norm :=
  repeat (rewrite ?append_assoc, ?append_empty_r; cbn [append]).

(** A word that [strip] leaves alone stays set off by spaces in the
    padded, stripped text. *)
Lemma padded_strip_keeps_word p k q :
  k <> "" -> lstrip k = k -> rstrip k = k ->
  contains (" " ++ k ++ " ")
           (" " ++ strip (p ++ " " ++ k ++ " " ++ q) ++ " ") = true.
Proof.
  intros Hne Hl Hr. unfold strip.
  replace (p ++ " " ++ k ++ " " ++ q) with ((p ++ " ") ++ (k ++ " " ++ q))
    by now rewrite append_assoc.
  rewrite lstrip_app_stable.
  2:{ destruct k as [|c k]; [now elim Hne|]. cbn in *.
      destruct (is_space c); [|reflexivity].
      exfalso. assert (Hlen : String.length (lstrip k) = S (String.length k))
        by now rewrite Hl.
      clear -Hlen. revert Hlen.
      assert (H : forall s, (String.length (lstrip s) <= String.length s)%nat).
      { induction s as [|d s IH]; cbn; [lia|]. destruct (is_space d); cbn; lia. }
      specialize (H k). lia. }
  replace (lstrip (p ++ " ") ++ k ++ " " ++ q)
    with ((lstrip (p ++ " ") ++ k) ++ (" " ++ q))
    by now rewrite append_assoc.
  rewrite rstrip_app.
  assert (Hk : rstrip (lstrip (p ++ " ") ++ k) = lstrip (p ++ " ") ++ k).
  { rewrite rstrip_app, Hr. destruct k; [now elim Hne|reflexivity]. }
  assert (Hmid : forall a b,
             contains (" " ++ k ++ " ") (a ++ (" " ++ k ++ " ") ++ b) = true)
    by (intros; apply contains_middle).
  destruct (lstrip_before_space p) as [Hp|[p' Hp]];
    destruct (rstrip_after_space q) as [Hq|[q' Hq]]; rewrite Hp, Hq in *;
    try rewrite Hk.
  - specialize (Hmid "" ""). revert Hmid. app_norm. exact (fun H => H).
  - specialize (Hmid "" (q' ++ " ")). revert Hmid. app_norm. exact (fun H => H).
  - specialize (Hmid (" " ++ p') ""). revert Hmid. app_norm. exact (fun H => H).
  - specialize (Hmid (" " ++ p') (q' ++ " ")). revert Hmid. app_norm.
    exact (fun H => H).
Qed.

(** ** The security validation of the executor *)

Import SQLExecutor Notions MoreNotions.

Lemma keywords_are_words :
  Forall (fun k => k <> "" /\ lstrip k = k /\ rstrip k = k) dangerous_keywords.
Proof. repeat constructor; discriminate. Qed.

(** X1.  A denylisted keyword written in any letter case with a space
    on each side is rejected wherever it stands in the statement, and
    the reason names a denylisted keyword. *)
Theorem spaced_keyword_is_rejected pre keyword post :
  In (upper keyword) dangerous_keywords ->
  exists named,
    In named dangerous_keywords
    /\ _validate_sql_security (pre ++ " " ++ keyword ++ " " ++ post)
       = {| valid := false;
            reason := "Dangerous keyword '" ++ named ++ "' not allowed" |}.
Proof.
  intros Hin.
  destruct (proj1 (Forall_forall _ _) keywords_are_words _ Hin)
    as (Hne & Hl & Hr).
  destruct (Properties.space_delimited_keyword_rejected
              (pre ++ " " ++ keyword ++ " " ++ post) (upper keyword) Hin)
    as (named & Hn & _ & E).
  - unfold keyword_hit. apply orb_true_intro. left.
    unfold upper. rewrite !map_chars_app.
    change (map_chars upper_char " ") with " ".
    now apply padded_strip_keeps_word.
  - now exists named.
Qed.

Lemma spaced_keyword_is_rejected_witness :
  In (upper "drop") dangerous_keywords
  /\ exists named,
       In named dangerous_keywords
       /\ _validate_sql_security ("select 1;" ++ " " ++ "drop" ++ " " ++ "table fir")
          = {| valid := false;
               reason := "Dangerous keyword '" ++ named ++ "' not allowed" |}.
Proof.
  assert (H : In (upper "drop") dangerous_keywords) by (now left).
  split; [exact H|].
  exact (spaced_keyword_is_rejected "select 1;" "drop" "table fir" H).
Defined.

Lemma strip_lit_ci_startswith l : forall s,
  match PyRe.strip_lit_ci l s with Some _ => true | None => false end
  = startswith (upper s) (upper l).
Proof.
  induction l as [|a l IH]; intros [|b s]; cbn; try reflexivity.
  unfold PyRe.char_eq_ci.
  destruct (Ascii.eqb (upper_char a) (upper_char b)); [apply IH|reflexivity].
Qed.

(** A literal pattern is searched without case: it is found when its
    upper-case form occurs in the upper-case text. *)
Lemma contains_unfold sub s :
  contains sub s
  = startswith s sub
    || match s with
       | EmptyString => false
       | String _ s' => contains sub s'
       end.
Proof. now destruct s. Qed.

Lemma search_by_prefix p l :
  (forall t, PyRe.match_here p t = startswith (upper t) (upper l)) ->
  forall s, PyRe.search p s = contains (upper l) (upper s).
Proof.
  intros Hm. induction s as [|c s IH].
  - cbn [PyRe.search]. rewrite Hm. reflexivity.
  - cbn [PyRe.search]. rewrite Hm, IH.
    now rewrite (contains_unfold (upper l) (upper (String c s))).
Qed.

(** A literal pattern is searched without case: it is found when its
    upper-case form occurs in the upper-case text. *)
Lemma search_literal l s :
  PyRe.search [PyRe.Lit l] s = contains (upper l) (upper s).
Proof.
  apply search_by_prefix. intros t. rewrite <- strip_lit_ci_startswith.
  cbn. now destruct (PyRe.strip_lit_ci l t).
Qed.


Lemma dash_upper c : Ascii.eqb "-" (upper_char c) = Ascii.eqb "-" c.
Proof.
  destruct c as [[] [] [] [] [] [] [] []]; reflexivity.
Qed.

Lemma startswith_cons a p b s :
  startswith (String b s) (String a p) = Ascii.eqb a b && startswith s p.
Proof. reflexivity. Qed.

Lemma startswith_nil s : startswith s "" = true.
Proof. now destruct s. Qed.

Lemma contains_dashes_upper s : contains "--" (upper s) = contains "--" s.
Proof.
  assert (Hs : forall t, startswith (upper t) "--" = startswith t "--").
  { intros [|a [|b t]]; try reflexivity.
    - change (upper (String a "")) with (String (upper_char a) "").
      rewrite !startswith_cons. now rewrite dash_upper.
    - change (upper (String a (String b t)))
        with (String (upper_char a) (String (upper_char b) (upper t))).
      rewrite !startswith_cons, !startswith_nil. now rewrite !dash_upper. }
  induction s as [|c s IH].
  - reflexivity.
  - rewrite (contains_unfold "--" (upper (String c s))).
    rewrite (contains_unfold "--" (String c s)).
    rewrite Hs. change (upper (String c s)) with (String (upper_char c) (upper s)).
    cbv iota. now rewrite IH.
Qed.



(** ** The execution *)

Lemma execute_with_timeout_shape self w sql params :
  let ev := snd (_execute_with_timeout self w sql params) in
  ev = [EvExecuteWithTimeout sql]
  \/ ev = [EvExecuteWithTimeout sql; set_timeout_of self]
  \/ ev = [EvExecuteWithTimeout sql; set_timeout_of self; EvDbStatement sql].
Proof.
  unfold _execute_with_timeout, set_timeout_of.
  destruct (database w) as [conn|e]; cbn; [|now left].
  destruct (conn _ []) as [r0|e]; cbn; [|now right; left].
  destruct (conn sql _) as [r|e]; cbn; now right; right.
Qed.

Lemma execute_sql_events_shape parse self w sql params :
  let ev := events (execute_sql parse self w sql params) in
  ev = []
  \/ ev = [EvExecuteWithTimeout sql]
  \/ ev = [EvExecuteWithTimeout sql; set_timeout_of self]
  \/ ev = [EvExecuteWithTimeout sql; set_timeout_of self; EvDbStatement sql].
Proof.
  cbv zeta. unfold execute_sql.
  destruct (engine self); [|now left].
  unfold execute_sql_body.
  destruct (valid (_validate_sql_security sql)); cbn [negb]; [|now left].
  destruct (_parse_and_validate_sql parse sql); [now left|].
  pose proof (execute_with_timeout_shape
                (with_stats self (bump_total (execution_stats self)))
                w sql params) as H.
  cbv zeta in H.
  change (set_timeout_of (with_stats self (bump_total (execution_stats self))))
    with (set_timeout_of self) in H.
  destruct (_execute_with_timeout _ w sql params) as [[result|e] trace];
    cbn [snd] in H;
    repeat match goal with
      | |- context [_update_execution_stats ?a ?b ?c] =>
          destruct (_update_execution_stats a b c) as [[?|?] ?]
      end;
    right; exact H.
Qed.

(** X3.  Whatever the statement and the database, a call of
    [execute_sql] sends nothing, or the statement that sets the session
    timeout to the configured value, or that statement followed by the
    query: the query is never sent before the timeout is set, and is
    sent at most once. *)
Theorem timeout_is_set_before_the_query parse self w sql params :
  let ev := events (execute_sql parse self w sql params) in
  ev = []
  \/ ev = [EvExecuteWithTimeout sql]
  \/ ev = [EvExecuteWithTimeout sql; set_timeout_of self]
  \/ ev = [EvExecuteWithTimeout sql; set_timeout_of self; EvDbStatement sql].
Proof. apply execute_sql_events_shape. Qed.

Lemma fetchmany_length {A : Type} (size : Z) (rows : list A) :
  (0 < size)%Z ->
  (Z.of_nat (List.length (Db.fetchmany size rows)) <= size)%Z.
Proof.
  intros H. unfold Db.fetchmany.
  destruct (Z.ltb_spec 0 size) as [_|N]; [|lia].
  rewrite length_firstn. lia.
Qed.

Lemma execute_sql_rows parse self w sql params r :
  outcome (execute_sql parse self w sql params) = Return r ->
  row_count r = Z.of_nat (List.length (results r))
  /\ ((0 < max_results self)%Z ->
      (Z.of_nat (List.length (results r)) <= max_results self)%Z)
  /\ (success r = true ->
      exists conn answer,
        database w = Return conn
        /\ conn sql (params_or_empty params) = Return answer
        /\ results r
           = map (fun row => Db.dict_of_pairs (combine (Db.rs_keys answer) row))
                 (Db.fetchmany (max_results self) (Db.rs_rows answer))
        /\ columns r = Db.rs_keys answer
        /\ sql_executed r = Some sql)
  /\ (success r = false -> results r = []).
Proof.
  unfold execute_sql.
  destruct (engine self).
  2:{ cbn. intros [= <-]. cbn.
      repeat split; try lia; try discriminate; try reflexivity. }
  unfold execute_sql_body.
  destruct (valid (_validate_sql_security sql)); cbn [negb].
  2:{ cbn. intros [= <-]. cbn.
      repeat split; try lia; try discriminate; try reflexivity. }
  destruct (_parse_and_validate_sql parse sql).
  { cbn. intros [= <-]. cbn.
    repeat split; try lia; try discriminate; try reflexivity. }
  unfold _execute_with_timeout.
  cbn [max_results timeout with_stats].
  destruct (database w) as [conn|e0].
  2:{ destruct (_update_execution_stats _ _ false) as [[u|e'] st];
        cbn; [|discriminate].
      intros [= <-]. cbn.
      repeat split; try lia; try discriminate; try reflexivity. }
  destruct (conn _ []) as [r0|e0].
  2:{ destruct (_update_execution_stats _ _ false) as [[u|e'] st];
        cbn; [|discriminate].
      intros [= <-]. cbn.
      repeat split; try lia; try discriminate; try reflexivity. }
  destruct (conn sql (params_or_empty params)) as [answer|e0] eqn:Hq.
  2:{ destruct (_update_execution_stats _ _ false) as [[u|e'] st];
        cbn; [|discriminate].
      intros [= <-]. cbn.
      repeat split; try lia; try discriminate; try reflexivity. }
  destruct (_update_execution_stats _ _ true) as [[u|e'] st] eqn:Hu.
  - cbn. intros [= <-]. cbn. split; [reflexivity|]. split; [|split].
    + intros Hpos. rewrite length_map. now apply fetchmany_length.
    + intros _. exists conn, answer. repeat split. exact Hq.
    + discriminate.
  - cbn. destruct (_update_execution_stats _ _ false) as [[u|e''] st'];
      cbn; [|discriminate].
    intros [= <-]. cbn.
    repeat split; try lia; try discriminate; try reflexivity.
Qed.



(** ** Row dictionaries *)

Section RowDict.

Context {V : Type}.

Lemma dict_get_set_same k (v : V) d : dict_get k (Db.dict_set k v d) = Some v.
Proof.
  induction d as [|[k' v'] d IH]; cbn.
  - now rewrite String.eqb_refl.
  - destruct (String.eqb k k') eqn:E; cbn; rewrite ?String.eqb_refl, ?E; auto.
Qed.

Lemma dict_get_set_other k k' (v : V) d :
  k' <> k -> dict_get k' (Db.dict_set k v d) = dict_get k' d.
Proof.
  intros Hne. induction d as [|[k0 v0] d IH]; cbn.
  - destruct (String.eqb_spec k' k); [contradiction|reflexivity].
  - destruct (String.eqb_spec k k0) as [->|Hk]; cbn.
    + destruct (String.eqb_spec k' k0); [contradiction|reflexivity].
    + destruct (String.eqb_spec k' k0); [reflexivity|exact IH].
Qed.

Lemma dict_set_keys k (v : V) d :
  map fst (Db.dict_set k v d)
  = match dict_get k d with
    | Some _ => map fst d
    | None => (map fst d ++ [k])%list
    end.
Proof.
  induction d as [|[k0 v0] d IH]; cbn; [reflexivity|].
  destruct (String.eqb_spec k k0) as [->|Hk]; cbn; [reflexivity|].
  rewrite IH. now destruct (dict_get k d).
Qed.

Lemma dict_get_None_keys k (d : list (string * V)) :
  dict_get k d = None <-> ~ In k (map fst d).
Proof.
  induction d as [|[k0 v0] d IH]; cbn; [tauto|].
  destruct (String.eqb_spec k k0) as [->|Hk].
  - split; [discriminate|]. intros H. elim H. now left.
  - rewrite IH. split.
    + intros H [E|Hin]; [now elim Hk|now apply H].
    + intros H Hin. apply H. now right.
Qed.

Lemma dict_set_NoDup k (v : V) d :
  NoDup (map fst d) -> NoDup (map fst (Db.dict_set k v d)).
Proof.
  intros Hd. rewrite dict_set_keys.
  destruct (dict_get k d) eqn:E; [exact Hd|].
  apply dict_get_None_keys in E.
  apply NoDup_rev in Hd. rewrite <- (rev_involutive (map fst d ++ [k])).
  apply NoDup_rev. rewrite rev_app_distr. cbn. constructor; [|exact Hd].
  now rewrite <- in_rev.
Qed.

Lemma dict_set_fresh k (v : V) d :
  dict_get k d = None -> Db.dict_set k v d = (d ++ [(k, v)])%list.
Proof.
  induction d as [|[k0 v0] d IH]; cbn; [reflexivity|].
  destruct (String.eqb k k0); [discriminate|]. intros H. now rewrite IH.
Qed.

Lemma fold_dict_set (pairs : list (string * V)) : forall acc k,
  dict_get k (fold_left (fun d kv => Db.dict_set (fst kv) (snd kv) d) pairs acc)
  = match dict_get k (rev pairs) with
    | Some v => Some v
    | None => dict_get k acc
    end.
Proof.
  induction pairs as [|[k0 v0] pairs IH]; intros acc k; cbn; [reflexivity|].
  rewrite IH.
  assert (Hrev : dict_get k (rev pairs ++ [(k0, v0)])
                 = match dict_get k (rev pairs) with
                   | Some v => Some v
                   | None => if String.eqb k k0 then Some v0 else None
                   end).
  { generalize (rev pairs). intros l. induction l as [|[k1 v1] l IHl]; cbn.
    - reflexivity.
    - destruct (String.eqb k k1); [reflexivity|exact IHl]. }
  rewrite Hrev. destruct (dict_get k (rev pairs)); [reflexivity|].
  destruct (String.eqb_spec k k0) as [E|Hk].
  - rewrite E. apply dict_get_set_same.
  - now apply dict_get_set_other.
Qed.

(** X5.  The dictionary built for a row has one entry for each
    distinct key; looking a key up gives the value of the last pair
    with that key, so of two columns with one name the later one wins;
    and when the keys are all distinct the dictionary is the list of
    pairs in order. *)
Theorem row_dictionary_keeps_last_value (pairs : list (string * V)) :
  NoDup (map fst (Db.dict_of_pairs pairs))
  /\ (forall k, dict_get k (Db.dict_of_pairs pairs) = dict_get k (rev pairs))
  /\ (NoDup (map fst pairs) -> Db.dict_of_pairs pairs = pairs).
Proof.
  unfold Db.dict_of_pairs. split; [|split].
  - assert (H : forall acc, NoDup (map fst acc) ->
              NoDup (map fst (fold_left
                                (fun d kv => Db.dict_set (fst kv) (snd kv) d)
                                pairs acc))).
    { induction pairs as [|kv pairs IH]; intros acc Ha; cbn; [exact Ha|].
      apply IH. now apply dict_set_NoDup. }
    apply H. constructor.
  - intros k. rewrite fold_dict_set. now destruct (dict_get k (rev pairs)).
  - assert (H : forall acc,
              NoDup (map fst (acc ++ pairs)) ->
              fold_left (fun d kv => Db.dict_set (fst kv) (snd kv) d) pairs acc
              = (acc ++ pairs)%list).
    { induction pairs as [|[k v] pairs IH]; intros acc Hn; cbn.
      - now rewrite app_nil_r.
      - rewrite dict_set_fresh.
        + rewrite IH; rewrite <- app_assoc; [reflexivity|exact Hn].
        + apply dict_get_None_keys. rewrite map_app in Hn. cbn in Hn.
          apply NoDup_remove_2 in Hn. intros Hin. apply Hn.
          apply in_or_app. now left. }
    intros Hn. now apply (H []).
Qed.

End RowDict.

Lemma row_dictionary_keeps_last_value_witness :
  NoDup (map fst [("id", Db.VInt 1); ("name", Db.VStr "a")])
  /\ Db.dict_of_pairs [("id", Db.VInt 1); ("name", Db.VStr "a")]
     = [("id", Db.VInt 1); ("name", Db.VStr "a")].
Proof.
  assert (H : NoDup (map fst [("id", Db.VInt 1); ("name", Db.VStr "a")])).
  { cbn. repeat constructor; cbn; intuition discriminate. }
  split; [exact H|].
  exact (proj2 (proj2 (row_dictionary_keeps_last_value _)) H).
Defined.

(** ** [test_connection] and the construction of the executor *)

(** X6.  [test_connection] does what one call of [execute_sql] on its
    probe does, and nothing more; it reports [connected] exactly when
    that call succeeds with at least one row.  Without an engine it
    reports the missing connection and leaves the object alone; when
    the call succeeds with no row, taking the first row fails and the
    report is [connected = False] with the message of that failure. *)
Theorem test_connection_reports parse self w :
  let res := test_connection parse self w in
  let probe := execute_sql parse self w probe_sql None in
  after res = after probe
  /\ events res = events probe
  /\ (connected_of (outcome res) = true <->
      exists r row rest,
        outcome probe = Return r /\ success r = true
        /\ results r = row :: rest)
  /\ (engine self = None ->
      res = (Probed false None (Some "No database connection available"),
             self, []))
  /\ (forall r, outcome probe = Return r -> success r = true ->
                results r = [] ->
                outcome res = ProbeRaised "list index out of range").
Proof.
  cbv zeta. unfold test_connection.
  split; [|split; [|split; [|split]]].
  - destruct (execute_sql parse self w probe_sql None) as [[[r|e] s'] tr];
      [|reflexivity].
    destruct (success r); [|reflexivity]. now destruct (results r).
  - destruct (execute_sql parse self w probe_sql None) as [[[r|e] s'] tr];
      [|reflexivity].
    destruct (success r); [|reflexivity]. now destruct (results r).
  - destruct (execute_sql parse self w probe_sql None) as [[[r|e] s'] tr].
    + destruct (success r) eqn:Hs.
      * destruct (results r) as [|row rest] eqn:Hr; cbn.
        -- split; [discriminate|].
           intros (r' & row & rest & [= <-] & _ & H). congruence.
        -- split; [|reflexivity]. intros _. now exists r, row, rest.
      * cbn. split; [discriminate|].
        intros (r' & row & rest & [= <-] & H & _). congruence.
    + cbn. split; [discriminate|]. intros (r' & _ & _ & H & _). discriminate.
  - intros He. rewrite (Properties.execute_sql_no_engine _ _ _ _ _ He).
    reflexivity.
  - intros r Hr Hs He.
    destruct (execute_sql parse self w probe_sql None) as [[[r'|e] s'] tr];
      cbn in Hr; [|discriminate].
    injection Hr as ->. now rewrite Hs, He.
Qed.

Lemma test_connection_reports_witness :
  engine Examples.offline_executor = None
  /\ test_connection (Examples.parser_giving [Examples.fir_statement])
       Examples.offline_executor (Examples.world_ok 100 130)
     = (Probed false None (Some "No database connection available"),
        Examples.offline_executor, []).
Proof.
  assert (H : engine Examples.offline_executor = None) by reflexivity.
  split; [exact H|].
  destruct (test_connection_reports
              (Examples.parser_giving [Examples.fir_statement])
              Examples.offline_executor (Examples.world_ok 100 130))
    as (_ & _ & _ & Hoff & _).
  exact (Hoff H).
Defined.

Lemma initialize_connection_engine env connection_string s :
  _initialize_connection env connection_string = Some s
  <-> (s = connection_string
       /\ create_engine env connection_string = Return tt
       /\ (exists conn answer,
             startup_database env = Return conn
             /\ conn "SELECT 1 FROM DUAL" [] = Return answer)
       /\ reflect env = Return tt).
Proof.
  unfold _initialize_connection, connection_probe. split.
  - destruct (create_engine env connection_string) as [[]|e]; [|discriminate].
    destruct (startup_database env) as [conn|e]; [|discriminate].
    destruct (conn "SELECT 1 FROM DUAL" []) as [answer|e] eqn:Hp;
      [|discriminate].
    destruct (reflect env) as [[]|e]; [|discriminate].
    intros [= <-]. repeat split. now exists conn, answer.
  - intros (-> & -> & (conn & answer & -> & ->) & ->). reflexivity.
Qed.

(** X7.  The constructor leaves an engine exactly when a non-empty
    connection string is at hand (the argument, or else the setting)
    and [create_engine], the opening of a connection, the statement
    [SELECT 1 FROM DUAL] and the reflection of the metadata all
    succeed; the engine is then the one of that string.  The
    statistics start at zero and the two limits are those of the
    settings, and an object left without an engine answers every call
    with the missing connection, untouched. *)
Theorem constructor_needs_a_working_connection settings env connection_string :
  let self := construct settings env connection_string in
  execution_stats self = initial_stats
  /\ max_results self = SQL_MAX_RESULTS settings
  /\ timeout self = SQL_TIMEOUT settings
  /\ (forall s, engine self = Some s <->
       (connection_string_or settings connection_string = Some s
        /\ s <> ""
        /\ create_engine env s = Return tt
        /\ (exists conn answer,
              startup_database env = Return conn
              /\ conn "SELECT 1 FROM DUAL" [] = Return answer)
        /\ reflect env = Return tt))
  /\ (engine self = None ->
      forall parse w sql params,
        execute_sql parse self w sql params
        = (Return (_error_response (t_stamp w)
                     "No database connection available"),
           self, [])).
Proof.
  cbv zeta. unfold construct.
  destruct (connection_string_or settings connection_string) as [s|] eqn:Hc.
  - destruct (truthy s) eqn:Ht.
    + assert (Hs : s <> "") by (intros ->; discriminate Ht).
      cbn. repeat (split; [reflexivity|]). split.
      * intros s'. rewrite initialize_connection_engine. split.
        -- intros (-> & H). split; [reflexivity|]. split; [exact Hs|exact H].
        -- intros ([= <-] & _ & H). split; [reflexivity|exact H].
      * intros H parse w sql params.
        now apply Properties.execute_sql_no_engine.
    + cbn. repeat (split; [reflexivity|]). split.
      * intros s'. split; [discriminate|].
        intros ([= <-] & Hs & _). exfalso. apply Hs.
        unfold truthy in Ht. destruct (String.eqb_spec s ""); [assumption|].
        discriminate Ht.
      * intros _ parse w sql params. reflexivity.
  - cbn. repeat (split; [reflexivity|]). split.
    + intros s'. split; [discriminate|]. intros (H & _). discriminate H.
    + intros _ parse w sql params. reflexivity.
Qed.

Lemma constructor_needs_a_working_connection_witness :
  let env := {| create_engine := fun _ => Return tt;
                startup_database := Return Examples.answering;
                reflect := Raise "ORA-00942: table or view does not exist" |} in
  let self := construct default_settings env (Some "oracle://cctns") in
  engine self = None
  /\ execute_sql (Examples.parser_giving [Examples.fir_statement]) self
       (Examples.world_ok 100 130) Examples.select_fir None
     = (Return (_error_response 130 "No database connection available"),
        self, []).
Proof.
  intros env self.
  assert (H : engine self = None) by reflexivity.
  split; [exact H|].
  destruct (constructor_needs_a_working_connection default_settings env
              (Some "oracle://cctns")) as (_ & _ & _ & _ & Hoff).
  exact (Hoff H (Examples.parser_giving [Examples.fir_statement])
              (Examples.world_ok 100 130) Examples.select_fir None).
Defined.

(** ** The translator *)

Lemma extract_district_range q d :
  NL2SQLProcessor._extract_district q = Some d ->
  In d (map title NL2SQLProcessor.districts).
Proof.
  unfold NL2SQLProcessor._extract_district.
  destruct (find _ NL2SQLProcessor.districts) as [x|] eqn:Hf; [|discriminate].
  intros [= <-]. apply find_some in Hf. apply in_map. tauto.
Qed.

Lemma rule_based_generation_range query s :
  NL2SQLProcessor._rule_based_generation query = Some s -> In s templates.
Proof.
  assert (Hf : forall q, NL2SQLProcessor.fir_counts q = Some s -> In s templates).
  { intros q. unfold NL2SQLProcessor.fir_counts.
    destruct (_ && _); [|discriminate].
    destruct (contains "today" q); [intros [= <-]; cbn; tauto|].
    destruct (contains "month" q); [intros [= <-]; cbn; tauto|discriminate]. }
  assert (Ho : forall q,
             NL2SQLProcessor.officer_performance q = Some s -> In s templates).
  { intros q. unfold NL2SQLProcessor.officer_performance.
    destruct (_ && _); [intros [= <-]; cbn; tauto|apply Hf]. }
  unfold NL2SQLProcessor._rule_based_generation.
  destruct (_ && _); [|apply Ho].
  destruct (NL2SQLProcessor._extract_district _) as [d|] eqn:Hd; [|apply Ho].
  destruct (truthy d); [|apply Ho].
  intros [= <-]. apply extract_district_range in Hd.
  unfold templates. apply in_or_app. left.
  apply in_map_iff in Hd. destruct Hd as (x & <- & Hx).
  apply in_map_iff. now exists x.
Qed.

(** X8.  Whatever the query, a statement that the translator returns is
    one of eight fixed statements, in which only the name of a district
    of the gazetteer varies: no text of the query is copied into it.
    Each of them passes the security validation of the executor and the
    security check of the agent, and names, after FROM and JOIN, only
    tables of the allow-list. *)
Theorem translator_statements_are_safe query s :
  NL2SQLProcessor._rule_based_generation query = Some s ->
  In s templates
  /\ valid (_validate_sql_security s) = true
  /\ QueryAgent.safe (QueryAgent._check_query_security s) = true
  /\ Forall (fun table => table_allowed table = true)
            (QueryAgent.findall_tables s 0).
Proof.
  intros H. apply rule_based_generation_range in H. split; [exact H|].
  assert (Hall : forallb
                   (fun t => valid (_validate_sql_security t)
                             && QueryAgent.safe (QueryAgent._check_query_security t)
                             && forallb table_allowed
                                        (QueryAgent.findall_tables t 0))
                   templates = true)
    by (vm_compute; reflexivity).
  pose proof (proj1 (forallb_forall _ _) Hall s H) as Hs.
  apply andb_prop in Hs. destruct Hs as [Hs Ht].
  apply andb_prop in Hs. destruct Hs as [Hv Hsafe].
  split; [exact Hv|]. split; [exact Hsafe|].
  apply Forall_forall. exact (proj1 (forallb_forall _ _) Ht).
Qed.

Lemma translator_statements_are_safe_witness :
  NL2SQLProcessor._rule_based_generation "Show crimes in Guntur district"
  = Some (NL2SQLProcessor.district_summary_sql "Guntur")
  /\ valid (_validate_sql_security
              (NL2SQLProcessor.district_summary_sql "Guntur")) = true
  /\ Forall (fun table => table_allowed table = true)
            (QueryAgent.findall_tables
               (NL2SQLProcessor.district_summary_sql "Guntur") 0).
Proof.
  assert (H : NL2SQLProcessor._rule_based_generation
                "Show crimes in Guntur district"
              = Some (NL2SQLProcessor.district_summary_sql "Guntur"))
    by reflexivity.
  split; [exact H|].
  destruct (translator_statements_are_safe _ _ H) as (_ & Hv & _ & Ht).
  split; [exact Hv|exact Ht].
Defined.

Lemma lower_upper_char c : lower_char (upper_char c) = lower_char c.
Proof. destruct c as [[] [] [] [] [] [] [] []]; reflexivity. Qed.

Lemma lower_upper s : lower (upper s) = lower s.
Proof.
  induction s as [|c s IH]; cbn; [reflexivity|].
  rewrite lower_upper_char. f_equal. exact IH.
Qed.

Lemma lower_lower_char c : lower_char (lower_char c) = lower_char c.
Proof. destruct c as [[] [] [] [] [] [] [] []]; reflexivity. Qed.

Lemma lower_lower s : lower (lower s) = lower s.
Proof.
  induction s as [|c s IH]; cbn; [reflexivity|].
  rewrite lower_lower_char. f_equal. exact IH.
Qed.

(** X9.  For a query of ASCII characters the translator does not
    regard the case of the letters: the query, its upper-case form and
    its lower-case form get the same answer. *)
Theorem translation_ignores_case parse query :
  is_ascii query = true ->
  NL2SQLProcessor.generate_sql parse (upper query)
  = NL2SQLProcessor.generate_sql parse query
  /\ NL2SQLProcessor.generate_sql parse (lower query)
     = NL2SQLProcessor.generate_sql parse query.
Proof.
  intros _.
  assert (H : forall a b, lower a = lower b ->
              NL2SQLProcessor.generate_sql parse a
              = NL2SQLProcessor.generate_sql parse b).
  { intros a b E. unfold NL2SQLProcessor.generate_sql,
      NL2SQLProcessor._rule_based_generation. now rewrite E. }
  split; [apply H, lower_upper|apply H, lower_lower].
Qed.

Lemma translation_ignores_case_witness :
  is_ascii "count FIR today" = true
  /\ NL2SQLProcessor.generate_sql
       (Examples.parser_giving [Examples.fir_statement]) "COUNT FIR TODAY"
     = NL2SQLProcessor.generate_sql
         (Examples.parser_giving [Examples.fir_statement]) "count FIR today".
Proof.
  assert (H : is_ascii "count FIR today" = true) by reflexivity.
  split; [exact H|].
  exact (proj1 (translation_ignores_case _ "count FIR today" H)).
Defined.

(** ** The query agent *)

Lemma query_suggestions_shape failed_query :
  exists more,
    QueryAgent._get_query_suggestions failed_query
    = (general_suggestions ++ more)%list
    /\ (List.length more <= 3)%nat.
Proof.
  unfold QueryAgent._get_query_suggestions, general_suggestions.
  eexists. split; [reflexivity|].
  rewrite !length_app.
  repeat match goal with
         | |- context [if ?b then _ else _] => destruct b
         end; cbn; lia.
Qed.

(** X10.  When the translator gives no valid statement, the standard
    mode returns an empty statement with confidence 0, validates
    nothing, and carries the error of the translator, [No matching
    pattern] when no pattern matched and [SQL generation failed] when a
    pattern matched and its statement did not parse, with four general
    suggestions followed by at most three that depend on the query. *)
Theorem standard_mode_miss env parse text context :
  NL2SQLProcessor.valid (NL2SQLProcessor.generate_sql parse text) <> Some true ->
  let r := fst (QueryAgent._generate_standard_query env parse text context) in
  QueryAgent.sql r = ""
  /\ QueryAgent.confidence r = 0
  /\ QueryAgent.validation r = None
  /\ snd (QueryAgent._generate_standard_query env parse text context) = []
  /\ QueryAgent.error r
     = Some (match NL2SQLProcessor._rule_based_generation text with
             | None => "No matching pattern"
             | Some _ => "SQL generation failed"
             end)
  /\ exists more,
       QueryAgent.suggestions r = Some (general_suggestions ++ more)%list
       /\ (List.length more <= 3)%nat.
Proof.
  intros Hv. cbv zeta. unfold QueryAgent._generate_standard_query.
  destruct (NL2SQLProcessor.valid (NL2SQLProcessor.generate_sql parse text))
    as [[|]|] eqn:E; [now elim Hv| |];
    cbn -[QueryAgent._get_query_suggestions];
    (split; [reflexivity|]); (split; [reflexivity|]);
    (split; [reflexivity|]); (split; [reflexivity|]).
  - split.
    + revert E. unfold NL2SQLProcessor.generate_sql.
      destruct (NL2SQLProcessor._rule_based_generation text) as [s|];
        [|discriminate].
      now destruct (truthy s).
    + destruct (query_suggestions_shape text) as (more & -> & Hm).
      now exists more.
  - split.
    + revert E. unfold NL2SQLProcessor.generate_sql.
      destruct (NL2SQLProcessor._rule_based_generation text) as [s|] eqn:Hs;
        [|reflexivity].
      rewrite (Properties.rule_based_generation_truthy _ _ Hs). discriminate.
    + destruct (query_suggestions_shape text) as (more & -> & Hm).
      now exists more.
Qed.

Lemma standard_mode_miss_witness :
  let parse := Examples.parser_giving [Examples.fir_statement] in
  NL2SQLProcessor.valid (NL2SQLProcessor.generate_sql parse "show officers")
  <> Some true
  /\ QueryAgent.error
       (fst (QueryAgent._generate_standard_query (Examples.inert (fun s => s))
               parse "show officers" PyNone))
     = Some "No matching pattern".
Proof.
  cbv zeta.
  assert (H : NL2SQLProcessor.valid
                (NL2SQLProcessor.generate_sql
                   (Examples.parser_giving [Examples.fir_statement])
                   "show officers") <> Some true)
    by (vm_compute; discriminate).
  split; [exact H|].
  destruct (standard_mode_miss (Examples.inert (fun s => s))
              (Examples.parser_giving [Examples.fir_statement])
              "show officers" PyNone H) as (_ & _ & _ & _ & He & _).
  exact He.
Defined.

(** *** The two security checks *)

Lemma lstrip_is_suffix s : exists l, s = l ++ lstrip s.
Proof.
  induction s as [|c s [l IH]]; cbn; [now exists ""|].
  destruct (is_space c).
  - exists (String c l). cbn. now rewrite <- IH.
  - now exists "".
Qed.

Lemma rstrip_is_prefix s : exists r, s = rstrip s ++ r.
Proof.
  induction s as [|c s [r IH]]; cbn; [now exists ""|].
  destruct (rstrip s) as [|d t] eqn:E.
  - destruct (is_space c).
    + exists (String c s). reflexivity.
    + exists s. reflexivity.
  - exists r. cbn [append]. f_equal. exact IH.
Qed.

Lemma contains_strip sub s :
  contains sub (strip s) = true -> contains sub s = true.
Proof.
  intros H. unfold strip in H.
  destruct (lstrip_is_suffix s) as [l Hl].
  destruct (rstrip_is_prefix (lstrip s)) as [r Hr].
  rewrite Hl, Hr. now apply contains_app_r, contains_app_l.
Qed.

Lemma startswith_before_space op : forall s,
  no_space op = true ->
  startswith (s ++ " ") (op ++ " ") = true -> startswith s op = true.
Proof.
  induction op as [|c op IH]; intros s Hn H; [apply startswith_nil|].
  cbn in Hn. apply andb_prop in Hn. destruct Hn as [Hc Hn].
  destruct s as [|d s]; cbn in H.
  - apply andb_prop in H. destruct H as [H _].
    apply Ascii.eqb_eq in H. subst c. discriminate Hc.
  - apply andb_prop in H. destruct H as [Hcd H].
    rewrite startswith_cons, Hcd. now apply IH.
Qed.

Lemma contains_between_spaces op x :
  no_space op = true ->
  contains (" " ++ op ++ " ") (x ++ " ") = true -> contains op x = true.
Proof.
  intros Hn. induction x as [|c x IH]; intros H.
  - cbn in H. rewrite orb_false_r in H. destruct op; discriminate H.
  - cbn [append] in H. rewrite contains_unfold in H.
    apply orb_prop in H. destruct H as [H|H].
    + cbn [append] in H. rewrite startswith_cons in H.
      apply andb_prop in H. destruct H as [_ H].
      apply contains_tail, contains_here. now apply startswith_before_space.
    + apply contains_tail. now apply IH.
Qed.

(** A hit of the executor on a word without a space is an occurrence
    of the word in the text. *)
Lemma keyword_hit_occurs op u :
  no_space op = true ->
  keyword_hit (strip u) op = true -> contains op u = true.
Proof.
  intros Hn H. unfold keyword_hit in H. apply orb_prop in H.
  apply contains_strip. destruct H as [H|H].
  - cbn [append] in H. rewrite contains_unfold in H.
    apply orb_prop in H. destruct H as [H|H].
    + rewrite startswith_cons in H. apply andb_prop in H. destruct H as [_ H].
      apply contains_here. now apply startswith_before_space.
    + now apply contains_between_spaces.
  - now apply contains_here.
Qed.

Lemma symbol_upper (a : ascii) :
  is_alpha a = false -> forall c, Ascii.eqb a (upper_char c) = Ascii.eqb a c.
Proof.
  intros Ha c. destruct (Ascii.eqb_spec a c) as [->|Hne].
  - unfold upper_char. unfold is_alpha in Ha.
    apply orb_false_elim in Ha. destruct Ha as [-> _]. apply Ascii.eqb_refl.
  - apply Ascii.eqb_neq. intros ->. unfold is_alpha in Ha.
    apply orb_false_elim in Ha. destruct Ha as [_ Hu].
    unfold upper_char in Hu, Hne. destruct (is_lower c) eqn:Hl; [|now elim Hne].
    revert Hu Hl. clear.
    destruct c as [[] [] [] [] [] [] [] []]; vm_compute; congruence.
Qed.

Lemma startswith_upper_symbols a b s :
  is_alpha a = false -> is_alpha b = false ->
  startswith (upper s) (String a (String b "")) = true ->
  startswith s (String a (String b "")) = true.
Proof.
  intros Ha Hb. destruct s as [|c [|d s]]; try discriminate.
  - change (upper (String c "")) with (String (upper_char c) "").
    rewrite startswith_cons. intros H. apply andb_prop in H. now destruct H.
  - change (upper (String c (String d s)))
      with (String (upper_char c) (String (upper_char d) (upper s))).
    rewrite !startswith_cons, !startswith_nil, (symbol_upper a Ha),
      (symbol_upper b Hb). tauto.
Qed.

(** X11.  A statement that the security check of the agent finds safe
    is never rejected by the executor for one of the six operations
    that the agent looks for, nor for a comment: the executor hits
    none of DROP, DELETE, UPDATE, INSERT, ALTER and CREATE, and its
    patterns for the double dash and for the bracketed comment do not
    match. *)
Theorem agent_safe_covers_executor sql :
  QueryAgent.safe (QueryAgent._check_query_security sql) = true ->
  (forall op, In op QueryAgent.dangerous_ops ->
              In op dangerous_keywords
              /\ keyword_hit (strip (upper sql)) op = false)
  /\ PyRe.search [PyRe.Lit "--"] sql = false
  /\ PyRe.search [PyRe.Lit "/*"; PyRe.DotStar; PyRe.Lit "*/"] sql = false.
Proof.
  unfold QueryAgent._check_query_security. cbn [QueryAgent.safe].
  intros H. apply Nat.eqb_eq in H.
  destruct (contains "--" sql || contains "/*" sql) eqn:Hc.
  { rewrite length_app in H. cbn in H. lia. }
  apply orb_false_elim in Hc. destruct Hc as [Hdash Hopen].
  rewrite length_map in H. apply length_zero_iff_nil in H.
  split; [|split].
  - intros op Hin. split.
    { revert op Hin. apply Forall_forall. unfold QueryAgent.dangerous_ops.
      repeat constructor; cbn; tauto. }
    destruct (keyword_hit (strip (upper sql)) op) eqn:Hh; [|reflexivity].
    exfalso.
    assert (Hn : no_space op = true).
    { assert (Hall : Forall (fun op => no_space op = true)
                            QueryAgent.dangerous_ops)
        by (repeat constructor).
      exact (proj1 (Forall_forall _ _) Hall op Hin). }
    apply (keyword_hit_occurs op (upper sql) Hn) in Hh.
    assert (Hf : In op (filter (fun op => contains op (upper sql))
                               QueryAgent.dangerous_ops))
      by (apply filter_In; now split).
    rewrite H in Hf. exact Hf.
  - rewrite search_literal. change (upper "--") with "--".
    now rewrite contains_dashes_upper.
  - destruct (PyRe.search _ sql) eqn:Hs; [|reflexivity]. exfalso.
    assert (Hm : forall t,
               PyRe.match_here [PyRe.Lit "/*"; PyRe.DotStar; PyRe.Lit "*/"] t
               = true -> startswith t "/*" = true).
    { intros t Ht. apply (startswith_upper_symbols "/" "*"); try reflexivity.
      change "/*" with (upper "/*"). rewrite <- strip_lit_ci_startswith.
      cbn [PyRe.match_here] in Ht.
      destruct (PyRe.strip_lit_ci "/*" t); [reflexivity|discriminate Ht]. }
    assert (Hcontains : contains "/*" sql = true).
    { clear -Hs Hm. induction sql as [|c s IH].
      - cbn [PyRe.search] in Hs. rewrite orb_false_r in Hs.
        apply contains_here. now apply Hm.
      - cbn [PyRe.search] in Hs. apply orb_prop in Hs. destruct Hs as [Hs|Hs].
        + apply contains_here. now apply Hm.
        + apply contains_tail. now apply IH. }
    congruence.
Qed.

Lemma agent_safe_covers_executor_witness :
  QueryAgent.safe (QueryAgent._check_query_security Examples.select_fir) = true
  /\ keyword_hit (strip (upper Examples.select_fir)) "DROP" = false.
Proof.
  assert (H : QueryAgent.safe
                (QueryAgent._check_query_security Examples.select_fir) = true)
    by (vm_compute; reflexivity).
  split; [exact H|].
  destruct (agent_safe_covers_executor _ H) as (Hk & _).
  apply Hk. now left.
Defined.

(** ** The endpoint [process_query] *)

Lemma execute_sql_returns parse self w sql params :
  (0 <= total_queries (execution_stats self))%Z ->
  exists r, outcome (execute_sql parse self w sql params) = Return r.
Proof.
  intros Ht. destruct (engine self) as [c|] eqn:He.
  - destruct (validated parse sql) eqn:Hv.
    + destruct (Properties.execute_sql_recorded parse self w sql params c
                  He Hv Ht) as (ok & r & rest & E & _).
      rewrite E. now exists r.
    + destruct (Properties.execute_sql_rejected parse self w sql params c
                  He Hv) as [msg E].
      rewrite E. eexists. reflexivity.
  - rewrite (Properties.execute_sql_no_engine parse self w sql params He).
    eexists. reflexivity.
Qed.

Lemma valid_translation parse text :
  NL2SQLProcessor.valid (NL2SQLProcessor.generate_sql parse text) = Some true ->
  NL2SQLProcessor._rule_based_generation text
  = Some (NL2SQLProcessor.sql (NL2SQLProcessor.generate_sql parse text)).
Proof.
  unfold NL2SQLProcessor.generate_sql.
  destruct (NL2SQLProcessor._rule_based_generation text) as [s|];
    [|discriminate].
  destruct (truthy s); [reflexivity|discriminate].
Qed.

(** The ways the endpoint can go. *)
Lemma process_query_cases host parse ex w query :
  let text := text_of query in
  let translated := NL2SQLProcessor.generate_sql parse text in
  let statement := NL2SQLProcessor.sql translated in
  let run := execute_sql parse ex w statement None in
  let res := Api.process_query host parse ex w query in
  (text = ""
   /\ res = (Api.HTTPException 500
               (Api.str_of_http_exception host 400 "No query text provided"),
             ex, []))
  \/ (text <> "" /\ NL2SQLProcessor.valid translated <> Some true
      /\ res = (Api.Responded (Api.GenerationFailed translated), ex, []))
  \/ (text <> "" /\ NL2SQLProcessor.valid translated = Some true
      /\ after res = after run /\ events res = events run
      /\ ((exists e, outcome run = Raise e
                     /\ outcome res = Api.HTTPException 500 e)
          \/ (exists r, outcome run = Return r /\ success r = false
                        /\ outcome res = Api.Responded (Api.ExecutionFailed r))
          \/ (exists r e, outcome run = Return r /\ success r = true
                          /\ Api.generate_report host text statement (results r)
                             = Raise e
                          /\ outcome res = Api.HTTPException 500 e)
          \/ (exists r report,
                outcome run = Return r /\ success r = true
                /\ Api.generate_report host text statement (results r)
                   = Return report
                /\ outcome res
                   = Api.Responded
                       (Api.Answer text statement (firstn 50 (results r))
                          (row_count r) (Api.summary report)
                          (Api.option_truthy (Api.chart_path report)))))).
Proof.
  cbv zeta. unfold Api.process_query. fold (text_of query).
  destruct (truthy (text_of query)) eqn:Ht; cbn [negb].
  2:{ left. split; [|reflexivity]. unfold truthy in Ht.
      apply negb_false_iff in Ht. now apply String.eqb_eq in Ht. }
  assert (Hne : text_of query <> "").
  { intros E. rewrite E in Ht. discriminate Ht. }
  right.
  destruct (NL2SQLProcessor.valid
              (NL2SQLProcessor.generate_sql parse (text_of query)))
    as [[|]|] eqn:Hv.
  2,3: left; split; [exact Hne|]; split; [discriminate|reflexivity].
  right. split; [exact Hne|]. split; [reflexivity|].
  destruct (execute_sql parse ex w _ None) as [[[r|e] ex'] tr].
  - destruct (success r) eqn:Hs; cbn [negb].
    + destruct (Api.generate_report host _ _ (results r)) as [report|e] eqn:Hr.
      * split; [reflexivity|]. split; [reflexivity|].
        right. right. right. exists r, report. now repeat split.
      * split; [reflexivity|]. split; [reflexivity|].
        right. right. left. exists r, e. now repeat split.
    + split; [reflexivity|]. split; [reflexivity|].
      right. left. exists r. now repeat split.
  - split; [reflexivity|]. split; [reflexivity|]. left. now exists e.
Qed.

(** X12.  The endpoint raises no [HTTPException] but with status 500:
    the exception of status 400 that it raises for a missing or empty
    text is caught by its own handler and raised again with status 500,
    before the translator or the executor is touched; and on an
    executor with consistent counters the only other cause is an
    exception of the report generator after a successful execution, so
    that a failure of the database is never an HTTP error. *)
Theorem endpoint_raises_only_500 host parse ex w query status detail :
  counters_consistent (execution_stats ex) ->
  outcome (Api.process_query host parse ex w query)
  = Api.HTTPException status detail ->
  status = 500%Z
  /\ ((text_of query = ""
       /\ detail = Api.str_of_http_exception host 400 "No query text provided"
       /\ after (Api.process_query host parse ex w query) = ex
       /\ events (Api.process_query host parse ex w query) = [])
      \/ (exists s r,
            NL2SQLProcessor._rule_based_generation (text_of query) = Some s
            /\ outcome (execute_sql parse ex w s None) = Return r
            /\ success r = true
            /\ Api.generate_report host (text_of query) s (results r)
               = Raise detail)).
Proof.
  intros [Hpos _] H.
  destruct (process_query_cases host parse ex w query)
    as [(Ht & E)|[(Ht & Hv & E)|(Ht & Hv & _ & _ & Hc)]].
  - rewrite E in *. cbn in H. injection H as <- <-.
    split; [reflexivity|]. left. now repeat split.
  - rewrite E in H. discriminate H.
  - pose proof (valid_translation _ _ Hv) as Hrule.
    destruct Hc as [(e & Hrun & Hout)|[(r & _ & _ & Hout)|
                    [(r & e & Hrun & Hs & Hrep & Hout)|(r & rep & _ & _ & _ & Hout)]]].
    + destruct (execute_sql_returns parse ex w
                  (NL2SQLProcessor.sql
                     (NL2SQLProcessor.generate_sql parse (text_of query)))
                  None Hpos) as [r Hr].
      congruence.
    + rewrite Hout in H. discriminate H.
    + rewrite Hout in H. injection H as <- <-.
      split; [reflexivity|]. right.
      exists (NL2SQLProcessor.sql
                (NL2SQLProcessor.generate_sql parse (text_of query))), r.
      split; [exact Hrule|]. split; [exact Hrun|]. split; [exact Hs|exact Hrep].
    + rewrite Hout in H. discriminate H.
Qed.

Lemma endpoint_raises_only_500_witness :
  let host := {| Api.generate_report := fun _ _ _ => Raise "disk full";
                 Api.str_of_http_exception := fun _ d => d |} in
  let res := Api.process_query host
               (Examples.parser_giving [Examples.fir_statement])
               Examples.executor (Examples.world_ok 100 130) [] in
  counters_consistent (execution_stats Examples.executor)
  /\ outcome res = Api.HTTPException 500 "No query text provided"
  /\ after res = Examples.executor.
Proof.
  cbv zeta.
  assert (Hc : counters_consistent (execution_stats Examples.executor))
    by (unfold counters_consistent; cbn; lia).
  assert (Ho : outcome (Api.process_query
                          {| Api.generate_report := fun _ _ _ => Raise "disk full";
                             Api.str_of_http_exception := fun _ d => d |}
                          (Examples.parser_giving [Examples.fir_statement])
                          Examples.executor (Examples.world_ok 100 130) [])
               = Api.HTTPException 500 "No query text provided")
    by reflexivity.
  split; [exact Hc|]. split; [exact Ho|].
  destruct (endpoint_raises_only_500 _ _ _ _ _ _ _ Hc Ho)
    as (_ & [(_ & _ & Ha & _)|(s & r & Hs & _)]).
  - exact Ha.
  - discriminate Hs.
Defined.

(** X13.  Whatever the request, the endpoint hands to the executor, and
    so to the database, only a statement of the translator, one of its
    eight fixed statements, besides the statement that sets the session
    timeout: no text of the request is executed.  When the translator
    gives no valid statement the executor is not called at all. *)
Theorem endpoint_executes_only_templates host parse ex w query :
  let res := Api.process_query host parse ex w query in
  (forall e, In e (events res) ->
             e = set_timeout_of ex
             \/ exists s, In s templates
                          /\ (e = EvExecuteWithTimeout s \/ e = EvDbStatement s))
  /\ (NL2SQLProcessor.valid
        (NL2SQLProcessor.generate_sql parse (text_of query)) <> Some true ->
      after res = ex /\ events res = []).
Proof.
  cbv zeta.
  destruct (process_query_cases host parse ex w query)
    as [(Ht & E)|[(Ht & Hv & E)|(Ht & Hv & Ha & He & _)]].
  - rewrite E. split; [intros e []|]. now split.
  - rewrite E. split; [intros e []|]. now split.
  - split; [|intros Hn; now elim Hn].
    pose proof (rule_based_generation_range _ _ (valid_translation _ _ Hv))
      as Hin.
    rewrite He. intros e Hev.
    destruct (execute_sql_events_shape parse ex w
                (NL2SQLProcessor.sql
                   (NL2SQLProcessor.generate_sql parse (text_of query)))
                None) as [H|[H|[H|H]]];
      rewrite H in Hev; cbn in Hev;
      repeat match goal with
        | H : _ \/ _ |- _ => destruct H
        | H : False |- _ => destruct H
        end; subst e;
      try (now left);
      right; eexists; (split; [exact Hin|]); tauto.
Qed.

Lemma endpoint_executes_only_templates_witness :
  let host := {| Api.generate_report := fun _ _ _ => Raise "disk full";
                 Api.str_of_http_exception := fun _ d => d |} in
  let parse := Examples.parser_giving [Examples.fir_statement] in
  let res := Api.process_query host parse Examples.executor
               (Examples.world_ok 100 130)
               [("text", "'; DROP TABLE FIR; --")] in
  NL2SQLProcessor.valid
    (NL2SQLProcessor.generate_sql parse
       (text_of [("text", "'; DROP TABLE FIR; --")])) <> Some true
  /\ after res = Examples.executor /\ events res = [].
Proof.
  cbv zeta.
  assert (H : NL2SQLProcessor.valid
                (NL2SQLProcessor.generate_sql
                   (Examples.parser_giving [Examples.fir_statement])
                   (text_of [("text", "'; DROP TABLE FIR; --")]))
              <> Some true)
    by (vm_compute; discriminate).
  split; [exact H|].
  exact (proj2 (endpoint_executes_only_templates
                  {| Api.generate_report := fun _ _ _ => Raise "disk full";
                     Api.str_of_http_exception := fun _ d => d |}
                  (Examples.parser_giving [Examples.fir_statement])
                  Examples.executor (Examples.world_ok 100 130)
                  [("text", "'; DROP TABLE FIR; --")]) H).
Defined.

(** X14.  An answer of the endpoint carries the text of the request, a
    statement of the translator that the executor ran with success, the
    first 50 of the rows that the executor returned, and as
    [total_rows] the number of all the rows that the executor returned,
    which is at most [max_results] when that limit is positive: the
    rows of the body are [min 50 total_rows] in number. *)
Theorem endpoint_answer_is_capped host parse ex w query
  text sql rows total summary chart :
  outcome (Api.process_query host parse ex w query)
  = Api.Responded (Api.Answer text sql rows total summary chart) ->
  text = text_of query
  /\ In sql templates
  /\ (exists r,
        outcome (execute_sql parse ex w sql None) = Return r
        /\ success r = true
        /\ rows = firstn 50 (results r)
        /\ total = Z.of_nat (List.length (results r)))
  /\ List.length rows = Nat.min 50 (Z.to_nat total)
  /\ ((0 < max_results ex)%Z -> (total <= max_results ex)%Z).
Proof.
  intros H.
  destruct (process_query_cases host parse ex w query)
    as [(Ht & E)|[(Ht & Hv & E)|(Ht & Hv & _ & _ & Hc)]].
  - rewrite E in H. discriminate H.
  - rewrite E in H. discriminate H.
  - pose proof (rule_based_generation_range _ _ (valid_translation _ _ Hv))
      as Hin.
    destruct Hc as [(e & _ & Hout)|[(r & _ & _ & Hout)|
                    [(r & e & _ & _ & _ & Hout)|(r & rep & Hrun & Hs & _ & Hout)]]];
      try (rewrite Hout in H; discriminate H).
    remember (firstn 50 (results r)) as first_rows eqn:Hrows.
    rewrite Hout in H. injection H as <- <- <- <- <- <-.
    destruct (execute_sql_rows _ _ _ _ _ r Hrun) as (Hcount & Hle & _).
    split; [reflexivity|]. split; [exact Hin|]. split.
    + exists r. now repeat split.
    + rewrite Hrows, Hcount, Nat2Z.id, length_firstn. split; [reflexivity|].
      exact Hle.
Qed.

Lemma endpoint_answer_is_capped_witness :
  let host := {| Api.generate_report :=
                   fun _ _ _ => Return {| Api.summary := Some "1 row";
                                          Api.chart_path := None |};
                 Api.str_of_http_exception := fun _ d => d |} in
  let parse := Examples.parser_giving [Examples.fir_statement] in
  exists rows total,
    outcome (Api.process_query host parse Examples.executor
               (Examples.world_ok 100 130)
               [("text", "count FIR registered today")])
    = Api.Responded
        (Api.Answer "count FIR registered today" NL2SQLProcessor.fir_today_sql
           rows total (Some "1 row") false)
    /\ List.length rows = Nat.min 50 (Z.to_nat total)
    /\ (total <= 1000)%Z.
Proof.
  cbv zeta. eexists. eexists.
  assert (H : outcome (Api.process_query
                 {| Api.generate_report :=
                      fun _ _ _ => Return {| Api.summary := Some "1 row";
                                             Api.chart_path := None |};
                    Api.str_of_http_exception := fun _ d => d |}
                 (Examples.parser_giving [Examples.fir_statement])
                 Examples.executor (Examples.world_ok 100 130)
                 [("text", "count FIR registered today")])
              = Api.Responded
                  (Api.Answer "count FIR registered today"
                     NL2SQLProcessor.fir_today_sql
                     [[("crime_type", Db.VStr "THEFT"); ("count", Db.VInt 12)]]
                     1 (Some "1 row") false))
    by (vm_compute; reflexivity).
  split; [exact H|].
  destruct (endpoint_answer_is_capped _ _ _ _ _ _ _ _ _ _ _ H)
    as (_ & _ & _ & Hlen & Hcap).
  split; [exact Hlen|exact (Hcap eq_refl)].
Defined.

(** ** The speech-to-text processor *)

Import IndianSTTProcessor.

Lemma char_eq_ci_lower a b :
  PyRe.char_eq_ci a b = true -> lower_char a = lower_char b.
Proof.
  unfold PyRe.char_eq_ci. intros H. apply Ascii.eqb_eq in H.
  rewrite <- (lower_upper_char a), <- (lower_upper_char b). now rewrite H.
Qed.

Lemma strip_lit_ci_drop old : forall s rest,
  PyRe.strip_lit_ci old s = Some rest ->
  rest = drop (String.length old) s /\ lower s = lower old ++ lower rest.
Proof.
  induction old as [|a old IH]; intros s rest H.
  - cbn in H. injection H as <-. now split.
  - destruct s as [|b s]; [discriminate|]. cbn in H.
    destruct (PyRe.char_eq_ci a b) eqn:E; [|discriminate].
    destruct (IH s rest H) as [-> Hl]. split; [reflexivity|].
    cbn. rewrite (char_eq_ci_lower a b E). f_equal. exact Hl.
Qed.

Lemma drop_zero s : drop 0 s = s.
Proof. now destruct s. Qed.

(** A replacement that differs from its pattern by the case of letters
    only leaves the lower-case form of the text as it was. *)
Lemma sub_from_lower old new :
  old <> "" -> lower new = lower old ->
  forall s skip, lower (sub_from old new s skip) = lower (drop skip s).
Proof.
  intros Hne Hl. induction s as [|c s IH]; intros skip.
  - now destruct skip.
  - destruct skip as [|k]; cbn [sub_from drop]; [|apply IH].
    destruct (PyRe.strip_lit_ci old (String c s)) as [rest|] eqn:E.
    + destruct (strip_lit_ci_drop _ _ _ E) as [Hrest Hlow].
      unfold lower at 1. rewrite map_chars_app. fold (lower new).
      fold (lower (sub_from old new s (String.length old - 1))).
      rewrite IH, Hl, Hlow. f_equal. rewrite Hrest.
      destruct old as [|a old]; [now elim Hne|].
      cbn. now rewrite Nat.sub_0_r.
    + cbn. f_equal. rewrite IH. now rewrite drop_zero.
Qed.

Lemma space_lower_char c : is_space (lower_char c) = is_space c.
Proof. destruct c as [[] [] [] [] [] [] [] []]; reflexivity. Qed.

Lemma lower_lstrip s : lower (lstrip s) = lstrip (lower s).
Proof.
  induction s as [|c s IH]; cbn; [reflexivity|].
  rewrite space_lower_char. destruct (is_space c); [exact IH|reflexivity].
Qed.

Lemma lower_rstrip s : lower (rstrip s) = rstrip (lower s).
Proof.
  induction s as [|c s IH]; cbn; [reflexivity|].
  rewrite <- IH, space_lower_char.
  destruct (rstrip s); cbn; [now destruct (is_space c)|reflexivity].
Qed.

Lemma lower_strip s : lower (strip s) = strip (lower s).
Proof. unfold strip. now rewrite lower_rstrip, lower_lstrip. Qed.

(** X15.  On a text of ASCII characters the correction of the police
    terms changes nothing but the case of letters and the white space
    at both ends: the lower-case form of its result is the lower-case
    form of the trimmed text, and its length is that of the trimmed
    text. *)
Theorem terminology_changes_case_only text :
  is_ascii text = true ->
  lower (_enhance_police_terminology text) = lower (strip text)
  /\ String.length (_enhance_police_terminology text)
     = String.length (strip text).
Proof.
  intros _.
  assert (Hfold : forall l t,
             Forall (fun c => fst c <> "" /\ lower (snd c) = lower (fst c)) l ->
             lower (fold_left (fun enhanced c => re_sub (fst c) (snd c) enhanced)
                              l t) = lower t).
  { induction l as [|c l IH]; intros t Hall; cbn; [reflexivity|].
    inversion Hall as [|x y [Hne Hl] Hrest]; subst.
    rewrite IH by exact Hrest. unfold re_sub.
    rewrite (sub_from_lower _ _ Hne Hl). now rewrite drop_zero. }
  assert (Hlow : lower (_enhance_police_terminology text) = lower (strip text)).
  { unfold _enhance_police_terminology. rewrite !lower_strip. f_equal.
    apply Hfold. unfold corrections.
    repeat constructor; cbn; discriminate. }
  split; [exact Hlow|].
  assert (Hlen : forall s, String.length (lower s) = String.length s).
  { induction s as [|c s IH]; cbn; [reflexivity|now rewrite IH]. }
  rewrite <- (Hlen (_enhance_police_terminology text)), Hlow. apply Hlen.
Qed.

Lemma terminology_changes_case_only_witness :
  let heard := " the sho of guntur took the fir " in
  is_ascii heard = true
  /\ _enhance_police_terminology heard = "the SHO of Guntur took the FIR"
  /\ lower (_enhance_police_terminology heard) = lower (strip heard).
Proof.
  intros heard.
  assert (H : is_ascii heard = true) by reflexivity.
  split; [exact H|]. split; [reflexivity|].
  exact (proj1 (terminology_changes_case_only heard H)).
Defined.

(** X16.  With the models as [_load_models] leaves them, a
    transcription has the confidence 0.8, the model [whisper], no error
    and the corrected text of Whisper, or else it is the failed
    transcription with an empty text, the confidence 0 and an error;
    Whisper is asked for Telugu when the language is [te] and for
    English for every other language; and when the model could not be
    loaded every transcription fails. *)
Theorem transcription_outcomes load_model audio_path language_code :
  let t := transcribe_audio (_load_models load_model) audio_path language_code in
  ((exists whisper result,
      load_model = Return whisper
      /\ whisper audio_path (if String.eqb language_code "te" then "te" else "en")
         = Return result
      /\ t = {| text := _enhance_police_terminology (whisper_text result);
                confidence := 8 # 10;
                language := Some (match whisper_language result with
                                  | Some l => l
                                  | None => language_code
                                  end);
                model := Some "whisper";
                error := None |})
   \/ (exists message, t = failed message))
  /\ (forall e, load_model = Raise e ->
                t = failed (missing_attribute "whisper_available")).
Proof.
  cbv zeta. unfold transcribe_audio, _load_models.
  destruct load_model as [whisper|e]; cbn.
  - split; [|discriminate]. unfold _transcribe_whisper. cbn.
    destruct (whisper audio_path _) as [result|e] eqn:E.
    + left. now exists whisper, result.
    + right. now exists e.
  - split; [|reflexivity]. right. eexists. reflexivity.
Qed.

Lemma transcription_outcomes_witness :
  transcribe_audio (_load_models (Raise "cannot download the model"))
    "temp/a.wav" "hi"
  = failed (missing_attribute "whisper_available").
Proof.
  exact (proj2 (transcription_outcomes (Raise "cannot download the model")
                  "temp/a.wav" "hi")
               "cannot download the model" eq_refl).
Defined.

(* ------------------------------------------------------------------ *)
(** ** The voice agent *)

Import VoiceAgent.

Lemma truthy_empty s : truthy s = false <-> s = "".
Proof.
  unfold truthy. destruct (String.eqb_spec s ""); cbn; split; intros H;
    try reflexivity; try discriminate; try assumption.
  contradiction.
Qed.

Lemma audio_file_cases env self input :
  let language_code := get_or input "language" "auto" in
  _process_audio_file env self input = (Raise "Audio path is required", [])
  \/ _process_audio_file env self input
     = (Raise ("Unsupported language: " ++ language_code), [])
  \/ exists audio_path,
       dict_get "audio_path" input = Some audio_path
       /\ audio_path <> ""
       /\ mem_string language_code (supported_languages self) = true
       /\ let t := transcribe_audio (stt_processor self) audio_path
                     language_code in
          let transcribed := EvTranscribe audio_path language_code in
          let asked :=
            EvProcessText (text t)
              (match IndianSTTProcessor.language t with
               | Some l => l
               | None => "en"
               end) in
          (text t = ""
           /\ exists e r,
               _process_audio_file env self input = (Return r, [transcribed])
               /\ transcription r = "" /\ enhanced_text r = ""
               /\ VoiceAgent.confidence r = 0 /\ VoiceAgent.error r = Some e
               /\ warning r = None)
          \/ (text t <> ""
              /\ Qle_bool (confidence_threshold self)
                          (IndianSTTProcessor.confidence t) = true
              /\ ((exists e,
                     _process_audio_file env self input
                     = (Raise e, [transcribed; asked]))
                  \/ (exists r text_result,
                        _process_audio_file env self input
                        = (Return r, [transcribed; asked])
                        /\ process_text env (text t)
                             (match IndianSTTProcessor.language t with
                              | Some l => l
                              | None => "en"
                              end) = Return text_result
                        /\ final text_result = Some (enhanced_text r)
                        /\ transcription r = text t
                        /\ VoiceAgent.confidence r
                           = IndianSTTProcessor.confidence t
                        /\ VoiceAgent.language r = IndianSTTProcessor.language t
                        /\ model_used r = IndianSTTProcessor.model t
                        /\ VoiceAgent.error r = None
                        /\ warning r = None)))
          \/ (text t <> ""
              /\ Qle_bool (confidence_threshold self)
                          (IndianSTTProcessor.confidence t) = false
              /\ exists r,
                  _process_audio_file env self input = (Return r, [transcribed])
                  /\ transcription r = text t /\ enhanced_text r = text t
                  /\ VoiceAgent.confidence r = IndianSTTProcessor.confidence t
                  /\ VoiceAgent.error r = None
                  /\ warning r
                     = Some ("Low confidence ("
                             ++ format_2f env (IndianSTTProcessor.confidence t)
                             ++ "), minimal processing applied")).
Proof.
  cbv zeta. unfold _process_audio_file.
  destruct (dict_get "audio_path" input) as [audio_path|]; [|now left].
  destruct (truthy audio_path) eqn:Hp; cbn [negb]; [|now left].
  destruct (mem_string _ (supported_languages self)) eqn:Hl; cbn [negb];
    [|right; now left].
  right; right. exists audio_path.
  assert (Hne : audio_path <> "").
  { intros E. apply truthy_empty in E. congruence. }
  repeat (split; [first [reflexivity | assumption]|]).
  set (t := transcribe_audio _ _ _).
  destruct (truthy (text t)) eqn:Ht; cbn [negb].
  - assert (Hte : text t <> "").
    { intros E. apply truthy_empty in E. congruence. }
    destruct (Qle_bool _ _) eqn:Hq.
    + right; left. repeat (split; [first [reflexivity | assumption]|]).
      destruct (process_text env _ _) as [text_result|e] eqn:Hpt.
      * destruct (final text_result) as [final_text|] eqn:Hf.
        -- right. eexists; exists text_result.
           repeat (split; [first [reflexivity | assumption]|]). reflexivity.
        -- left. eexists; reflexivity.
      * left. eexists; reflexivity.
    + right; right. repeat (split; [first [reflexivity | assumption]|]).
      eexists. repeat (split; [reflexivity|]). reflexivity.
  - left. split; [now apply truthy_empty|].
    do 2 eexists. repeat (split; [reflexivity|]). reflexivity.
Qed.

Lemma loaded_transcript_confidence load_model audio_path language_code :
  let t := transcribe_audio (_load_models load_model) audio_path language_code in
  text t <> "" -> IndianSTTProcessor.confidence t = 8 # 10.
Proof.
  cbv zeta. unfold transcribe_audio, _load_models.
  destruct load_model as [whisper|e]; cbn.
  - unfold _transcribe_whisper; cbn.
    destruct (whisper audio_path _); cbn; intros H; [reflexivity|].
    now contradiction H.
  - intros H. now contradiction H.
Qed.

(** X17.  What a request that [_validate_input] accepts does in
    [process]: its language is a supported one; as an audio file it
    has an audio path, and is refused when that path is empty and
    otherwise transcribed first, under the language of the request; as
    a text enhancement it has a text, and is refused when that text is
    empty and otherwise handed to the text processor, and to it only,
    under the language of the request or English; under any other type
    it is accepted by the validation and refused by [process] before
    any processor is called. *)
Theorem validated_request_outcomes env self input :
  _validate_input self input = InputValid ->
  let processing_type := get_or input "type" "audio_file" in
  let language_code := get_or input "language" "auto" in
  mem_string language_code (supported_languages self) = true
  /\ (processing_type = "audio_file" ->
      exists audio_path,
        dict_get "audio_path" input = Some audio_path
        /\ (audio_path = "" ->
            process env self input = (Raise "Audio path is required", []))
        /\ (audio_path <> "" ->
            exists rest,
              snd (process env self input)
              = EvTranscribe audio_path language_code :: rest))
  /\ (processing_type = "text_enhancement" ->
      exists t,
        dict_get "text" input = Some t
        /\ (t = "" ->
            process env self input
            = (Raise "Text is required for enhancement", []))
        /\ (t <> "" ->
            snd (process env self input)
            = [EvProcessText t (get_or input "language" "en")]))
  /\ (processing_type <> "audio_file" ->
      processing_type <> "text_enhancement" ->
      exists e, process env self input = (Raise e, [])).
Proof.
  intros Hv. cbv zeta. unfold _validate_input in Hv. unfold process.
  assert (Hlang : mem_string (get_or input "language" "auto")
                    (supported_languages self) = true).
  { destruct (mem_string _ (supported_languages self)); [reflexivity|].
    cbn [negb] in Hv.
    repeat match type of Hv with
           | (if ?b then _ else _) = _ => destruct b
           end; discriminate. }
  split; [exact Hlang|].
  destruct (String.eqb_spec (get_or input "type" "audio_file") "audio_file")
    as [Ea|Na].
  - split; [|split]; [intros _|intros E; congruence|intros N; contradiction].
    unfold has_key in Hv.
    destruct (dict_get "audio_path" input) as [audio_path|] eqn:Hd;
      [|discriminate].
    exists audio_path. split; [reflexivity|].
    unfold lift, _process_audio_file. rewrite Hd, Hlang. cbn [negb].
    split; intros Hp.
    + subst audio_path. reflexivity.
    + assert (Ht : truthy audio_path = true).
      { destruct (truthy audio_path) eqn:Ht; [reflexivity|].
        apply truthy_empty in Ht. contradiction. }
      rewrite Ht. cbn [negb].
      repeat match goal with
             | |- context [if ?b then _ else _] => destruct b
             | |- context [match ?o with Return _ => _ | Raise _ => _ end] =>
                 destruct o
             | |- context [match ?o with Some _ => _ | None => _ end] =>
                 destruct o
             end; cbn [snd]; eexists; reflexivity.
  - split; [intros E; contradiction|].
    destruct (String.eqb_spec (get_or input "type" "audio_file") "audio_stream")
      as [Es|Ns].
    + split; [intros E; congruence|]. intros _ _. eexists. reflexivity.
    + destruct (String.eqb_spec (get_or input "type" "audio_file")
                  "text_enhancement") as [Et|Nt].
      * split; [intros _|intros _ N; contradiction].
        unfold has_key in Hv.
        destruct (dict_get "text" input) as [t|] eqn:Hd; [|discriminate].
        exists t. split; [reflexivity|].
        unfold lift, _process_text_enhancement. rewrite Hd.
        split; intros Hp.
        -- subst t. reflexivity.
        -- assert (Ht : truthy t = true).
           { destruct (truthy t) eqn:Ht; [reflexivity|].
             apply truthy_empty in Ht. contradiction. }
           rewrite Ht. cbn [negb].
           destruct (process_text env _ _) as [tr|e]; [|reflexivity].
           destruct (final tr); reflexivity.
      * split; [intros E; contradiction|]. intros _ _. eexists. reflexivity.
Qed.

Lemma validated_request_outcomes_witness :
  let self := __init__ (_load_models (Raise "no model")) None in
  let input := [("audio_path", ""); ("language", "te")] in
  _validate_input self input = InputValid
  /\ forall env, process env self input = (Raise "Audio path is required", []).
Proof.
  cbv zeta.
  assert (H : _validate_input (__init__ (_load_models (Raise "no model")) None)
                [("audio_path", ""); ("language", "te")] = InputValid)
    by reflexivity.
  split; [exact H|]. intros env.
  destruct (proj1 (proj2 (validated_request_outcomes env _ _ H)) eq_refl)
    as [audio_path [Hd [He _]]].
  apply He. cbn in Hd. now injection Hd as <-.
Defined.

(** X18.  With the models as [_load_models] leaves them and a
    confidence threshold of at most 0.8, as the default 0.7 is, the
    processing of an audio file never answers with the low-confidence
    warning: an answer is the failed one, with empty texts, the
    confidence 0 and an error, after the transcription alone, or it
    carries the confidence 0.8 and the text that the text processor
    made of the transcription, the text processor having been called
    once, after the transcription, on that transcription. *)
Theorem accepted_confidence_never_warns env load_model self input r evs :
  stt_processor self = _load_models load_model ->
  confidence_threshold self <= 8 # 10 ->
  _process_audio_file env self input = (Return r, evs) ->
  warning r = None
  /\ exists audio_path,
      dict_get "audio_path" input = Some audio_path
      /\ let transcribed :=
           EvTranscribe audio_path (get_or input "language" "auto") in
         (evs = [transcribed]
          /\ transcription r = "" /\ enhanced_text r = ""
          /\ VoiceAgent.confidence r = 0 /\ VoiceAgent.error r <> None)
         \/ (exists language_code text_result,
               evs = [transcribed;
                      EvProcessText (transcription r) language_code]
               /\ process_text env (transcription r) language_code
                  = Return text_result
               /\ final text_result = Some (enhanced_text r)
               /\ transcription r <> ""
               /\ VoiceAgent.confidence r = 8 # 10
               /\ VoiceAgent.error r = None).
Proof.
  intros Hs Hq Hr.
  destruct (audio_file_cases env self input) as [H|[H|H]];
    [rewrite H in Hr; discriminate | rewrite H in Hr; discriminate|].
  destruct H as [audio_path [Hd [Hne [Hl H]]]]. cbv zeta in H.
  rewrite Hs in H.
  pose proof (loaded_transcript_confidence load_model audio_path
                (get_or input "language" "auto")) as Hc. cbv zeta in Hc.
  destruct H as [[Ht [e [r' [H [H1 [H2 [H3 [H4 H5]]]]]]]]|[H|H]].
  - rewrite H in Hr. injection Hr as <- <-.
    split; [exact H5|]. exists audio_path. split; [exact Hd|].
    left. repeat (split; [first [reflexivity | assumption]|]).
    rewrite H4. discriminate.
  - destruct H as [Hte [_ [[e H]|[r' [tr [H [Hp [Hf [H1 [H2 [_ [_ [H3 H4]]]]]]]]]]]]].
    + rewrite H in Hr. discriminate.
    + rewrite H in Hr. injection Hr as <- <-.
      split; [exact H4|]. exists audio_path. split; [exact Hd|].
      right. eexists; exists tr. rewrite H1.
      repeat (split; [first [reflexivity | assumption]|]).
      split; [rewrite H2; now apply Hc|exact H3].
  - destruct H as [Hte [Hb _]]. exfalso.
    rewrite (Hc Hte) in Hb.
    apply Qle_bool_iff in Hq. congruence.
Qed.

Lemma accepted_confidence_never_warns_witness :
  let env := {| process_text := fun t _ =>
                  Return {| final := Some (t ++ "."); corrections_applied := None;
                            text_confidence := None |};
                format_2f := fun _ => "0.80" |} in
  let whisper : Whisper := fun _ _ =>
    Return {| whisper_text := " fir in guntur "; whisper_language := None |} in
  let self := __init__ (_load_models (Return whisper)) None in
  let input := [("audio_path", "temp/a.wav")] in
  exists r evs,
    _process_audio_file env self input = (Return r, evs)
    /\ warning r = None.
Proof.
  intros env whisper self input.
  assert (E : exists r evs,
             _process_audio_file env self input = (Return r, evs)).
  { vm_compute. do 2 eexists. reflexivity. }
  destruct E as [r [evs E]]. exists r, evs. split; [exact E|].
  assert (Hq : confidence_threshold self <= 8 # 10)
    by (vm_compute; discriminate).
  exact (proj1 (accepted_confidence_never_warns env (Return whisper) self input
                  r evs eq_refl Hq E)).
Defined.

(** X19.  With the models as [_load_models] leaves them and a
    confidence threshold above 0.8, the text processor is never
    called: the processing of an audio file raises only before the
    transcription, and an answer gives the transcription itself as the
    enhanced text, with the low-confidence warning whenever the
    transcription is not empty. *)
Theorem high_threshold_skips_text_processing env load_model self input out evs :
  stt_processor self = _load_models load_model ->
  8 # 10 < confidence_threshold self ->
  _process_audio_file env self input = (out, evs) ->
  (forall t l, ~ In (EvProcessText t l) evs)
  /\ (forall e, out = Raise e -> evs = [])
  /\ (forall r, out = Return r ->
        enhanced_text r = transcription r
        /\ (transcription r <> "" ->
            warning r = Some ("Low confidence (" ++ format_2f env (8 # 10)
                              ++ "), minimal processing applied"))).
Proof.
  intros Hs Hq Hr.
  destruct (audio_file_cases env self input) as [H|[H|H]].
  - rewrite H in Hr. injection Hr as <- <-.
    split; [intros t l []|]. split; [reflexivity|discriminate].
  - rewrite H in Hr. injection Hr as <- <-.
    split; [intros t l []|]. split; [reflexivity|discriminate].
  - destruct H as [audio_path [Hd [Hne [Hl H]]]]. cbv zeta in H.
    rewrite Hs in H.
    pose proof (loaded_transcript_confidence load_model audio_path
                  (get_or input "language" "auto")) as Hc. cbv zeta in Hc.
    destruct H as [[Ht [e [r' [H [H1 [H2 [H3 [H4 H5]]]]]]]]|[H|H]].
    + rewrite H in Hr. injection Hr as <- <-.
      split; [intros t l [E|[]]; discriminate|].
      split; [discriminate|]. intros r E. injection E as <-.
      split; [congruence|]. intros N. contradiction.
    + destruct H as [Hte [Hb _]]. exfalso.
      rewrite (Hc Hte) in Hb. apply Qle_bool_iff in Hb.
      exact (Qlt_not_le _ _ Hq Hb).
    + destruct H as [Hte [_ [r' [H [H1 [H2 [H3 [H4 H5]]]]]]]].
      rewrite H in Hr. injection Hr as <- <-.
      split; [intros t l [E|[]]; discriminate|].
      split; [discriminate|]. intros r E. injection E as <-.
      split; [congruence|]. intros _. rewrite H5, (Hc Hte). reflexivity.
Qed.

Lemma high_threshold_skips_text_processing_witness :
  let env := {| process_text := fun _ _ => Raise "unused";
                format_2f := fun _ => "0.80" |} in
  let whisper : Whisper := fun _ _ =>
    Return {| whisper_text := "sho of guntur"; whisper_language := Some "en" |} in
  let self := __init__ (_load_models (Return whisper)) (Some (9 # 10)) in
  let input := [("audio_path", "temp/a.wav"); ("language", "en")] in
  8 # 10 < confidence_threshold self
  /\ forall t l,
      ~ In (EvProcessText t l) (snd (_process_audio_file env self input)).
Proof.
  intros env whisper self input.
  assert (Hq : 8 # 10 < confidence_threshold self) by reflexivity.
  split; [exact Hq|].
  exact (proj1 (high_threshold_skips_text_processing env (Return whisper) self
                  input _ _ eq_refl Hq
                  (surjective_pairing (_process_audio_file env self input)))).
Defined.

End Behaviour.
